(** * Arbitrage scanner: commission model, calculators, scanners, aggregator

    A shallow embedding of [arb_scanner.py].

    Numbers.  Python floats are idealised as exact rationals ([Q], compared
    with [==]); rounding is outside the model.  A division whose divisor
    is zero raises [ZeroDivisionError], as in Python.

    Dictionaries.  The commission table and the opportunity records are
    finite maps ([gmap string _]); dictionaries whose iteration order the
    program depends on are association lists in insertion order. *)

From Stdlib Require Import QArith Qabs Qround Lqa Qfield Ascii String Sorted.
From stdpp Require Import gmap strings list pretty.

Local Open Scope Q_scope.

(** ** Exceptions *)

Inductive exn :=
  | ZeroDivisionError | KeyError | TypeError | ValueError
  | AttributeError | IndexError.

Inductive res (A : Type) :=
  | Ok (a : A)
  | Raise (e : exn).
Arguments Ok {A} a.
Arguments Raise {A} e.

#[global] Instance res_ret : MRet res := fun A => @Ok A.
#[global] Instance res_bind : MBind res := fun A B f m =>
  match m with
  | Ok a => f a
  | Raise e => Raise e
  end.

(** [x / y] on floats. *)
Definition pydiv (x y : Q) : res Q :=
  if Qeq_bool y 0 then Raise ZeroDivisionError else Ok (x / y).

(** [[f(x) for x in l]], stopping at the first exception. *)
Fixpoint traverse {A B} (f : A -> res B) (l : list A) : res (list B) :=
  match l with
  | [] => Ok []
  | x :: l' => y ← f x; ys ← traverse f l'; Ok (y :: ys)
  end.

(** [sum(l)]: starts from 0 and adds from the left. *)
Definition py_sum (l : list Q) : Q := fold_left Qplus l 0.

(** A value that is a [str] or [None]. *)
Definition pystr := option string.

(** ** Commission model *)

Definition EXCHANGE_COMMISSION : gmap string Q :=
  <["betdaq" := 0.05]>
  (<["matchbook" := 0.015]>
  (<["smarkets" := 0.02]>
  (<["betfair_ex_au" := 0.05]>
  (<["betfair_ex_eu" := 0.05]>
  (<["betfair_ex_uk" := 0.05]> ∅))))).

(** [EXCHANGE_COMMISSION.get(bookmaker_key, 0.0)] *)
Definition commission_of (bookmaker_key : pystr) : Q :=
  match bookmaker_key with
  | Some k => default 0 (EXCHANGE_COMMISSION !! k)
  | None => 0
  end.

Definition adjust_odds_for_commission (odds : Q) (bookmaker_key : pystr) : Q :=
  let commission := commission_of bookmaker_key in
  if Qeq_bool commission 0 then odds
  else 1 + (odds - 1) * (1 - commission).

(** ** Calculators *)

Definition calc_arb_equal_payout (odds_a odds_b : Q)
    (bookmaker_a bookmaker_b : pystr) : res (option (Q * Q * Q)) :=
  if Qle_bool odds_a 1 || Qle_bool odds_b 1 then Ok None
  else
    let effective_odds_a := adjust_odds_for_commission odds_a bookmaker_a in
    let effective_odds_b := adjust_odds_for_commission odds_b bookmaker_b in
    ia ← pydiv 1 effective_odds_a;
    ib ← pydiv 1 effective_odds_b;
    let inv := ia + ib in
    if Qle_bool 1 inv then Ok None
    else
      let total := 100 in
      ta ← pydiv total effective_odds_a;
      stake_a ← pydiv ta inv;
      tb ← pydiv total effective_odds_b;
      stake_b ← pydiv tb inv;
      Ok (Some (stake_a, stake_b, stake_a + stake_b)).

(** The list the calculators divide by: the adjusted odds when a key list
    of the same length is supplied, the raw odds otherwise. *)
Definition effective_odds_of (odds_list : list Q)
    (bookmaker_keys : option (list pystr)) : list Q :=
  match bookmaker_keys with
  | Some (k :: ks) =>
      if decide (length (k :: ks) = length odds_list)
      then zip_with adjust_odds_for_commission odds_list (k :: ks)
      else odds_list
  | _ => odds_list
  end.

Definition calc_nway_arb (odds_list : list Q)
    (bookmaker_keys : option (list pystr)) : res (option (list Q * Q)) :=
  match odds_list with
  | [] => Ok None
  | _ =>
    if existsb (fun o => Qle_bool o 1) odds_list then Ok None
    else
      let effective_odds := effective_odds_of odds_list bookmaker_keys in
      invs ← traverse (pydiv 1) effective_odds;
      let inv_sum := py_sum invs in
      if Qle_bool 1 inv_sum then Ok None
      else
        let total := 100 in
        stakes ← traverse (fun o => pydiv total (o * inv_sum)) effective_odds;
        Ok (Some (stakes, py_sum stakes))
  end.

Definition _arb_profit_pct (odds_a odds_b : Q)
    (bookmaker_a bookmaker_b : pystr) : res Q :=
  let effective_odds_a := adjust_odds_for_commission odds_a bookmaker_a in
  let effective_odds_b := adjust_odds_for_commission odds_b bookmaker_b in
  ia ← pydiv 1 effective_odds_a;
  ib ← pydiv 1 effective_odds_b;
  let inv := ia + ib in
  r ← pydiv 1 inv;
  Ok (100 * (r - 1)).

Definition _nway_arb_profit_pct (odds_list : list Q)
    (bookmaker_keys : option (list pystr)) : res Q :=
  let effective_odds := effective_odds_of odds_list bookmaker_keys in
  invs ← traverse (pydiv 1) effective_odds;
  let inv_sum := py_sum invs in
  r ← pydiv 1 inv_sum;
  Ok (100 * (r - 1)).


(** ** The odds feed

    The feed is JSON.  A scalar field of an object is absent, [null] or
    present; [d.get(k)] and [d.get(k, default)] tell the first two apart.
    Fields read only through [d.get(k)] are options.  The list-valued
    fields (bookmakers, markets, outcomes) are lists, an absent one being
    empty.  Numbers of the feed are floats. *)

Inductive field (A : Type) :=
  | Absent
  | Null
  | Present (a : A).
Arguments Absent {A}.
Arguments Null {A}.
Arguments Present {A} a.

(** [d.get(k)] *)
Definition get {A} (f : field A) : option A :=
  match f with
  | Present a => Some a
  | _ => None
  end.

(** [d.get(k, default)] *)
Definition get_or {A} (f : field A) (default : option A) : option A :=
  match f with
  | Absent => default
  | Null => None
  | Present a => Some a
  end.

Record outcome := {
  o_name : field string;
  o_price : option Q;
  o_point : option Q;
  o_description : option string;
}.

Record market := {
  m_key : option string;
  m_outcomes : list outcome;
}.

Record bookmaker := {
  bm_key : field string;
  bm_title : field string;
  bm_last_update : option string;
  bm_markets : list market;
}.

Record event := {
  ev_id : field string;
  ev_home_team : field string;
  ev_away_team : field string;
  ev_commence_time : field string;
  ev_bookmakers : list bookmaker;
}.

(** ** Opportunity records: Python dicts with string keys *)

Inductive val :=
  | VNone
  | VStr (s : string)
  | VNum (q : Q).

Abbreviation arb := (gmap string val).

(** A dict literal: later keys override earlier ones. *)
Definition dict_of (l : list (string * val)) : arb :=
  fold_left (fun d kv => <[kv.1 := kv.2]> d) l ∅.

Definition vstr (s : pystr) : val :=
  match s with
  | Some s => VStr s
  | None => VNone
  end.

(** [a.get(k, d)] and [a[k]] *)
Definition py_get (a : arb) (k : string) (d : val) : val := default d (a !! k).

Definition py_item (a : arb) (k : string) : res val :=
  match a !! k with
  | Some v => Ok v
  | None => Raise KeyError
  end.

(** The record has a number above 0 under ["profit_pct"]. *)
Definition profit_positive (a : arb) : Prop :=
  exists p, a !! "profit_pct" = Some (VNum p) /\ 0 < p.

(** ** Python values and built-ins *)

(** Built-ins whose definition lies outside the repository. *)
Class PyBuiltins := {
  str_lower : string -> string;      (* s.lower() *)
  str_strip : string -> string;      (* s.strip() *)
  fmt_float : Q -> string;           (* f"{x}" *)
  fmt_signed : nat -> Q -> string;   (* f"{x:+.1f}", f"{x:+.2f}" *)
  py_int : string -> res Z;          (* int(s) *)
}.

(** Truth value of a [str] or [None]. *)
Definition truthy (s : pystr) : bool :=
  match s with
  | Some s => negb (String.eqb s "")
  | None => false
  end.

(** [s or ""] *)
Definition or_empty (s : pystr) : string := default "" s.

(** [f"{s}"] *)
Definition str_of (s : pystr) : string := default "None" s.

(** [k in S] for a frozenset of strings. *)
Definition in_set (k : pystr) (S : gset string) : bool :=
  match k with
  | Some k => bool_decide (k ∈ S)
  | None => false
  end.

(** [s.replace(" ", "")] *)
Fixpoint remove_spaces (s : string) : string :=
  match s with
  | EmptyString => EmptyString
  | String c s' =>
      if Ascii.eqb c " "%char then remove_spaces s' else String c (remove_spaces s')
  end.

(** [s.endswith(suffix)] *)
Fixpoint str_endswith (suffix s : string) : bool :=
  if String.eqb s suffix then true
  else match s with
       | EmptyString => false
       | String _ s' => str_endswith suffix s'
       end.

(** [s.split('-')[0]] *)
Fixpoint before_dash (s : string) : string :=
  match s with
  | EmptyString => EmptyString
  | String c s' => if Ascii.eqb c "-"%char then EmptyString else String c (before_dash s')
  end.

Definition Qlt_bool (x y : Q) : bool := negb (Qle_bool y x).

(** [x % m] for a positive [m]. *)
Definition py_mod (x m : Q) : Q := x - m * inject_Z (Qfloor (x / m)).

(** [max(l, key=key)]: the first element whose key is maximal. *)
Definition py_max {A} (key : A -> Q) (l : list A) : res A :=
  match l with
  | [] => Raise ValueError
  | x :: l' =>
      Ok (fold_left (fun best y => if Qlt_bool (key best) (key y) then y else best) l' x)
  end.

(** ** Loops *)

(** [for x in l: s = body(x, s)] without exceptions. *)
Definition foreach {A S} (l : list A) (body : A -> S -> S) (s : S) : S :=
  fold_left (fun s x => body x s) l s.

(** The same for a body that may raise. *)
Fixpoint for_each {A S} (l : list A) (body : A -> S -> res S) (s : S) : res S :=
  match l with
  | [] => Ok s
  | x :: l' => s' ← body x s; for_each l' body s'
  end.

(** A loop whose body may [break]: the body returns the new state and
    whether it broke out. *)
Fixpoint for_break {A S} (l : list A) (body : A -> S -> res (S * bool)) (s : S)
    : res S :=
  match l with
  | [] => Ok s
  | x :: l' =>
      '(s', stop) ← body x s;
      if stop : bool then Ok s' else for_break l' body s'
  end.

(** [[x for x in l if f(x)]] for a test that may raise. *)
Fixpoint filter_res {A} (f : A -> res bool) (l : list A) : res (list A) :=
  match l with
  | [] => Ok []
  | x :: l' =>
      b ← f x;
      l'' ← filter_res f l';
      Ok (if b : bool then x :: l'' else l'')
  end.

(** The computation returns, and its result satisfies [P]. *)
Definition returns {S} (P : S -> Prop) (m : res S) : Prop :=
  exists s, m = Ok s /\ P s.

(** ** Dictionaries in insertion order *)

Fixpoint dict_get {K V} (eqb : K -> K -> bool) (k : K) (d : list (K * V)) : option V :=
  match d with
  | [] => None
  | (k', v) :: d' => if eqb k' k then Some v else dict_get eqb k d'
  end.

(** [d[k] = f(d[k])], a missing key being first set to [dflt]: an existing
    key keeps its position, a new one goes last. *)
Fixpoint dict_upd {K V} (eqb : K -> K -> bool) (k : K) (dflt : V) (f : V -> V)
    (d : list (K * V)) : list (K * V) :=
  match d with
  | [] => [(k, f dflt)]
  | (k', v) :: d' =>
      if eqb k' k then (k', f v) :: d' else (k', v) :: dict_upd eqb k dflt f d'
  end.

(** [d[k].append(v)] on a [defaultdict(list)]. *)
Definition dict_append {K V} (eqb : K -> K -> bool) (k : K) (v : V)
    (d : list (K * list V)) : list (K * list V) :=
  dict_upd eqb k [] (fun vs => vs ++ [v]) d.

(** ** Bookmaker sets and the process-wide settings *)

Definition TRUSTED_BOOKMAKERS : gset string :=
  {[ "bet365"; "betway"; "unibet"; "bwin"; "betsson"; "pinnacle"; "marathonbet";
     "betclic"; "betfair"; "williamhill"; "betano"; "sportingbet"; "888sport";
     "sport888"; "nordicbet"; "coolbet"; "betvictor"; "betfair_sb_uk";
     "betfair_ex_eu"; "betfair_ex_uk" ]}.

Definition BETFAIR_EXCHANGES : gset string :=
  {[ "betfair_ex_uk"; "betfair_ex_eu"; "betfair_ex_au" ]}.

Definition NON_BETFAIR_EXCHANGES : gset string :=
  {[ "betopenly"; "kalshi"; "novig"; "polymarket"; "prophetx"; "smarkets";
     "matchbook" ]}.

Definition UNRELIABLE_BOOKMAKERS : gset string := {[ "williamhill"; "unibet_uk" ]}.

Definition BLACKLIST_BOOKMAKERS : gset string := {[ "paddypower"; "paddy_power" ]}.

Definition FINLAND_RESTRICTED : gset string :=
  {[ "betmgm"; "draftkings"; "fanduel"; "betrivers"; "fanatics"; "williamhill_us";
     "ballybet"; "betparx"; "espnbet"; "hardrockbet"; "fliff"; "rebet";
     "pointsbetus"; "barstool"; "betfair_ex_au"; "betr_au"; "betright";
     "boombet"; "ladbrokes_au"; "neds"; "playup"; "pointsbetau"; "sportsbet";
     "tab"; "tabtouch"; "gtbets"; "bovada"; "virginbet"; "livescorebet";
     "coral"; "ladbrokes_uk"; "codere_it" ]}.

(** The module's global flags, passed explicitly. *)
Record settings := {
  _INCLUDE_UNRELIABLE : bool;
  _USE_ALL_BOOKS : bool;
  _INCLUDE_EXCHANGES : bool;
  _FINLAND_ONLY : bool;
  _TWO_WAY_ONLY : bool;
  _ENABLE_3WAY : bool;
  _ENABLE_4WAY : bool;
  _MAX_NWAY : nat;
  _EXCLUDE_BOOKS : gset string;
}.

(** The module's defaults. *)
Definition default_settings : settings := {|
  _INCLUDE_UNRELIABLE := false;
  _USE_ALL_BOOKS := false;
  _INCLUDE_EXCHANGES := false;
  _FINLAND_ONLY := true;
  _TWO_WAY_ONLY := false;
  _ENABLE_3WAY := false;
  _ENABLE_4WAY := false;
  _MAX_NWAY := 4;
  _EXCLUDE_BOOKS := ∅;
|}.

(** ** Quotes and records shared by the scanners *)

(** [(bookmaker key, bookmaker title, odds, last update)] *)
Abbreviation quote := (pystr * pystr * Q * pystr)%type.

(** [(outcome name, line, bookmaker key, bookmaker title, odds, last update)] *)
Abbreviation line_quote := (pystr * Q * pystr * pystr * Q * pystr)%type.

Definition py_empty {A} (l : list A) : bool :=
  match l with
  | [] => true
  | _ => false
  end.

(** [bm.get("key", "?")] and [bm.get("title", bm.get("key", "?"))] *)
Definition bk_of (bm : bookmaker) : pystr := get_or (bm_key bm) (Some "?").
Definition title_of (bm : bookmaker) : pystr := get_or (bm_title bm) (bk_of bm).

Definition quote_of (bm : bookmaker) (price : Q) : quote :=
  (bk_of bm, title_of bm, price, bm_last_update bm).

Definition line_quote_of (bm : bookmaker) (name : pystr) (pt price : Q) : line_quote :=
  (name, pt, bk_of bm, title_of bm, price, bm_last_update bm).

(** The five entries every record starts with. *)
Definition event_entries (sport_key : string) (ev : event) : list (string * val) :=
  [ ("sport_key", VStr sport_key);
    ("event_id", vstr (get_or (ev_id ev) (Some "")));
    ("home", vstr (get_or (ev_home_team ev) (Some "Home")));
    ("away", vstr (get_or (ev_away_team ev) (Some "Away")));
    ("commence", vstr (get_or (ev_commence_time ev) (Some ""))) ].

(** The dict literal of the two-leg scanners; [extra] holds the entries
    that only the cross-line scanner adds. *)
Definition arb2 (sport_key : string) (ev : event) (market line : val)
    (arb_type : string) (side_a side_b : val) (b1 b2 : pystr) (o1 o2 : Q)
    (res : Q * Q * Q) (profit : Q) (lu1 lu2 : pystr)
    (extra : list (string * val)) : arb :=
  dict_of (event_entries sport_key ev ++
    [ ("market", market);
      ("line", line);
      ("arb_type", VStr arb_type);
      ("side_a", side_a);
      ("side_b", side_b);
      ("book_a", vstr b1);
      ("book_b", vstr b2);
      ("odds_a", VNum o1);
      ("odds_b", VNum o2);
      ("stake_a", VNum res.1.1);
      ("stake_b", VNum res.1.2);
      ("total_stake", VNum res.2);
      ("profit_pct", VNum profit);
      ("last_update_a", vstr lu1);
      ("last_update_b", vstr lu2) ] ++ extra).

(** [res = calc_arb_equal_payout(o1, o2, bk1, bk2); if res: arbs.append({...})]
    The flag tells whether a record was appended. *)
Definition emit2 (o1 o2 : Q) (bk1 bk2 : pystr) (record : Q * Q * Q -> Q -> arb)
    (arbs : list arb) : res (list arb * bool) :=
  res ← calc_arb_equal_payout o1 o2 bk1 bk2;
  match res with
  | Some r =>
      profit ← _arb_profit_pct o1 o2 bk1 bk2;
      Ok (arbs ++ [record r profit], true)
  | None => Ok (arbs, false)
  end.

(** The double loop over two lists of quotes that [scan_totals],
    [scan_team_totals], [scan_double_chance], [scan_btts] and
    [scan_draw_no_bet] each write out; with [first_only] the inner loop
    ends at the first record ([break]), as in [scan_h2h]. *)
Definition pair_quotes (first_only : bool) (l1 l2 : list quote)
    (record : quote -> quote -> Q * Q * Q -> Q -> arb)
    (arbs : list arb) : res (list arb) :=
  for_each l1 (fun q1 arbs =>
    let '(bk1, b1, o1, lu1) := q1 in
    for_break l2 (fun q2 arbs =>
      let '(bk2, b2, o2, lu2) := q2 in
      if decide (bk1 = bk2) then Ok (arbs, false)
      else
        '(arbs, appended) ← emit2 o1 o2 bk1 bk2 (record q1 q2) arbs;
        Ok (arbs, appended && first_only)) arbs) arbs.

(** The double loop of the spread scanners over the negative and the
    positive lines; [scan_spreads] and [scan_alternate_spreads_enhanced]
    [break] after a record, [scan_asian_handicap] does not. *)
Definition pair_lines (first_only : bool) (neg pos : list line_quote)
    (record : line_quote -> line_quote -> Q * Q * Q -> Q -> arb)
    (arbs : list arb) : res (list arb) :=
  for_each neg (fun q1 arbs =>
    let '(n1, p1, bk1, b1, o1, lu1) := q1 in
    for_break pos (fun q2 arbs =>
      let '(n2, p2, bk2, b2, o2, lu2) := q2 in
      if decide (bk1 = bk2) then Ok (arbs, false)
      else if decide (n1 = n2) then Ok (arbs, false)
      else
        '(arbs, appended) ← emit2 o1 o2 bk1 bk2 (record q1 q2) arbs;
        Ok (arbs, appended && first_only)) arbs) arbs.

(** [by_line[line][name].append(q)] on the
    [defaultdict(lambda: {"Over": [], "Under": []})]. *)
Definition add_side {K} (eqb : K -> K -> bool) (k : K) (name : pystr) (q : quote)
    (d : list (K * (list quote * list quote))) : list (K * (list quote * list quote)) :=
  dict_upd eqb k ([], []) (fun sides =>
    if decide (name = Some "Over") then (sides.1 ++ [q], sides.2)
    else (sides.1, sides.2 ++ [q])) d.

Definition is_over_under (name : pystr) : bool :=
  bool_decide (name = Some "Over") || bool_decide (name = Some "Under").

(** [(line, odds, bookmaker key, bookmaker title, last update)] *)
Abbreviation cross_quote := (Q * Q * pystr * pystr * pystr)%type.

(** [(bookmaker key, bookmaker title, odds, last update, name, point)] *)
Abbreviation named_quote := (pystr * pystr * Q * pystr * string * option Q)%type.

(** A numbered leg of the dynamic scanner:
    [(i, (name, (odds, (stake, ((key, title), update)))))]. *)
Abbreviation numbered_leg :=
  (nat * (string * (Q * (Q * ((pystr * pystr) * pystr)))))%type.

(** The six entries the dynamic scanner writes for leg [i]. *)
Definition add_leg (leg : numbered_leg) (arb_dict : arb) : arb :=
  let '(i, (name, (odds, (stake, (book, update))))) := leg in
  <["last_update_" +:+ pretty i := vstr update]>
  (<["book_" +:+ pretty i +:+ "_key" := vstr book.1]>
  (<["book_" +:+ pretty i := vstr book.2]>
  (<["stake_" +:+ pretty i := VNum stake]>
  (<["odds_" +:+ pretty i := VNum odds]>
  (<["outcome_" +:+ pretty i := VStr name]> arb_dict))))).

(** The deduplication key of the aggregator. *)
Abbreviation arb_key := (val * val * val * val)%type.

Section scanners.
Context {builtins : PyBuiltins} (cfg : settings).

Definition _filter_bookmakers (bookmakers : list bookmaker) : list bookmaker :=
  foreach bookmakers (fun bm out =>
    let key := get_or (bm_key bm) (Some "") in
    if truthy key && in_set (str_lower <$> key) (_EXCLUDE_BOOKS cfg) then out
    else if in_set key BLACKLIST_BOOKMAKERS then out
    else if in_set key NON_BETFAIR_EXCHANGES then out
    else if negb (_INCLUDE_EXCHANGES cfg) && in_set key BETFAIR_EXCHANGES then out
    else if _FINLAND_ONLY cfg && in_set key FINLAND_RESTRICTED then out
    else if negb (_USE_ALL_BOOKS cfg) && negb (in_set key TRUSTED_BOOKMAKERS) then out
    else if negb (_INCLUDE_UNRELIABLE cfg) && in_set key UNRELIABLE_BOOKMAKERS then out
    else out ++ [bm]) [].

Definition is_two_way_market (outcomes : list outcome) : bool :=
  if negb (length outcomes =? 2)%nat then false
  else
    let names := map (fun o => str_lower (str_strip (or_empty (get (o_name o))))) outcomes in
    negb (bool_decide ("draw" ∈ names)).

(** *** Over/Under markets *)

Definition scan_totals (events : list event) (sport_key market_key : string)
    : res (list arb) :=
  for_each events (fun ev arbs =>
    let bookmakers := _filter_bookmakers (ev_bookmakers ev) in
    let by_line :=
      foreach bookmakers (fun bm by_line =>
        foreach (bm_markets bm) (fun mkt by_line =>
          if decide (m_key mkt = Some market_key) then
            foreach (m_outcomes mkt) (fun o by_line =>
              let name := get_or (o_name o) (Some "") in
              match o_point o, o_price o with
              | Some point, Some price =>
                  if is_over_under name
                  then add_side Qeq_bool point name (quote_of bm price) by_line
                  else by_line
              | _, _ => by_line
              end) by_line
          else by_line) by_line) [] in
    for_each by_line (fun '(line, (overs, unders)) arbs =>
      if py_empty overs || py_empty unders then Ok arbs
      else
        pair_quotes false overs unders
          (fun '(bk1, b1, o1, lu1) '(bk2, b2, o2, lu2) res profit =>
             arb2 sport_key ev (VStr market_key) (VNum line) "2-way"
               (VStr "Over") (VStr "Under") b1 b2 o1 o2 res profit lu1 lu2 [])
          arbs) arbs) [].

(** The body repeats [scan_totals] with the market key fixed. *)
Definition scan_alternate_totals_enhanced (events : list event) (sport_key : string)
    : res (list arb) :=
  scan_totals events sport_key "alternate_totals".

Definition scan_team_totals (events : list event) (sport_key market_key : string)
    : res (list arb) :=
  for_each events (fun ev arbs =>
    let bookmakers := _filter_bookmakers (ev_bookmakers ev) in
    let by_team_line :=
      foreach bookmakers (fun bm by_team_line =>
        foreach (bm_markets bm) (fun mkt by_team_line =>
          if decide (m_key mkt = Some market_key) then
            foreach (m_outcomes mkt) (fun o by_team_line =>
              let name := get_or (o_name o) (Some "") in
              let desc := str_strip (or_empty (o_description o)) in
              match o_point o, o_price o with
              | Some point, Some price =>
                  if is_over_under name then
                    let team := if String.eqb desc "" then "Team" else desc in
                    add_side (fun k1 k2 => String.eqb k1.1 k2.1 && Qeq_bool k1.2 k2.2)
                      (team, point) name (quote_of bm price) by_team_line
                  else by_team_line
              | _, _ => by_team_line
              end) by_team_line
          else by_team_line) by_team_line) [] in
    for_each by_team_line (fun '((team, line), (overs, unders)) arbs =>
      if py_empty overs || py_empty unders then Ok arbs
      else
        pair_quotes false overs unders
          (fun '(bk1, b1, o1, lu1) '(bk2, b2, o2, lu2) res profit =>
             arb2 sport_key ev (VStr (market_key +:+ "(" +:+ team +:+ ")"))
               (VNum line) "2-way"
               (VStr "Over") (VStr "Under") b1 b2 o1 o2 res profit lu1 lu2 [])
          arbs) arbs) [].

(** *** Cross-line middles *)

Definition scan_cross_line_opportunities (events : list event) (sport_key : string)
    : res (list arb) :=
  for_each events (fun ev arbs =>
    let bookmakers := _filter_bookmakers (ev_bookmakers ev) in
    let all :=
      foreach bookmakers (fun bm all =>
        foreach (bm_markets bm) (fun mkt all =>
          if bool_decide (m_key mkt = Some "totals")
             || bool_decide (m_key mkt = Some "alternate_totals") then
            foreach (m_outcomes mkt) (fun o (all : list cross_quote * list cross_quote) =>
              let name := get_or (o_name o) (Some "") in
              match o_point o, o_price o with
              | Some line, Some odds =>
                  let bk := bk_of bm in
                  let title := get_or (bm_title bm) bk in
                  let lu := bm_last_update bm in
                  if decide (name = Some "Over")
                  then (all.1 ++ [(line, odds, bk, title, lu)], all.2)
                  else if decide (name = Some "Under")
                  then (all.1, all.2 ++ [(line, odds, bk, title, lu)])
                  else all
              | _, _ => all
              end) all
          else all) all) ([], []) in
    for_each all.1 (fun '(line_over, odds_over, bk_over, title_over, lu_over) arbs =>
      for_each all.2 (fun '(line_under, odds_under, bk_under, title_under, lu_under) arbs =>
        if decide (bk_over = bk_under) then Ok arbs
        else if Qle_bool line_under line_over then Ok arbs
        else
          '(arbs, _) ← emit2 odds_over odds_under bk_over bk_under
            (fun res profit =>
               let gap := line_under - line_over in
               arb2 sport_key ev (VStr "cross_line_totals")
                 (VStr (fmt_float line_over +:+ "/" +:+ fmt_float line_under))
                 "2-way-middle"
                 (VStr ("Over " +:+ fmt_float line_over))
                 (VStr ("Under " +:+ fmt_float line_under))
                 title_over title_under odds_over odds_under res profit
                 lu_over lu_under
                 [ ("gap", VNum gap);
                   ("type", VStr (if Qlt_bool 1 gap then "middle" else "scalp")) ])
            arbs;
          Ok arbs) arbs) arbs) [].

(** *** Double chance, both teams to score, draw no bet *)

Definition scan_double_chance (events : list event) (sport_key : string)
    : res (list arb) :=
  for_each events (fun ev arbs =>
    let bookmakers := _filter_bookmakers (ev_bookmakers ev) in
    let by_outcome :=
      foreach bookmakers (fun bm by_outcome =>
        foreach (bm_markets bm) (fun mkt by_outcome =>
          if decide (m_key mkt = Some "double_chance") then
            foreach (m_outcomes mkt) (fun o by_outcome =>
              let name :=
                str_lower (remove_spaces (or_empty (get_or (o_name o) (Some "")))) in
              match o_price o with
              | Some price =>
                  if String.eqb name "" then by_outcome
                  else dict_append String.eqb name (quote_of bm price) by_outcome
              | None => by_outcome
              end) by_outcome
          else by_outcome) by_outcome) [] in
    let pairs :=
      [("homeordraw", "away"); ("awayordraw", "home"); ("homeoraway", "draw")] in
    for_each pairs (fun '(n1, n2) arbs =>
      match dict_get String.eqb n1 by_outcome, dict_get String.eqb n2 by_outcome with
      | Some l1, Some l2 =>
          pair_quotes false l1 l2
            (fun '(bk1, b1, o1, lu1) '(bk2, b2, o2, lu2) res profit =>
               arb2 sport_key ev (VStr "double_chance")
                 (VStr (n1 +:+ " vs " +:+ n2)) "2-way"
                 (VStr n1) (VStr n2) b1 b2 o1 o2 res profit lu1 lu2 [])
            arbs
      | _, _ => Ok arbs
      end) arbs) [].

Definition scan_btts (events : list event) (sport_key : string) : res (list arb) :=
  for_each events (fun ev arbs =>
    let bookmakers := _filter_bookmakers (ev_bookmakers ev) in
    let odds :=
      foreach bookmakers (fun bm odds =>
        foreach (bm_markets bm) (fun mkt odds =>
          if decide (m_key mkt = Some "btts") then
            foreach (m_outcomes mkt) (fun o (odds : list quote * list quote) =>
              let name := get_or (o_name o) (Some "") in
              match o_price o with
              | Some price =>
                  if truthy name && bool_decide (str_lower <$> name = Some "yes")
                  then (odds.1 ++ [quote_of bm price], odds.2)
                  else if truthy name && bool_decide (str_lower <$> name = Some "no")
                  then (odds.1, odds.2 ++ [quote_of bm price])
                  else odds
              | None => odds
              end) odds
          else odds) odds) ([], []) in
    pair_quotes false odds.1 odds.2
      (fun '(bk1, b1, o1, lu1) '(bk2, b2, o2, lu2) res profit =>
         arb2 sport_key ev (VStr "btts") VNone "2-way"
           (VStr "Yes") (VStr "No") b1 b2 o1 o2 res profit lu1 lu2 [])
      arbs) [].

Definition scan_draw_no_bet (events : list event) (sport_key : string)
    : res (list arb) :=
  for_each events (fun ev arbs =>
    let home := get_or (ev_home_team ev) (Some "Home") in
    let away := get_or (ev_away_team ev) (Some "Away") in
    let bookmakers := _filter_bookmakers (ev_bookmakers ev) in
    let odds :=
      foreach bookmakers (fun bm odds =>
        foreach (bm_markets bm) (fun mkt odds =>
          if decide (m_key mkt = Some "draw_no_bet") then
            foreach (m_outcomes mkt) (fun o (odds : list quote * list quote) =>
              let name := get_or (o_name o) (Some "") in
              match o_price o with
              | Some price =>
                  let n := str_lower (or_empty name) in
                  if String.eqb n "home"
                     || (truthy home && bool_decide (Some n = str_lower <$> home))
                  then (odds.1 ++ [quote_of bm price], odds.2)
                  else if String.eqb n "away"
                     || (truthy away && bool_decide (Some n = str_lower <$> away))
                  then (odds.1, odds.2 ++ [quote_of bm price])
                  else odds
              | None => odds
              end) odds
          else odds) odds) ([], []) in
    pair_quotes false odds.1 odds.2
      (fun '(bk1, b1, o1, lu1) '(bk2, b2, o2, lu2) res profit =>
         arb2 sport_key ev (VStr "draw_no_bet") VNone "2-way"
           (VStr "Home") (VStr "Away") b1 b2 o1 o2 res profit lu1 lu2 [])
      arbs) [].

(** *** Head to head, two outcomes *)

(** The frozenset [market_keys] is iterated in the order of [elements]. *)
Definition scan_h2h (events : list event) (sport_key : string)
    (market_keys : gset string) : res (list arb) :=
  for_each events (fun ev arbs =>
    let bookmakers := _filter_bookmakers (ev_bookmakers ev) in
    for_each (elements market_keys) (fun mkt_key arbs =>
      let outcomes_by_side :=
        foreach bookmakers (fun bm by_side =>
          foreach (bm_markets bm) (fun mkt by_side =>
            if decide (m_key mkt = Some mkt_key) then
              let outs := m_outcomes mkt in
              if (if _TWO_WAY_ONLY cfg then is_two_way_market outs
                  else (length outs =? 2)%nat)
              then
                foreach outs (fun o by_side =>
                  let name := get_or (o_name o) (Some "") in
                  match name, o_price o with
                  | Some name, Some price =>
                      if String.eqb name "" then by_side
                      else dict_append String.eqb name (quote_of bm price) by_side
                  | _, _ => by_side
                  end) by_side
              else by_side
            else by_side) by_side) [] in
      match outcomes_by_side with
      | [(a_side, l1); (b_side, l2)] =>
          pair_quotes true l1 l2
            (fun '(bk1, b1, o1, lu1) '(bk2, b2, o2, lu2) res profit =>
               arb2 sport_key ev (VStr mkt_key) VNone "2-way"
                 (VStr a_side) (VStr b_side) b1 b2 o1 o2 res profit lu1 lu2 [])
            arbs
      | _ => Ok arbs
      end) arbs) [].

(** *** Spreads and handicaps *)

Definition negative_lines (outcomes : list line_quote) : list line_quote :=
  List.filter (fun q => Qlt_bool q.1.1.1.1.2 0) outcomes.

Definition positive_lines (outcomes : list line_quote) : list line_quote :=
  List.filter (fun q => Qlt_bool 0 q.1.1.1.1.2) outcomes.

Definition spread_record (sport_key : string) (ev : event) (market line : val)
    (arb_type : string) (digits : nat) (q1 q2 : line_quote)
    (res : Q * Q * Q) (profit : Q) : arb :=
  let '(n1, p1, bk1, b1, o1, lu1) := q1 in
  let '(n2, p2, bk2, b2, o2, lu2) := q2 in
  arb2 sport_key ev market line arb_type
    (VStr (str_of n1 +:+ " (" +:+ fmt_signed digits p1 +:+ ")"))
    (VStr (str_of n2 +:+ " (" +:+ fmt_signed digits p2 +:+ ")"))
    b1 b2 o1 o2 res profit lu1 lu2 [].

Definition scan_spreads (events : list event) (sport_key : string)
    (market_keys : gset string) : res (list arb) :=
  for_each events (fun ev arbs =>
    let bookmakers := _filter_bookmakers (ev_bookmakers ev) in
    let by_line :=
      foreach bookmakers (fun bm by_line =>
        foreach (bm_markets bm) (fun mkt by_line =>
          match m_key mkt with
          | Some mk =>
              if bool_decide (mk ∈ market_keys) then
                foreach (m_outcomes mkt) (fun o by_line =>
                  let name := get_or (o_name o) (Some "") in
                  match name, o_point o, o_price o with
                  | Some _, Some pt, Some price =>
                      dict_append
                        (fun k1 k2 => String.eqb k1.1 k2.1 && Qeq_bool k1.2 k2.2)
                        (mk, Qabs pt) (line_quote_of bm name pt price) by_line
                  | _, _, _ => by_line
                  end) by_line
              else by_line
          | None => by_line
          end) by_line) [] in
    for_each by_line (fun '((mk, line), outcomes) arbs =>
      let neg := negative_lines outcomes in
      let pos := positive_lines outcomes in
      if py_empty neg || py_empty pos then Ok arbs
      else
        pair_lines true neg pos
          (spread_record sport_key ev (VStr mk) (VNum line) "2-way" 1) arbs) arbs) [].

Definition scan_alternate_spreads_enhanced (events : list event) (sport_key : string)
    : res (list arb) :=
  for_each events (fun ev arbs =>
    let bookmakers := _filter_bookmakers (ev_bookmakers ev) in
    let by_line :=
      foreach bookmakers (fun bm by_line =>
        foreach (bm_markets bm) (fun mkt by_line =>
          if decide (m_key mkt = Some "alternate_spreads") then
            foreach (m_outcomes mkt) (fun o by_line =>
              let name := get_or (o_name o) (Some "") in
              match name, o_point o, o_price o with
              | Some _, Some pt, Some price =>
                  dict_append Qeq_bool (Qabs pt) (line_quote_of bm name pt price) by_line
              | _, _, _ => by_line
              end) by_line
          else by_line) by_line) [] in
    for_each by_line (fun '(line, outcomes) arbs =>
      let neg := negative_lines outcomes in
      let pos := positive_lines outcomes in
      if py_empty neg || py_empty pos then Ok arbs
      else
        pair_lines true neg pos
          (spread_record sport_key ev (VStr "alternate_spreads") (VNum line) "2-way" 1)
          arbs) arbs) [].

(** [abs(line % 0.5 - 0.25) < 0.01 or abs(line % 0.5 - 0.75) < 0.01] *)
Definition quarter_line (line : Q) : bool :=
  Qlt_bool (Qabs (py_mod line 0.5 - 0.25)) 0.01
  || Qlt_bool (Qabs (py_mod line 0.5 - 0.75)) 0.01.

Definition scan_asian_handicap (events : list event) (sport_key : string)
    : res (list arb) :=
  for_each events (fun ev arbs =>
    let bookmakers := _filter_bookmakers (ev_bookmakers ev) in
    let handicap_lines :=
      foreach bookmakers (fun bm handicap_lines =>
        foreach (bm_markets bm) (fun mkt handicap_lines =>
          if bool_decide (m_key mkt = Some "spreads")
             || bool_decide (m_key mkt = Some "alternate_spreads") then
            foreach (m_outcomes mkt) (fun o handicap_lines =>
              let name := get_or (o_name o) (Some "") in
              match o_point o, o_price o with
              | Some line, Some price =>
                  if quarter_line line
                  then dict_append Qeq_bool (Qabs line)
                         (line_quote_of bm name line price) handicap_lines
                  else handicap_lines
              | _, _ => handicap_lines
              end) handicap_lines
          else handicap_lines) handicap_lines) [] in
    for_each handicap_lines (fun '(line, outcomes) arbs =>
      let positive := positive_lines outcomes in
      let negative := negative_lines outcomes in
      if py_empty positive || py_empty negative then Ok arbs
      else
        pair_lines false negative positive
          (spread_record sport_key ev (VStr "asian_handicap") (VNum line)
             "2-way-asian" 2)
          arbs) arbs) [].

(** *** Three outcomes, four compound outcomes, many outcomes *)

Definition is_draw (o : outcome) : bool :=
  String.eqb (str_lower (str_strip (or_empty (get (o_name o))))) "draw".

Definition scan_h2h_3way (events : list event) (sport_key market_key : string)
    : res (list arb) :=
  for_each events (fun ev arbs =>
    let bookmakers := _filter_bookmakers (ev_bookmakers ev) in
    let outcomes_data :=
      foreach bookmakers (fun bm outcomes_data =>
        foreach (bm_markets bm) (fun mkt outcomes_data =>
          if decide (m_key mkt = Some market_key) then
            let outs := m_outcomes mkt in
            if negb (length outs =? 3)%nat then outcomes_data
            else if negb (existsb is_draw outs) then outcomes_data
            else
              foreach outs (fun o outcomes_data =>
                let name := str_strip (or_empty (get (o_name o))) in
                match o_price o with
                | Some price =>
                    if String.eqb name "" then outcomes_data
                    else dict_append String.eqb name (quote_of bm price) outcomes_data
                | None => outcomes_data
                end) outcomes_data
          else outcomes_data) outcomes_data) [] in
    match outcomes_data with
    | [(name1, l1); (name2, l2); (name3, l3)] =>
        for_each l1 (fun '(bk1, b1, o1, lu1) arbs =>
          for_each l2 (fun '(bk2, b2, o2, lu2) arbs =>
            for_each l3 (fun '(bk3, b3, o3, lu3) arbs =>
              if bool_decide (bk1 = bk2) || bool_decide (bk1 = bk3)
                 || bool_decide (bk2 = bk3)
              then Ok arbs
              else
                result ← calc_nway_arb [o1; o2; o3] (Some [bk1; bk2; bk3]);
                match result with
                | Some (stakes, total_stake) =>
                    match stakes with
                    | [stake1; stake2; stake3] =>
                        profit ← _nway_arb_profit_pct [o1; o2; o3] (Some [bk1; bk2; bk3]);
                        Ok (arbs ++ [dict_of (event_entries sport_key ev ++
                          [ ("market", VStr (market_key +:+ "_3way"));
                            ("line", VNone);
                            ("arb_type", VStr "3-way");
                            ("outcome_1", VStr name1);
                            ("outcome_2", VStr name2);
                            ("outcome_3", VStr name3);
                            ("book_1", vstr b1);
                            ("book_2", vstr b2);
                            ("book_3", vstr b3);
                            ("odds_1", VNum o1);
                            ("odds_2", VNum o2);
                            ("odds_3", VNum o3);
                            ("stake_1", VNum stake1);
                            ("stake_2", VNum stake2);
                            ("stake_3", VNum stake3);
                            ("total_stake", VNum total_stake);
                            ("profit_pct", VNum profit);
                            ("last_update_1", vstr lu1);
                            ("last_update_2", vstr lu2);
                            ("last_update_3", vstr lu3) ])])
                    | _ => Raise IndexError
                    end
                | None => Ok arbs
                end) arbs) arbs) arbs
    | _ => Ok arbs
    end) [].

(** Here a quote carries [bm.get("key")] and
    [bm.get("title", bm.get("key"))]. *)
Definition quote4_of (bm : bookmaker) (price : Q) : quote :=
  (get (bm_key bm), get_or (bm_title bm) (get (bm_key bm)), price, bm_last_update bm).

Definition totals_key_eqb (k1 k2 : Q * string) : bool :=
  Qeq_bool k1.1 k2.1 && String.eqb k1.2 k2.2.

Definition scan_4way_combined_markets (events : list event) (sport_key : string)
    : res (list arb) :=
  for_each events (fun ev arbs =>
    let bookmakers := _filter_bookmakers (ev_bookmakers ev) in
    let odds :=
      foreach bookmakers (fun bm odds =>
        foreach (bm_markets bm)
          (fun mkt (odds : list (string * list quote) * list (Q * string * list quote)) =>
          if decide (m_key mkt = Some "h2h") then
            let outs := m_outcomes mkt in
            if (length outs =? 2)%nat
               && negb (existsb (fun o =>
                    String.eqb (str_lower (or_empty (get (o_name o)))) "draw") outs)
            then
              foreach outs (fun o odds =>
                let name := get_or (o_name o) (Some "") in
                match name, o_price o with
                | Some name, Some price =>
                    if String.eqb name "" || Qeq_bool price 0 then odds
                    else (dict_append String.eqb name (quote4_of bm price) odds.1, odds.2)
                | _, _ => odds
                end) odds
            else odds
          else if bool_decide (m_key mkt = Some "totals")
                  || bool_decide (m_key mkt = Some "alternate_totals") then
            foreach (m_outcomes mkt) (fun o odds =>
              let name := get_or (o_name o) (Some "") in
              match name, o_point o, o_price o with
              | Some name, Some point, Some price =>
                  if String.eqb name "Over" || String.eqb name "Under"
                  then (odds.1,
                        dict_append totals_key_eqb (point, name) (quote4_of bm price) odds.2)
                  else odds
              | _, _, _ => odds
              end) odds
          else odds) odds) ([], []) in
    let h2h_odds := odds.1 in
    let totals_odds := odds.2 in
    match h2h_odds with
    | [(team1, quotes1); (team2, quotes2)] =>
        '(_, arbs) ← for_each totals_odds (fun '((line, side), _) '(lines_seen, arbs) =>
          if existsb (Qeq_bool line) lines_seen then Ok (lines_seen, arbs)
          else
            let lines_seen := lines_seen ++ [line] in
            match dict_get totals_key_eqb (line, "Over") totals_odds,
                  dict_get totals_key_eqb (line, "Under") totals_odds with
            | Some overs, Some unders =>
              arbs ←
                for_each quotes1 (fun '(bk_t1, bt1, ot1, lut1) arbs =>
                  for_each quotes2 (fun '(bk_t2, bt2, ot2, lut2) arbs =>
                    for_each overs (fun '(bk_o, bo, oo, luo) arbs =>
                      for_each unders (fun '(bk_u, bu, ou, luu) arbs =>
                        if (length (remove_dups [bk_t1; bk_t2; bk_o; bk_u]) <? 4)%nat
                        then Ok arbs
                        else
                          let odds_t1_over := ot1 * oo in
                          let odds_t1_under := ot1 * ou in
                          let odds_t2_over := ot2 * oo in
                          let odds_t2_under := ot2 * ou in
                          let bk_combo :=
                            [ Some (str_of bk_t1 +:+ "+" +:+ str_of bk_o);
                              Some (str_of bk_t1 +:+ "+" +:+ str_of bk_u);
                              Some (str_of bk_t2 +:+ "+" +:+ str_of bk_o);
                              Some (str_of bk_t2 +:+ "+" +:+ str_of bk_u) ] in
                          let odds4 :=
                            [odds_t1_over; odds_t1_under; odds_t2_over; odds_t2_under] in
                          result ← calc_nway_arb odds4 (Some bk_combo);
                          match result with
                          | Some (stakes, total_stake) =>
                              match stakes with
                              | [stake1; stake2; stake3; stake4] =>
                                  profit ← _nway_arb_profit_pct odds4 (Some bk_combo);
                                  Ok (arbs ++ [dict_of (event_entries sport_key ev ++
                                    [ ("market", VStr ("4way_h2h+totals_" +:+ fmt_float line));
                                      ("line", VNum line);
                                      ("arb_type", VStr "4-way");
                                      ("outcome_1", VStr (team1 +:+ " + Over " +:+ fmt_float line));
                                      ("outcome_2", VStr (team1 +:+ " + Under " +:+ fmt_float line));
                                      ("outcome_3", VStr (team2 +:+ " + Over " +:+ fmt_float line));
                                      ("outcome_4", VStr (team2 +:+ " + Under " +:+ fmt_float line));
                                      ("book_1", VStr (str_of bt1 +:+ " + " +:+ str_of bo));
                                      ("book_2", VStr (str_of bt1 +:+ " + " +:+ str_of bu));
                                      ("book_3", VStr (str_of bt2 +:+ " + " +:+ str_of bo));
                                      ("book_4", VStr (str_of bt2 +:+ " + " +:+ str_of bu));
                                      ("odds_1", VNum odds_t1_over);
                                      ("odds_2", VNum odds_t1_under);
                                      ("odds_3", VNum odds_t2_over);
                                      ("odds_4", VNum odds_t2_under);
                                      ("stake_1", VNum stake1);
                                      ("stake_2", VNum stake2);
                                      ("stake_3", VNum stake3);
                                      ("stake_4", VNum stake4);
                                      ("total_stake", VNum total_stake);
                                      ("profit_pct", VNum profit) ])])
                              | _ => Raise IndexError
                              end
                          | None => Ok arbs
                          end) arbs) arbs) arbs) arbs;
              Ok (lines_seen, arbs)
            | _, _ => Ok (lines_seen, arbs)
            end) ([], arbs);
        Ok arbs
    | _ => Ok arbs
    end) [].

Definition scan_nway_dynamic (events : list event) (sport_key market_key : string)
    (min_outcomes max_outcomes : nat) : res (list arb) :=
  for_each events (fun ev arbs =>
    let bookmakers := _filter_bookmakers (ev_bookmakers ev) in
    let outcomes_data :=
      foreach bookmakers (fun bm outcomes_data =>
        foreach (bm_markets bm) (fun mkt outcomes_data =>
          if decide (m_key mkt = Some market_key) then
            foreach (m_outcomes mkt) (fun o (outcomes_data : list (string * list named_quote)) =>
              let name := str_strip (or_empty (get (o_name o))) in
              let point := o_point o in
              let outcome_id :=
                match point with
                | Some pt => name +:+ "_" +:+ fmt_float pt
                | None => name
                end in
              match o_price o with
              | Some price =>
                  if String.eqb name "" then outcomes_data
                  else dict_append String.eqb outcome_id
                         (bk_of bm, title_of bm, price, bm_last_update bm, name, point)
                         outcomes_data
              | None => outcomes_data
              end) outcomes_data
          else outcomes_data) outcomes_data) [] in
    let num_outcomes := length outcomes_data in
    if (num_outcomes <? min_outcomes)%nat || (max_outcomes <? num_outcomes)%nat
    then Ok arbs
    else
      best ← traverse (fun entry : string * list named_quote =>
                         py_max (fun q : named_quote => q.1.1.1.2) entry.2) outcomes_data;
      let best_odds := map (fun q : named_quote => q.1.1.1.2) best in
      let best_books := map (fun q : named_quote => (q.1.1.1.1.1, q.1.1.1.1.2)) best in
      let best_names := map (fun q : named_quote => q.1.2) best in
      let best_updates := map (fun q : named_quote => q.1.1.2) best in
      let bookmaker_keys := map fst best_books in
      result ← calc_nway_arb best_odds (Some bookmaker_keys);
      match result with
      | Some (stakes, total_stake) =>
          profit ← _nway_arb_profit_pct best_odds (Some bookmaker_keys);
          let arb_dict :=
            dict_of (event_entries sport_key ev ++
              [ ("market", VStr market_key);
                ("line", VNone);
                ("arb_type", VStr (pretty num_outcomes +:+ "-way"));
                ("total_stake", VNum total_stake);
                ("profit_pct", VNum profit) ]) in
          let legs :=
            zip best_names (zip best_odds (zip stakes (zip best_books best_updates))) in
          let arb_dict :=
            foreach (zip (seq 1 (length legs)) legs) add_leg arb_dict in
          Ok (arbs ++ [arb_dict])
      | None => Ok arbs
      end) [].

(** ** Running the scanners *)

Definition H2H_LIKE : gset string :=
  {[ "h2h"; "h2h_p1"; "h2h_p2"; "h2h_p3"; "h2h_h1"; "h2h_h2";
     "h2h_q1"; "h2h_q2"; "h2h_q3"; "h2h_q4" ]}.

Definition SPREADS_LIKE : gset string :=
  {[ "spreads"; "spreads_h1"; "spreads_h2"; "spreads_q1"; "spreads_q2";
     "spreads_q3"; "spreads_q4"; "spreads_p1"; "spreads_p2"; "spreads_p3";
     "alternate_spreads"; "alternate_spreads_corners"; "alternate_spreads_cards" ]}.

Definition TOTALS_LIKE : gset string :=
  {[ "totals"; "totals_h1"; "totals_h2"; "totals_q1"; "totals_q2";
     "totals_q3"; "totals_q4"; "totals_p1"; "totals_p2"; "totals_p3";
     "alternate_totals"; "alternate_totals_corners"; "alternate_totals_cards" ]}.

Definition TEAM_TOTALS : gset string :=
  {[ "team_totals"; "team_totals_h1"; "team_totals_h2";
     "team_totals_q1"; "team_totals_q2"; "team_totals_q3"; "team_totals_q4" ]}.

Definition ICE_HOCKEY_SPORTS : gset string :=
  {[ "icehockey_nhl"; "icehockey_sweden_hockey_league"; "icehockey_finland_liiga";
     "icehockey_ohl"; "icehockey_whl"; "icehockey_qmjhl"; "icehockey_ahl";
     "icehockey_ncaa_hockey" ]}.

(** [sorted(l)] on strings. *)
Fixpoint insert_str (x : string) (l : list string) : list string :=
  match l with
  | [] => [x]
  | y :: l' => if String.ltb y x then y :: insert_str x l' else x :: y :: l'
  end.

Definition sorted_str (l : list string) : list string := foldr insert_str [] l.

(** [all_arbs.extend(scan(...))] *)
Definition extend (all_arbs : list arb) (scan : res (list arb)) : res (list arb) :=
  arbs ← scan; Ok (all_arbs ++ arbs).

(** The frozensets are iterated in the order of [elements]. *)
Definition run_scanners (events : list event) (markets : gset string)
    (sport_key : string) (safe_only : bool) : res (list arb) :=
  let mkt := markets in
  all_arbs ←
    (if _ENABLE_3WAY cfg && bool_decide ("h2h" ∈ mkt)
     then extend [] (scan_h2h_3way events sport_key "h2h") else Ok []);
  let h2h_mkts := mkt ∩ H2H_LIKE in
  all_arbs ←
    (if bool_decide (h2h_mkts ≠ ∅)
     then extend all_arbs (scan_h2h events sport_key h2h_mkts) else Ok all_arbs);
  let skip_totals := safe_only && bool_decide (sport_key ∈ ICE_HOCKEY_SPORTS) in
  all_arbs ←
    (if skip_totals then Ok all_arbs
     else for_each (elements TOTALS_LIKE) (fun mk all_arbs =>
       if bool_decide (mk ∈ mkt) then
         if String.eqb mk "alternate_totals" then
           all_arbs ← extend all_arbs (scan_alternate_totals_enhanced events sport_key);
           extend all_arbs (scan_cross_line_opportunities events sport_key)
         else extend all_arbs (scan_totals events sport_key mk)
       else Ok all_arbs) all_arbs);
  all_arbs ←
    (if skip_totals then Ok all_arbs
     else for_each (elements TEAM_TOTALS) (fun mk all_arbs =>
       if bool_decide (mk ∈ mkt)
       then extend all_arbs (scan_team_totals events sport_key mk)
       else Ok all_arbs) all_arbs);
  let spreads_mkts := mkt ∩ SPREADS_LIKE in
  all_arbs ←
    (if bool_decide (spreads_mkts ≠ ∅) then
       let alternate :=
         spreads_mkts ∩ {[ "alternate_spreads"; "alternate_spreads_corners";
                           "alternate_spreads_cards" ]} in
       let regular := spreads_mkts ∖ alternate in
       all_arbs ←
         (if bool_decide (regular ≠ ∅)
          then extend all_arbs (scan_spreads events sport_key regular)
          else Ok all_arbs);
       if bool_decide ("alternate_spreads" ∈ alternate) then
         all_arbs ← extend all_arbs (scan_alternate_spreads_enhanced events sport_key);
         extend all_arbs (scan_asian_handicap events sport_key)
       else Ok all_arbs
     else Ok all_arbs);
  all_arbs ←
    (if bool_decide ("btts" ∈ mkt)
     then extend all_arbs (scan_btts events sport_key) else Ok all_arbs);
  all_arbs ←
    (if bool_decide ("draw_no_bet" ∈ mkt)
     then extend all_arbs (scan_draw_no_bet events sport_key) else Ok all_arbs);
  all_arbs ←
    (if bool_decide ("double_chance" ∈ mkt)
     then extend all_arbs (scan_double_chance events sport_key) else Ok all_arbs);
  all_arbs ←
    (if _ENABLE_4WAY cfg
     then extend all_arbs (scan_4way_combined_markets events sport_key)
     else Ok all_arbs);
  if (5 <=? _MAX_NWAY cfg)%nat then
    for_each (sorted_str (elements mkt)) (fun mk all_arbs =>
      extend all_arbs
        (scan_nway_dynamic events sport_key mk 5 (Nat.min (_MAX_NWAY cfg) 20)))
      all_arbs
  else Ok all_arbs.

(** ** The aggregator: the end of [main]

    [commence_ok] is the nested [_commence_ok], which reads the clock.
    The records of the list are distinct objects. *)

Definition as_num (v : val) : res Q :=
  match v with
  | VNum q => Ok q
  | _ => Raise TypeError
  end.

(** [args.min_profit <= a.get("profit_pct", 0) <= args.max_profit]: a
    float compared with a non-number raises [TypeError]. *)
Definition in_band (min_profit max_profit : Q) (a : arb) : res bool :=
  p ← as_num (py_get a "profit_pct" (VNum 0));
  Ok (Qle_bool min_profit p && Qle_bool p max_profit).

Definition val_eqb (v1 v2 : val) : bool :=
  match v1, v2 with
  | VNone, VNone => true
  | VStr s1, VStr s2 => String.eqb s1 s2
  | VNum q1, VNum q2 => Qeq_bool q1 q2
  | _, _ => false
  end.

Definition key_eqb (k1 k2 : arb_key) : bool :=
  val_eqb k1.1.1.1 k2.1.1.1 && val_eqb k1.1.1.2 k2.1.1.2
  && val_eqb k1.1.2 k2.1.2 && val_eqb k1.2 k2.2.

(** [(a["event_id"], a["market"], a.get("line"), a.get("arb_type", "2-way"))] *)
Definition key_of (a : arb) : res arb_key :=
  event_id ← py_item a "event_id";
  market ← py_item a "market";
  Ok (event_id, market, py_get a "line" VNone, py_get a "arb_type" (VStr "2-way")).

(** [a["profit_pct"]] as a number; after the band filter a profit that is
    present is a number. *)
Definition profit_item (a : arb) : res Q :=
  v ← py_item a "profit_pct"; as_num v.

(** One round of the deduplication loop on [by_key]. *)
Definition dedupe_step (a : arb) (by_key : list (arb_key * arb))
    : res (list (arb_key * arb)) :=
  key ← key_of a;
  match dict_get key_eqb key by_key with
  | None => Ok (by_key ++ [(key, a)])
  | Some b =>
      pa ← profit_item a;
      pb ← profit_item b;
      if Qlt_bool pb pa then Ok (dict_upd key_eqb key a (fun _ => a) by_key)
      else Ok by_key
  end.

Definition dedupe (all_arbs : list arb) : res (list arb) :=
  by_key ← for_each all_arbs dedupe_step [];
  Ok (map snd by_key).

(** [v * scale] *)
Definition py_mul (v : val) (scale : Q) : res val :=
  match v with
  | VNum q => Ok (VNum (q * scale))
  | _ => Raise TypeError
  end.

Definition scale_of (max_stake : Q) : Q :=
  if Qeq_bool max_stake 0 then 1 else max_stake / 100.

Definition scale_arb (scale : Q) (a : arb) : res arb :=
  match py_get a "arb_type" (VStr "2-way") with
  | VStr arb_type =>
      if str_endswith "-way" arb_type then
        num_outcomes ← py_int (before_dash arb_type);
        a ← for_each (seq 1 (Z.to_nat num_outcomes)) (fun i a =>
               let k := "stake_" +:+ pretty i in
               v ← py_mul (py_get a k (VNum 0)) scale;
               Ok (<[k := v]> a)) a;
        v ← py_mul (py_get a "total_stake" (VNum 0)) scale;
        Ok (<["total_stake" := v]> a)
      else Ok a
  | _ => Raise AttributeError
  end.

(** [sorted(l, key=profit, reverse=True)]: stable, highest key first. *)
Fixpoint insert_desc (x : Q * arb) (l : list (Q * arb)) : list (Q * arb) :=
  match l with
  | [] => [x]
  | y :: l' => if Qlt_bool x.1 y.1 then y :: insert_desc x l' else x :: y :: l'
  end.

Definition sorted_by_profit (all_arbs : list arb) : res (list arb) :=
  keyed ← traverse (fun a => k ← as_num (py_get a "profit_pct" (VNum 0)); Ok (k, a))
            all_arbs;
  Ok (map snd (foldr insert_desc [] keyed)).

Definition main_post (commence_ok : arb -> bool) (min_profit max_profit : Q)
    (no_dedupe : bool) (max_stake : Q) (all_arbs : list arb) : res (list arb) :=
  let all_arbs := List.filter commence_ok all_arbs in
  all_arbs ← filter_res (in_band min_profit max_profit) all_arbs;
  all_arbs ← (if no_dedupe then Ok all_arbs else dedupe all_arbs);
  let scale := scale_of max_stake in
  all_arbs ← traverse (scale_arb scale) all_arbs;
  sorted_by_profit all_arbs.

(** ** What the scanners emit *)

(** The bookmaker block quotes the price on some outcome of some market. *)
Definition offers (bm : bookmaker) (price : Q) : Prop :=
  exists mkt o, mkt ∈ bm_markets bm /\ o ∈ m_outcomes mkt /\ o_price o = Some price.

Definition quoted_by (bookmakers : list bookmaker) (q : quote) : Prop :=
  exists bm price, bm ∈ bookmakers /\ offers bm price /\ q = quote_of bm price.

Definition line_quoted_by (bookmakers : list bookmaker) (q : line_quote) : Prop :=
  exists bm name pt price,
    bm ∈ bookmakers /\ offers bm price /\ q = line_quote_of bm name pt price.

(** A record with two legs: the legs are prices of two bookmaker blocks of
    one event that passed the filter, the blocks have different keys, the
    pairwise calculator returned the stakes and the profit is above 0. *)
Definition two_leg_record (events : list event) (a : arb) : Prop :=
  exists ev bm1 bm2 o1 o2 r p,
    ev ∈ events
    /\ bm1 ∈ _filter_bookmakers (ev_bookmakers ev)
    /\ bm2 ∈ _filter_bookmakers (ev_bookmakers ev)
    /\ offers bm1 o1 /\ offers bm2 o2
    /\ bk_of bm1 <> bk_of bm2
    /\ calc_arb_equal_payout o1 o2 (bk_of bm1) (bk_of bm2) = Ok (Some r)
    /\ _arb_profit_pct o1 o2 (bk_of bm1) (bk_of bm2) = Ok p
    /\ 0 < p
    /\ a !! "book_a" = Some (vstr (title_of bm1))
    /\ a !! "book_b" = Some (vstr (title_of bm2))
    /\ a !! "odds_a" = Some (VNum o1)
    /\ a !! "odds_b" = Some (VNum o2)
    /\ a !! "stake_a" = Some (VNum r.1.1)
    /\ a !! "stake_b" = Some (VNum r.1.2)
    /\ a !! "total_stake" = Some (VNum r.2)
    /\ a !! "profit_pct" = Some (VNum p).

Definition totals_family (mkt : market) : Prop :=
  m_key mkt = Some "totals" \/ m_key mkt = Some "alternate_totals".

(** The quote is the [side] outcome of a totals-family market of one of
    the bookmaker blocks. *)
Definition cross_quoted_by (bookmakers : list bookmaker) (side : string)
    (q : cross_quote) : Prop :=
  exists bm mkt o line odds,
    bm ∈ bookmakers /\ mkt ∈ bm_markets bm /\ totals_family mkt
    /\ o ∈ m_outcomes mkt /\ o_name o = Present side
    /\ o_point o = Some line /\ o_price o = Some odds
    /\ q = (line, odds, bk_of bm, title_of bm, bm_last_update bm).

(** A record of the cross-line scanner: an Over at [line_over] and an
    Under at a higher [line_under], from totals-family markets of two
    bookmaker blocks with different keys, accepted by the pairwise
    calculator, and typed by the gap between the lines. *)
Definition cross_line_record (events : list event) (a : arb) : Prop :=
  exists ev bm_over bm_under mkt_over mkt_under o_over o_under
         line_over line_under odds_over odds_under r p,
    ev ∈ events
    /\ bm_over ∈ _filter_bookmakers (ev_bookmakers ev)
    /\ bm_under ∈ _filter_bookmakers (ev_bookmakers ev)
    /\ mkt_over ∈ bm_markets bm_over /\ mkt_under ∈ bm_markets bm_under
    /\ totals_family mkt_over /\ totals_family mkt_under
    /\ o_over ∈ m_outcomes mkt_over /\ o_under ∈ m_outcomes mkt_under
    /\ o_name o_over = Present "Over" /\ o_name o_under = Present "Under"
    /\ o_point o_over = Some line_over /\ o_point o_under = Some line_under
    /\ o_price o_over = Some odds_over /\ o_price o_under = Some odds_under
    /\ bk_of bm_over <> bk_of bm_under
    /\ line_over < line_under
    /\ calc_arb_equal_payout odds_over odds_under (bk_of bm_over) (bk_of bm_under)
         = Ok (Some r)
    /\ _arb_profit_pct odds_over odds_under (bk_of bm_over) (bk_of bm_under) = Ok p
    /\ 0 < p
    /\ a !! "book_a" = Some (vstr (title_of bm_over))
    /\ a !! "book_b" = Some (vstr (title_of bm_under))
    /\ a !! "odds_a" = Some (VNum odds_over)
    /\ a !! "odds_b" = Some (VNum odds_under)
    /\ a !! "stake_a" = Some (VNum r.1.1)
    /\ a !! "stake_b" = Some (VNum r.1.2)
    /\ a !! "total_stake" = Some (VNum r.2)
    /\ a !! "profit_pct" = Some (VNum p)
    /\ a !! "arb_type" = Some (VStr "2-way-middle")
    /\ a !! "gap" = Some (VNum (line_under - line_over))
    /\ (a !! "type" = Some (VStr "middle") /\ 1 < line_under - line_over
        \/ a !! "type" = Some (VStr "scalp") /\ line_under - line_over <= 1).

(** A record of the 3-way scanner: three prices of three bookmaker blocks
    with pairwise different keys, accepted by the N-way calculator. *)
Definition three_leg_record (events : list event) (a : arb) : Prop :=
  exists ev bm1 bm2 bm3 o1 o2 o3 stakes total p,
    ev ∈ events
    /\ bm1 ∈ _filter_bookmakers (ev_bookmakers ev)
    /\ bm2 ∈ _filter_bookmakers (ev_bookmakers ev)
    /\ bm3 ∈ _filter_bookmakers (ev_bookmakers ev)
    /\ offers bm1 o1 /\ offers bm2 o2 /\ offers bm3 o3
    /\ bk_of bm1 <> bk_of bm2 /\ bk_of bm1 <> bk_of bm3 /\ bk_of bm2 <> bk_of bm3
    /\ calc_nway_arb [o1; o2; o3] (Some [bk_of bm1; bk_of bm2; bk_of bm3])
         = Ok (Some (stakes, total))
    /\ _nway_arb_profit_pct [o1; o2; o3] (Some [bk_of bm1; bk_of bm2; bk_of bm3])
         = Ok p
    /\ 0 < p
    /\ a !! "book_1" = Some (vstr (title_of bm1))
    /\ a !! "book_2" = Some (vstr (title_of bm2))
    /\ a !! "book_3" = Some (vstr (title_of bm3))
    /\ a !! "odds_1" = Some (VNum o1)
    /\ a !! "odds_2" = Some (VNum o2)
    /\ a !! "odds_3" = Some (VNum o3)
    /\ a !! "total_stake" = Some (VNum total)
    /\ a !! "profit_pct" = Some (VNum p).

Definition quoted4_by (bookmakers : list bookmaker) (q : quote) : Prop :=
  exists bm price, bm ∈ bookmakers /\ offers bm price /\ q = quote4_of bm price.

(** A record of the 4-way scanner: two head-to-head prices and an Over and
    an Under price, of four bookmaker blocks with four different keys; the
    four legs are the products of a head-to-head and a totals price. *)
Definition four_leg_record (events : list event) (a : arb) : Prop :=
  exists ev bm_t1 bm_t2 bm_o bm_u ot1 ot2 oo ou res p,
    ev ∈ events
    /\ bm_t1 ∈ _filter_bookmakers (ev_bookmakers ev)
    /\ bm_t2 ∈ _filter_bookmakers (ev_bookmakers ev)
    /\ bm_o ∈ _filter_bookmakers (ev_bookmakers ev)
    /\ bm_u ∈ _filter_bookmakers (ev_bookmakers ev)
    /\ offers bm_t1 ot1 /\ offers bm_t2 ot2 /\ offers bm_o oo /\ offers bm_u ou
    /\ NoDup [get (bm_key bm_t1); get (bm_key bm_t2); get (bm_key bm_o);
              get (bm_key bm_u)]
    /\ (let bk_combo :=
          [ Some (str_of (get (bm_key bm_t1)) +:+ "+" +:+ str_of (get (bm_key bm_o)));
            Some (str_of (get (bm_key bm_t1)) +:+ "+" +:+ str_of (get (bm_key bm_u)));
            Some (str_of (get (bm_key bm_t2)) +:+ "+" +:+ str_of (get (bm_key bm_o)));
            Some (str_of (get (bm_key bm_t2)) +:+ "+" +:+ str_of (get (bm_key bm_u))) ] in
        calc_nway_arb [ot1 * oo; ot1 * ou; ot2 * oo; ot2 * ou] (Some bk_combo)
          = Ok (Some res)
        /\ _nway_arb_profit_pct [ot1 * oo; ot1 * ou; ot2 * oo; ot2 * ou] (Some bk_combo)
          = Ok p)
    /\ 0 < p
    /\ a !! "odds_1" = Some (VNum (ot1 * oo))
    /\ a !! "odds_2" = Some (VNum (ot1 * ou))
    /\ a !! "odds_3" = Some (VNum (ot2 * oo))
    /\ a !! "odds_4" = Some (VNum (ot2 * ou))
    /\ a !! "profit_pct" = Some (VNum p).


(** ** What the aggregator keeps *)

(** [a.get("profit_pct", 0)] as a number (0 when it is not one). *)
Definition profit_of (a : arb) : Q :=
  match py_get a "profit_pct" (VNum 0) with
  | VNum q => q
  | _ => 0
  end.

(** The deduplication key, a missing ["event_id"] or ["market"] read as
    [None]. *)
Definition key_val (a : arb) : arb_key :=
  (py_get a "event_id" VNone, py_get a "market" VNone,
   py_get a "line" VNone, py_get a "arb_type" (VStr "2-way")).

(** The two records have equal (event_id, market, line, arb_type). *)
Definition same_group (a b : arb) : Prop := key_eqb (key_val a) (key_val b) = true.

Definition within_band (min_profit max_profit : Q) (a : arb) : Prop :=
  min_profit <= profit_of a /\ profit_of a <= max_profit.

(** The invariant of the deduplication loop after the records [seen]. *)
Definition dedupe_inv (seen : list arb) (by_key : list (arb_key * arb)) : Prop :=
  Forall (fun kv => kv.2 ∈ seen /\ key_eqb kv.1 (key_val kv.2) = true) by_key
  /\ (forall b, b ∈ seen ->
        exists kv, kv ∈ by_key /\ key_eqb kv.1 (key_val b) = true
                   /\ profit_of b <= profit_of kv.2)
  /\ (forall i j kv1 kv2,
        by_key !! i = Some kv1 -> by_key !! j = Some kv2 ->
        key_eqb kv1.1 kv2.1 = true -> i = j).

(** The reading of the deduplication that the band filter contradicts:
    every record of the result has the highest profit among all the
    discovered records of its group. *)
Definition keeps_group_maximum (all_arbs out : list arb) : Prop :=
  forall a, a ∈ out -> forall b, b ∈ all_arbs -> same_group b a ->
    profit_of b <= profit_of a.

End scanners.

(** ** More on what the records hold *)


(** The profit of the record is the one of its displayed odds, without
    any commission. *)
Definition raw_profit (a : arb) : Prop :=
  exists o1 o2 p,
    a !! "odds_a" = Some (VNum o1) /\ a !! "odds_b" = Some (VNum o2)
    /\ a !! "profit_pct" = Some (VNum p)
    /\ p == 100 * (1 / (1 / o1 + 1 / o2) - 1).

(** The same for the four legs of a record of the 4-way scanner. *)
Definition raw_profit4 (a : arb) : Prop :=
  exists o1 o2 o3 o4 p,
    a !! "odds_1" = Some (VNum o1) /\ a !! "odds_2" = Some (VNum o2)
    /\ a !! "odds_3" = Some (VNum o3) /\ a !! "odds_4" = Some (VNum o4)
    /\ a !! "profit_pct" = Some (VNum p)
    /\ p == 100 * (1 / (1 / o1 + 1 / o2 + 1 / o3 + 1 / o4) - 1).

(** [c in s] for a character. *)
Fixpoint has_char (c : ascii) (s : string) : bool :=
  match s with
  | EmptyString => false
  | String c' s' => Ascii.eqb c' c || has_char c s'
  end.

(** ** Merging the extra markets of an event

    [_merge_event_markets(ev, extra_ev)] changes [ev] in place and returns
    nothing; here it returns the event after the call.  The bookmaker
    blocks of [ev] are distinct objects; [bm_by_key] refers to a block by
    its position in [ev["bookmakers"]], which the appends never move. *)

(** [bm.get("key", "")] *)
Definition key_or_empty (bm : bookmaker) : pystr := get_or (bm_key bm) (Some "").

(** [{m.get("key") for m in bm.get("markets", []) if m.get("key")}] *)
Definition market_key_set (markets : list market) : gset string :=
  list_to_set (omap (fun m => if truthy (m_key m) then m_key m else None) markets).

(** [{bm.get("key", ""): bm for bm in bookmakers}]: of two blocks with the
    same key the later one stays. *)
Definition bm_by_key (bookmakers : list bookmaker) : gmap pystr nat :=
  foreach (zip (seq 0 (length bookmakers)) bookmakers)
    (fun '(i, bm) d => <[key_or_empty bm := i]> d) ∅.

(** [{bm.get("key", ""): {...} for bm in bookmakers}] *)
Definition existing_mk (bookmakers : list bookmaker) : gmap pystr (gset string) :=
  foreach bookmakers
    (fun bm d => <[key_or_empty bm := market_key_set (bm_markets bm)]> d) ∅.

(** The block with its ["markets"] list replaced. *)
Definition with_markets (bm : bookmaker) (markets : list market) : bookmaker :=
  {| bm_key := bm_key bm; bm_title := bm_title bm;
     bm_last_update := bm_last_update bm; bm_markets := markets |}.

(** The inner loop: the markets with a key that the target does not have
    yet are appended to the target's markets, and their keys are added to
    [existing]. *)
Definition merge_markets (markets target_markets : list market) (existing : gset string)
    : list market * gset string :=
  foreach markets (fun mkt '(target_markets, existing) =>
    match m_key mkt with
    | Some mk =>
        if negb (String.eqb mk "") && negb (bool_decide (mk ∈ existing))
        then (target_markets ++ [mkt], existing ∪ {[ mk ]})
        else (target_markets, existing)
    | None => (target_markets, existing)
    end) (target_markets, existing).

(** One round of the outer loop, on the block [bm] of [extra_ev].  The
    set [existing] is the one stored in [existing_mk], which [add]
    changes in place. *)
Definition merge_bookmaker (by_key : gmap pystr nat) (bm : bookmaker)
    (state : list bookmaker * gmap pystr (gset string))
    : list bookmaker * gmap pystr (gset string) :=
  let '(bookmakers, existing_mk) := state in
  let key := key_or_empty bm in
  if negb (truthy key) then state
  else
    match by_key !! key with
    | None => (bookmakers ++ [bm], existing_mk)
    | Some i =>
        match bookmakers !! i with
        | Some target =>
            let stored := existing_mk !! key in
            let '(target_markets, existing) :=
              merge_markets (bm_markets bm) (bm_markets target) (default ∅ stored) in
            (<[i := with_markets target target_markets]> bookmakers,
             match stored with
             | Some _ => <[key := existing]> existing_mk
             | None => existing_mk
             end)
        | None => state
        end
    end.

Definition _merge_event_markets (ev extra_ev : event) : event :=
  let by_key := bm_by_key (ev_bookmakers ev) in
  let state :=
    foreach (ev_bookmakers extra_ev) (merge_bookmaker by_key)
      (ev_bookmakers ev, existing_mk (ev_bookmakers ev)) in
  {| ev_id := ev_id ev;
     ev_home_team := ev_home_team ev;
     ev_away_team := ev_away_team ev;
     ev_commence_time := ev_commence_time ev;
     ev_bookmakers := state.1 |}.

(** What the merge does to a block of [ev]: it keeps the key, the title,
    the update time and the markets, and appends markets of blocks of
    [extra] with the same key; the appended markets have non-empty keys
    that differ from each other and from the keys the block had. *)
Definition extended_by (extra : list bookmaker) (bm bm' : bookmaker) : Prop :=
  bm_key bm' = bm_key bm /\ bm_title bm' = bm_title bm
  /\ bm_last_update bm' = bm_last_update bm
  /\ exists added,
       bm_markets bm' = bm_markets bm ++ added
       /\ Forall (fun m => truthy (m_key m) = true) added
       /\ NoDup (m_key <$> added)
       /\ Forall (fun m => m_key m ∉ m_key <$> bm_markets bm) added
       /\ Forall (fun m => exists xb, xb ∈ extra /\ key_or_empty xb = key_or_empty bm
                                      /\ m ∈ bm_markets xb) added.

(** The invariant of the outer loop after the blocks [done] of
    [extra_ev]: the blocks of [ev] are extended in place, the blocks with
    a new key follow them in order, [existing_mk] holds the market keys of
    the block each key refers to, and every keyed market of a keyed block
    of [done] has its key in a block with the same bookmaker key. *)
Definition merge_inv (orig done : list bookmaker)
    (state : list bookmaker * gmap pystr (gset string)) : Prop :=
  Forall2 (extended_by done) orig (take (length orig) state.1)
  /\ drop (length orig) state.1
     = List.filter (fun bm => truthy (key_or_empty bm)
                              && bool_decide (key_or_empty bm ∉ key_or_empty <$> orig))
         done
  /\ (forall k i, bm_by_key orig !! k = Some i ->
        exists bm', state.1 !! i = Some bm'
                    /\ state.2 !! k = Some (market_key_set (bm_markets bm')))
  /\ (forall x m mk, x ∈ done -> truthy (key_or_empty x) = true ->
        m ∈ bm_markets x -> m_key m = Some mk -> mk <> "" ->
        exists bm', bm' ∈ state.1 /\ key_or_empty bm' = key_or_empty x
                    /\ mk ∈ market_key_set (bm_markets bm')).

(** ** An instance of the built-ins for closed examples

    Exact on ASCII strings, on decimal digit strings and on floats with
    at most six decimals. *)

Definition ascii_lower (c : ascii) : ascii :=
  let n := nat_of_ascii c in
  if (65 <=? n)%nat && (n <=? 90)%nat then ascii_of_nat (n + 32) else c.

Fixpoint lower_ascii (s : string) : string :=
  match s with
  | EmptyString => EmptyString
  | String c s' => String (ascii_lower c) (lower_ascii s')
  end.

Definition is_space (c : ascii) : bool :=
  let n := nat_of_ascii c in
  (n =? 32)%nat || ((9 <=? n)%nat && (n <=? 13)%nat).

Fixpoint lstrip_ascii (s : string) : string :=
  match s with
  | EmptyString => EmptyString
  | String c s' => if is_space c then lstrip_ascii s' else s
  end.

Definition strip_ascii (s : string) : string :=
  String.rev (lstrip_ascii (String.rev (lstrip_ascii s))).

(** The digits of [n], at least [width] of them. *)
Definition digits (width : nat) (n : N) : string :=
  let s := pretty n in
  String.concat "" (replicate (width - String.length s) "0") +:+ s.

Fixpoint rstrip_zeros (rev_digits : string) : string :=
  match rev_digits with
  | String c s' =>
      if Ascii.eqb c "0"%char && negb (String.eqb s' "") then rstrip_zeros s'
      else rev_digits
  | EmptyString => rev_digits
  end.

(** [|q|] scaled by [10^k] and rounded half up, as integer part and [k]
    fractional digits. *)
Definition fixed (k : nat) (q : Q) : string * string :=
  let scaled := Z.abs (Qfloor (Qabs q * inject_Z (10 ^ Z.of_nat k) + 0.5)) in
  (pretty (Z.to_N (scaled / 10 ^ Z.of_nat k)),
   digits k (Z.to_N (scaled mod 10 ^ Z.of_nat k))).

Definition format_float (q : Q) : string :=
  let '(int, frac) := fixed 6 q in
  (if Qlt_bool q 0 then "-" else "") +:+ int +:+ "."
    +:+ String.rev (rstrip_zeros (String.rev frac)).

Definition format_signed (k : nat) (q : Q) : string :=
  let '(int, frac) := fixed k q in
  (if Qlt_bool q 0 then "-" else "+") +:+ int +:+ "." +:+ frac.

Fixpoint parse_digits (s : string) (acc : Z) : res Z :=
  match s with
  | EmptyString => Ok acc
  | String c s' =>
      let n := nat_of_ascii c in
      if (48 <=? n)%nat && (n <=? 57)%nat
      then parse_digits s' (10 * acc + Z.of_nat (n - 48))%Z
      else Raise ValueError
  end.

Definition parse_int (s : string) : res Z :=
  match s with
  | EmptyString => Raise ValueError
  | _ => parse_digits s 0%Z
  end.

Definition ascii_builtins : PyBuiltins := {|
  str_lower := lower_ascii;
  str_strip := strip_ascii;
  fmt_float := format_float;
  fmt_signed := format_signed;
  py_int := parse_int;
|}.

(** ** Closed examples *)

Definition example_outcome (name : string) (point : option Q) (price : Q) : outcome :=
  {| o_name := Present name; o_price := Some price; o_point := point;
     o_description := None |}.

Definition example_bookmaker (key title : string) (markets : list market) : bookmaker :=
  {| bm_key := Present key; bm_title := Present title;
     bm_last_update := Some "2026-01-01T12:00:00Z"; bm_markets := markets |}.

(** The settings of a run with [--nway 20]. *)
Definition nway_settings : settings := {|
  _INCLUDE_UNRELIABLE := false;
  _USE_ALL_BOOKS := false;
  _INCLUDE_EXCHANGES := true;
  _FINLAND_ONLY := true;
  _TWO_WAY_ONLY := false;
  _ENABLE_3WAY := false;
  _ENABLE_4WAY := false;
  _MAX_NWAY := 20;
  _EXCLUDE_BOOKS := ∅;
|}.

(** A five-runner outright market quoted by two bookmakers: the first has
    the best price on three runners, the second on the other two. *)
Definition outright_event : event := {|
  ev_id := Present "evt-1";
  ev_home_team := Absent;
  ev_away_team := Absent;
  ev_commence_time := Present "2026-01-02T18:00:00Z";
  ev_bookmakers :=
    [ example_bookmaker "bet365" "Bet365"
        [ {| m_key := Some "outrights";
             m_outcomes :=
               [ example_outcome "A" None 6; example_outcome "B" None 6;
                 example_outcome "C" None 6; example_outcome "D" None 5;
                 example_outcome "E" None 5 ] |} ];
      example_bookmaker "pinnacle" "Pinnacle"
        [ {| m_key := Some "outrights";
             m_outcomes :=
               [ example_outcome "A" None 5; example_outcome "B" None 5;
                 example_outcome "C" None 5; example_outcome "D" None 6;
                 example_outcome "E" None 6 ] |} ] ] |}.

(** Totals quoted by two bookmakers on two lines. *)
Definition totals_event : event := {|
  ev_id := Present "evt-2";
  ev_home_team := Present "Ajax";
  ev_away_team := Present "PSV";
  ev_commence_time := Present "2026-01-02T18:00:00Z";
  ev_bookmakers :=
    [ example_bookmaker "bet365" "Bet365"
        [ {| m_key := Some "totals";
             m_outcomes :=
               [ example_outcome "Over" (Some 2.5) 2.10;
                 example_outcome "Under" (Some 2.5) 1.80 ] |} ];
      example_bookmaker "pinnacle" "Pinnacle"
        [ {| m_key := Some "totals";
             m_outcomes :=
               [ example_outcome "Over" (Some 2.5) 1.85;
                 example_outcome "Under" (Some 2.5) 2.05 ] |};
          {| m_key := Some "alternate_totals";
             m_outcomes :=
               [ example_outcome "Under" (Some 4.5) 2.05 ] |} ] ] |}.

(** Totals on one line quoted by four bookmakers: two of them pair to a
    profit of 150 percent, above the default upper bound of 100. *)
Definition band_event : event := {|
  ev_id := Present "evt-3";
  ev_home_team := Present "Ajax";
  ev_away_team := Present "PSV";
  ev_commence_time := Present "2026-01-02T18:00:00Z";
  ev_bookmakers :=
    [ example_bookmaker "bet365" "Bet365"
        [ {| m_key := Some "totals";
             m_outcomes := [ example_outcome "Over" (Some 2.5) 5 ] |} ];
      example_bookmaker "pinnacle" "Pinnacle"
        [ {| m_key := Some "totals";
             m_outcomes := [ example_outcome "Under" (Some 2.5) 5 ] |} ];
      example_bookmaker "unibet" "Unibet"
        [ {| m_key := Some "totals";
             m_outcomes := [ example_outcome "Over" (Some 2.5) 2.10 ] |} ];
      example_bookmaker "bwin" "Bwin"
        [ {| m_key := Some "totals";
             m_outcomes := [ example_outcome "Under" (Some 2.5) 2.05 ] |} ] ] |}.

(** A small record with the keys the aggregator reads. *)
Definition example_arb (event_id market : string) (line : val) (profit : Q) : arb :=
  dict_of [ ("event_id", VStr event_id); ("market", VStr market); ("line", line);
            ("arb_type", VStr "2-way-middle"); ("profit_pct", VNum profit) ].

(** An event on which one bookmaker block passes the filter: the other
    one is on the blacklist. *)
Definition single_event : event := {|
  ev_id := Present "evt-4";
  ev_home_team := Present "Ajax";
  ev_away_team := Present "PSV";
  ev_commence_time := Present "2026-01-02T18:00:00Z";
  ev_bookmakers :=
    [ example_bookmaker "bet365" "Bet365"
        [ {| m_key := Some "totals";
             m_outcomes :=
               [ example_outcome "Over" (Some 2.5) 2.10;
                 example_outcome "Under" (Some 2.5) 1.80 ] |} ];
      example_bookmaker "paddypower" "Paddy Power"
        [ {| m_key := Some "totals";
             m_outcomes :=
               [ example_outcome "Over" (Some 2.5) 1.85;
                 example_outcome "Under" (Some 2.5) 2.40 ] |} ] ] |}.

(** The answer of the event endpoint for [totals_event]: a block of a
    bookmaker the event has, with a market it has and one it lacks, and a
    block of a bookmaker the event lacks. *)
Definition extra_event : event := {|
  ev_id := Present "evt-2";
  ev_home_team := Present "Ajax";
  ev_away_team := Present "PSV";
  ev_commence_time := Present "2026-01-02T18:00:00Z";
  ev_bookmakers :=
    [ example_bookmaker "bet365" "Bet365"
        [ {| m_key := Some "totals";
             m_outcomes := [ example_outcome "Over" (Some 3.5) 3.10 ] |};
          {| m_key := Some "btts";
             m_outcomes :=
               [ example_outcome "Yes" None 1.90; example_outcome "No" None 1.95 ] |} ];
      example_bookmaker "unibet" "Unibet"
        [ {| m_key := Some "btts";
             m_outcomes :=
               [ example_outcome "Yes" None 1.85; example_outcome "No" None 2.15 ] |} ] ] |}.

Example format_float_2_5 : format_float 2.5 = "2.5".
Proof. reflexivity. Qed.

Example format_float_3 : format_float 3 = "3.0".
Proof. reflexivity. Qed.

Example format_signed_m1_5 : format_signed 1 (-1.5) = "-1.5".
Proof. reflexivity. Qed.

Example format_signed_q : format_signed 2 0.25 = "+0.25".
Proof. reflexivity. Qed.

Example strip_lower : lower_ascii (strip_ascii "  Draw ") = "draw".
Proof. reflexivity. Qed.

Example parse_int_12 : parse_int "12" = Ok 12%Z.
Proof. reflexivity. Qed.

(** * Properties of the commission model *)

Lemma commission_entries (k : string) (c : Q) :
  EXCHANGE_COMMISSION !! k = Some c ->
  c = 0.05 \/ c = 0.02 \/ c = 0.015.
Proof.
  unfold EXCHANGE_COMMISSION. intros H.
  repeat (apply lookup_insert_Some in H as [ [_ <-] | [_ H] ]; [tauto|]).
  rewrite lookup_empty in H. discriminate.
Qed.

Lemma commission_of_range (k : pystr) :
  0 <= commission_of k /\ commission_of k < 1.
Proof.
  destruct k as [k|]; simpl; [|lra].
  destruct (EXCHANGE_COMMISSION !! k) as [c|] eqn:E; simpl; [|lra].
  apply commission_entries in E as [-> | [-> | ->] ]; lra.
Qed.

Lemma adjust_formula (odds : Q) (k : pystr) :
  adjust_odds_for_commission odds k == 1 + (odds - 1) * (1 - commission_of k).
Proof.
  unfold adjust_odds_for_commission. cbv zeta.
  destruct (Qeq_bool (commission_of k) 0) eqn:E; [|reflexivity].
  apply Qeq_bool_iff in E. rewrite E. ring.
Qed.

Lemma adjust_gt_1 (odds : Q) (k : pystr) :
  1 < odds -> 1 < adjust_odds_for_commission odds k.
Proof.
  intros H. rewrite adjust_formula.
  destruct (commission_of_range k) as [H0 H1]. nra.
Qed.

(** * Properties of the calculators *)

Lemma Qle_bool_false (x y : Q) : Qle_bool x y = false <-> y < x.
Proof.
  split; intros H.
  - apply Qnot_le_lt. intros Hle. apply Qle_bool_iff in Hle. congruence.
  - destruct (Qle_bool x y) eqn:E; [|reflexivity].
    apply Qle_bool_iff in E. lra.
Qed.

Lemma pydiv_ok (x y : Q) : ~ y == 0 -> pydiv x y = Ok (x / y).
Proof.
  intros H. unfold pydiv.
  destruct (Qeq_bool y 0) eqn:E; [|reflexivity].
  apply Qeq_bool_iff in E. contradiction.
Qed.

Lemma pydiv_zero (x y : Q) : y == 0 -> pydiv x y = Raise ZeroDivisionError.
Proof.
  intros H. unfold pydiv. apply Qeq_bool_iff in H. now rewrite H.
Qed.

Lemma Qinv_pos_lt_1 (x : Q) : 1 < x -> 0 < 1 / x /\ 1 / x < 1.
Proof.
  intros H. split.
  - apply Qlt_shift_div_l; lra.
  - apply Qlt_shift_div_r; lra.
Qed.

Lemma traverse_total {A B} (f : A -> res B) (g : A -> B) (l : list A) :
  Forall (fun x => f x = Ok (g x)) l -> traverse f l = Ok (map g l).
Proof.
  induction 1 as [|x l Hx _ IH]; simpl; [reflexivity|].
  rewrite Hx. simpl. rewrite IH. reflexivity.
Qed.

Lemma fold_left_Qplus (l : list Q) (a : Q) :
  fold_left Qplus l a == a + py_sum l.
Proof.
  unfold py_sum. revert a.
  induction l as [|x l IH]; intros a; simpl; [ring|].
  rewrite (IH (a + x)), (IH (0 + x)). ring.
Qed.

Lemma py_sum_cons (x : Q) (l : list Q) : py_sum (x :: l) == x + py_sum l.
Proof. unfold py_sum at 1. simpl. rewrite fold_left_Qplus. ring. Qed.

Lemma py_sum_nonneg (l : list Q) : Forall (fun x => 0 < x) l -> 0 <= py_sum l.
Proof.
  induction 1 as [|x l Hx _ IH]; [unfold py_sum; simpl; lra|].
  rewrite py_sum_cons. lra.
Qed.

Lemma py_sum_pos (l : list Q) :
  l <> [] -> Forall (fun x => 0 < x) l -> 0 < py_sum l.
Proof.
  intros Hne Hall. destruct Hall as [|x l Hx Hl]; [congruence|].
  rewrite py_sum_cons. pose proof (py_sum_nonneg l Hl). lra.
Qed.

(** The pairwise calculator below its guards, as a closed expression. *)
Lemma calc_arb_equal_payout_eval (odds_a odds_b : Q) (bookmaker_a bookmaker_b : pystr) :
  1 < odds_a -> 1 < odds_b ->
  let eff_a := adjust_odds_for_commission odds_a bookmaker_a in
  let eff_b := adjust_odds_for_commission odds_b bookmaker_b in
  let s := 1 / eff_a + 1 / eff_b in
  0 < s /\
  calc_arb_equal_payout odds_a odds_b bookmaker_a bookmaker_b =
    if Qle_bool 1 s then Ok None
    else Ok (Some (100 / eff_a / s, 100 / eff_b / s,
                   100 / eff_a / s + 100 / eff_b / s)).
Proof.
  intros Ha Hb eff_a eff_b s.
  pose proof (adjust_gt_1 _ bookmaker_a Ha) as Ea.
  pose proof (adjust_gt_1 _ bookmaker_b Hb) as Eb.
  fold eff_a in Ea. fold eff_b in Eb.
  destruct (Qinv_pos_lt_1 _ Ea) as [Ia _], (Qinv_pos_lt_1 _ Eb) as [Ib _].
  assert (Hs : 0 < s) by (unfold s; lra).
  split; [exact Hs|].
  unfold calc_arb_equal_payout.
  assert (Qle_bool odds_a 1 = false) as -> by (apply Qle_bool_false; exact Ha).
  assert (Qle_bool odds_b 1 = false) as -> by (apply Qle_bool_false; exact Hb).
  cbn [orb]. cbv zeta. fold eff_a eff_b.
  rewrite (pydiv_ok 1 eff_a), (pydiv_ok 1 eff_b) by lra.
  cbn [mbind res_bind]. fold s.
  destruct (Qle_bool 1 s); [reflexivity|].
  rewrite (pydiv_ok 100 eff_a), (pydiv_ok 100 eff_b) by lra.
  cbn [mbind res_bind].
  rewrite !pydiv_ok by lra. reflexivity.
Qed.

Lemma calc_arb_equal_payout_guard (odds_a odds_b : Q) (bookmaker_a bookmaker_b : pystr) :
  odds_a <= 1 \/ odds_b <= 1 ->
  calc_arb_equal_payout odds_a odds_b bookmaker_a bookmaker_b = Ok None.
Proof.
  intros H. unfold calc_arb_equal_payout.
  assert (Qle_bool odds_a 1 || Qle_bool odds_b 1 = true) as ->; [|reflexivity].
  apply orb_true_iff. destruct H as [H|H]; [left|right]; apply Qle_bool_iff, H.
Qed.

Lemma effective_odds_gt_1 (odds_list : list Q) (keys : option (list pystr)) :
  Forall (fun o => 1 < o) odds_list ->
  Forall (fun o => 1 < o) (effective_odds_of odds_list keys).
Proof.
  intros H. unfold effective_odds_of.
  destruct keys as [[|k ks]|]; try exact H.
  destruct (decide _) as [_|_]; [|exact H].
  generalize (k :: ks). clear k ks.
  induction H as [|o l Ho _ IH]; intros [|k ks]; simpl; constructor.
  - apply adjust_gt_1, Ho.
  - apply IH.
Qed.

Lemma effective_odds_length (odds_list : list Q) (keys : option (list pystr)) :
  length (effective_odds_of odds_list keys) = length odds_list.
Proof.
  unfold effective_odds_of.
  destruct keys as [[|k ks]|]; try reflexivity.
  destruct (decide _) as [E|_]; [|reflexivity].
  rewrite length_zip_with, E. apply Nat.min_id.
Qed.

Lemma existsb_le_1_false (l : list Q) :
  existsb (fun o => Qle_bool o 1) l = false <-> Forall (fun o => 1 < o) l.
Proof.
  induction l as [|o l IH]; simpl.
  - split; [constructor|reflexivity].
  - rewrite orb_false_iff, IH, Qle_bool_false. split.
    + intros [? ?]. now constructor.
    + intros H. inversion H; subst. now split.
Qed.

Lemma existsb_le_1_true (l : list Q) :
  existsb (fun o => Qle_bool o 1) l = true <-> Exists (fun o => o <= 1) l.
Proof.
  induction l as [|o l IH]; simpl.
  - split; [discriminate|intros H; inversion H].
  - rewrite orb_true_iff, IH, Qle_bool_iff, Exists_cons. reflexivity.
Qed.

(** The reciprocal sum of a list of odds all above 1. *)
Lemma inv_sum_pos (l : list Q) :
  l <> [] -> Forall (fun o => 1 < o) l -> 0 < py_sum (map (Qdiv 1) l).
Proof.
  intros Hne H. apply py_sum_pos.
  - destruct l; [congruence|discriminate].
  - clear Hne. induction H as [|o l Ho _ IH]; simpl; constructor; [|exact IH].
    apply Qinv_pos_lt_1, Ho.
Qed.

(** The N-way calculator below its guards, as a closed expression. *)
Lemma calc_nway_arb_eval (odds_list : list Q) (keys : option (list pystr)) :
  odds_list <> [] -> Forall (fun o => 1 < o) odds_list ->
  let eff := effective_odds_of odds_list keys in
  let s := py_sum (map (Qdiv 1) eff) in
  0 < s /\
  calc_nway_arb odds_list keys =
    if Qle_bool 1 s then Ok None
    else Ok (Some (map (fun o => 100 / (o * s)) eff,
                   py_sum (map (fun o => 100 / (o * s)) eff))).
Proof.
  intros Hne Hall eff s.
  pose proof (effective_odds_gt_1 _ keys Hall) as Heff. fold eff in Heff.
  assert (Hs : 0 < s).
  { apply inv_sum_pos; [|exact Heff].
    intros E. apply (f_equal length) in E. unfold eff in E.
    rewrite effective_odds_length in E. destruct odds_list; [congruence|discriminate]. }
  split; [exact Hs|].
  unfold calc_nway_arb. destruct odds_list as [|o0 l0]; [congruence|].
  assert (existsb (fun o => Qle_bool o 1) (o0 :: l0) = false) as ->
    by (apply existsb_le_1_false, Hall).
  cbv zeta. fold eff.
  rewrite (traverse_total (pydiv 1) (Qdiv 1)).
  2:{ eapply Forall_impl; [exact Heff|]. intros o Ho. apply pydiv_ok. simpl in Ho. lra. }
  cbn [mbind res_bind]. fold s.
  destruct (Qle_bool 1 s); [reflexivity|].
  rewrite (traverse_total _ (fun o => 100 / (o * s))).
  2:{ eapply Forall_impl; [exact Heff|]. intros o Ho. apply pydiv_ok. simpl in Ho. nra. }
  reflexivity.
Qed.

Lemma calc_nway_arb_guard (odds_list : list Q) (keys : option (list pystr)) :
  odds_list = [] \/ Exists (fun o => o <= 1) odds_list ->
  calc_nway_arb odds_list keys = Ok None.
Proof.
  intros [->|H]; [reflexivity|].
  unfold calc_nway_arb. destruct odds_list; [reflexivity|].
  apply existsb_le_1_true in H. now rewrite H.
Qed.

Lemma adjust_pos (odds : Q) (k : pystr) :
  0 < odds -> 0 < adjust_odds_for_commission odds k.
Proof.
  intros H. rewrite adjust_formula.
  destruct (commission_of_range k) as [H0 H1]. nra.
Qed.

Lemma Qinv_pos (x : Q) : 0 < x -> 0 < 1 / x.
Proof. intros H. apply Qlt_shift_div_l; lra. Qed.

Lemma _arb_profit_pct_eval_pos (odds_a odds_b : Q) (bookmaker_a bookmaker_b : pystr) :
  0 < odds_a -> 0 < odds_b ->
  _arb_profit_pct odds_a odds_b bookmaker_a bookmaker_b =
    Ok (100 * (1 / (1 / adjust_odds_for_commission odds_a bookmaker_a
                    + 1 / adjust_odds_for_commission odds_b bookmaker_b) - 1)).
Proof.
  intros Ha Hb.
  pose proof (adjust_pos _ bookmaker_a Ha) as Ea.
  pose proof (adjust_pos _ bookmaker_b Hb) as Eb.
  pose proof (Qinv_pos _ Ea) as Ia. pose proof (Qinv_pos _ Eb) as Ib.
  unfold _arb_profit_pct. cbv zeta.
  rewrite (pydiv_ok 1 (adjust_odds_for_commission odds_a bookmaker_a)) by lra.
  rewrite (pydiv_ok 1 (adjust_odds_for_commission odds_b bookmaker_b)) by lra.
  cbn [mbind res_bind]. rewrite pydiv_ok by lra. reflexivity.
Qed.

Lemma _arb_profit_pct_eval (odds_a odds_b : Q) (bookmaker_a bookmaker_b : pystr) :
  1 < odds_a -> 1 < odds_b ->
  _arb_profit_pct odds_a odds_b bookmaker_a bookmaker_b =
    Ok (100 * (1 / (1 / adjust_odds_for_commission odds_a bookmaker_a
                    + 1 / adjust_odds_for_commission odds_b bookmaker_b) - 1)).
Proof. intros Ha Hb. apply _arb_profit_pct_eval_pos; lra. Qed.

Lemma _nway_arb_profit_pct_eval (odds_list : list Q) (keys : option (list pystr)) :
  odds_list <> [] -> Forall (fun o => 1 < o) odds_list ->
  _nway_arb_profit_pct odds_list keys =
    Ok (100 * (1 / py_sum (map (Qdiv 1) (effective_odds_of odds_list keys)) - 1)).
Proof.
  intros Hne Hall.
  destruct (calc_nway_arb_eval odds_list keys Hne Hall) as [Hs _].
  pose proof (effective_odds_gt_1 _ keys Hall) as Heff.
  unfold _nway_arb_profit_pct. cbv zeta.
  rewrite (traverse_total (pydiv 1) (Qdiv 1)).
  2:{ eapply Forall_impl; [exact Heff|]. intros o Ho. apply pydiv_ok. simpl in Ho. lra. }
  cbn [mbind res_bind]. rewrite pydiv_ok by lra. reflexivity.
Qed.

(** A profit percentage [100 * (1/s - 1)] is positive exactly below [s = 1]. *)
Lemma profit_formula_pos (s : Q) : 0 < s -> s < 1 -> 0 < 100 * (1 / s - 1).
Proof.
  intros H0 H1.
  assert (1 < 1 / s) by (apply Qlt_shift_div_l; lra).
  lra.
Qed.

(** ** Claims on the commission model and the calculators *)

(** C5.  The commission adjustment returns [1 + (odds - 1) * (1 - c)],
    with [c] the rate recorded for the bookmaker key; a key without an
    entry (the empty key and [None] among them) has rate 0 and leaves the
    odds unchanged; every recorded rate lies in [0, 1). *)
Theorem adjust_odds_for_commission_spec (odds : Q) (bookmaker_key : pystr) :
  adjust_odds_for_commission odds bookmaker_key
    == 1 + (odds - 1) * (1 - commission_of bookmaker_key)
  /\ (forall k c, bookmaker_key = Some k -> EXCHANGE_COMMISSION !! k = Some c ->
        commission_of bookmaker_key = c)
  /\ ((bookmaker_key = None
       \/ exists k, bookmaker_key = Some k /\ EXCHANGE_COMMISSION !! k = None) ->
        commission_of bookmaker_key = 0
        /\ adjust_odds_for_commission odds bookmaker_key = odds)
  /\ EXCHANGE_COMMISSION !! "" = None
  /\ map_Forall (fun _ c => 0 <= c /\ c < 1) EXCHANGE_COMMISSION.
Proof.
  split; [apply adjust_formula|]. split; [|split; [|split]].
  - intros k c -> E. simpl. now rewrite E.
  - intros H.
    assert (E : commission_of bookmaker_key = 0).
    { destruct H as [->|(k & -> & E)]; simpl; [reflexivity|now rewrite E]. }
    split; [exact E|]. unfold adjust_odds_for_commission. now rewrite E.
  - reflexivity.
  - intros k c E. apply commission_entries in E as [-> | [-> | ->] ]; lra.
Qed.

Lemma adjust_odds_for_commission_spec_witness :
  commission_of (Some "") = 0
  /\ adjust_odds_for_commission 2.05 (Some "") = 2.05
  /\ adjust_odds_for_commission 2.05 (Some "betfair_ex_uk") == 1.9975.
Proof.
  destruct (adjust_odds_for_commission_spec 2.05 (Some ""))
    as (_ & _ & H & _ & _).
  destruct H as [H1 H2]; [right; exists ""; split; reflexivity|].
  destruct (adjust_odds_for_commission_spec 2.05 (Some "betfair_ex_uk"))
    as (F & _).
  split; [exact H1|]. split; [exact H2|]. rewrite F. reflexivity.
Defined.








(** C8.  For odds above 1, a key with a strictly higher commission rate
    gives strictly lower effective odds, and against a fixed second leg
    (any quote with positive odds) a strictly lower 2-way profit
    percentage.  The rates of both keys lie in [0, 1). *)
Theorem commission_strictly_monotone (odds odds_b : Q) (k1 k2 bookmaker_b : pystr) :
  1 < odds -> 0 < odds_b ->
  commission_of k1 < commission_of k2 ->
  0 <= commission_of k1 /\ commission_of k2 < 1
  /\ adjust_odds_for_commission odds k2 < adjust_odds_for_commission odds k1
  /\ exists p1 p2,
       _arb_profit_pct odds odds_b k1 bookmaker_b = Ok p1
       /\ _arb_profit_pct odds odds_b k2 bookmaker_b = Ok p2
       /\ p2 < p1.
Proof.
  intros Ho Hb Hc.
  destruct (commission_of_range k1) as [L1 _], (commission_of_range k2) as [_ U2].
  split; [exact L1|]. split; [exact U2|].
  assert (Hlt : adjust_odds_for_commission odds k2 < adjust_odds_for_commission odds k1)
    by (rewrite !adjust_formula; nra).
  split; [exact Hlt|].
  rewrite !_arb_profit_pct_eval_pos by lra.
  eexists _, _. split; [reflexivity|]. split; [reflexivity|].
  pose proof (adjust_gt_1 _ k1 Ho) as E1.
  pose proof (adjust_gt_1 _ k2 Ho) as E2.
  pose proof (adjust_pos _ bookmaker_b Hb) as Eb.
  set (e1 := adjust_odds_for_commission odds k1) in *.
  set (e2 := adjust_odds_for_commission odds k2) in *.
  set (eb := adjust_odds_for_commission odds_b bookmaker_b) in *.
  destruct (Qinv_pos_lt_1 _ E1) as [I1 _], (Qinv_pos_lt_1 _ E2) as [I2 _].
  pose proof (Qinv_pos _ Eb) as Ib.
  assert (H12 : 1 / e1 < 1 / e2).
  { unfold Qdiv. rewrite !Qmult_1_l. apply -> Qinv_lt_contravar; lra. }
  assert (H : 1 / (1 / e2 + 1 / eb) < 1 / (1 / e1 + 1 / eb)).
  { unfold Qdiv at 1 4. rewrite !Qmult_1_l. apply -> Qinv_lt_contravar; lra. }
  lra.
Qed.

Lemma commission_strictly_monotone_witness :
  adjust_odds_for_commission 2.05 (Some "betfair_ex_uk")
    < adjust_odds_for_commission 2.05 (Some "bet365")
  /\ exists p1 p2,
       _arb_profit_pct 2.05 2.10 (Some "bet365") (Some "pinnacle") = Ok p1
       /\ _arb_profit_pct 2.05 2.10 (Some "betfair_ex_uk") (Some "pinnacle") = Ok p2
       /\ p2 < p1.
Proof.
  destruct (commission_strictly_monotone 2.05 2.10 (Some "bet365")
              (Some "betfair_ex_uk") (Some "pinnacle")) as (_ & _ & H & P);
    [reflexivity|reflexivity|reflexivity|].
  split; [exact H|exact P].
Defined.

(** * Loops and dictionaries *)

Lemma returns_ok {S} (P : S -> Prop) (s : S) : P s -> returns P (Ok s).
Proof. intros HP. exists s. split; [reflexivity|exact HP]. Qed.

Lemma returns_bind {A B} (P : A -> Prop) (Q : B -> Prop) (m : res A) (f : A -> res B) :
  returns P m -> (forall a, P a -> returns Q (f a)) -> returns Q (m ≫= f).
Proof. intros (a & -> & Ha) Hf. exact (Hf a Ha). Qed.

Lemma returns_impl {S} (P Q : S -> Prop) (m : res S) :
  returns P m -> (forall s, P s -> Q s) -> returns Q m.
Proof. intros (s & -> & Hs) HPQ. exists s. split; [reflexivity|auto]. Qed.

Lemma foreach_inv {A S} (P : S -> Prop) (l : list A) (body : A -> S -> S) (s : S) :
  P s -> (forall x s, x ∈ l -> P s -> P (body x s)) -> P (foreach l body s).
Proof.
  unfold foreach. revert s. induction l as [|x l IH]; intros s Hs Hbody; simpl.
  - exact Hs.
  - apply IH.
    + apply Hbody; [left|exact Hs].
    + intros y s' Hy. apply Hbody. now right.
Qed.

Lemma for_each_returns {A S} (P : S -> Prop) (l : list A) (body : A -> S -> res S)
    (s : S) :
  P s -> (forall x s, x ∈ l -> P s -> returns P (body x s)) ->
  returns P (for_each l body s).
Proof.
  revert s. induction l as [|x l IH]; intros s Hs Hbody; simpl.
  - now apply returns_ok.
  - eapply returns_bind.
    + apply Hbody; [left|exact Hs].
    + intros s' Hs'. apply IH; [exact Hs'|].
      intros y s'' Hy. apply Hbody. now right.
Qed.

Lemma for_break_returns {A S} (P : S -> Prop) (l : list A)
    (body : A -> S -> res (S * bool)) (s : S) :
  P s -> (forall x s, x ∈ l -> P s -> returns (fun r => P r.1) (body x s)) ->
  returns P (for_break l body s).
Proof.
  revert s. induction l as [|x l IH]; intros s Hs Hbody; simpl.
  - now apply returns_ok.
  - eapply returns_bind.
    + apply Hbody; [left|exact Hs].
    + intros [s' [|]] Hs'; simpl in *.
      * now apply returns_ok.
      * apply IH; [exact Hs'|]. intros y s'' Hy. apply Hbody. now right.
Qed.


(** ** The calculators return *)

Lemma calc_arb_equal_payout_returns (o1 o2 : Q) (bk1 bk2 : pystr) :
  returns (fun res => forall r, res = Some r ->
             exists p, _arb_profit_pct o1 o2 bk1 bk2 = Ok p /\ 0 < p)
    (calc_arb_equal_payout o1 o2 bk1 bk2).
Proof.
  destruct (Qlt_le_dec 1 o1) as [H1|H1].
  2:{ rewrite calc_arb_equal_payout_guard by now left.
      apply returns_ok. discriminate. }
  destruct (Qlt_le_dec 1 o2) as [H2|H2].
  2:{ rewrite calc_arb_equal_payout_guard by now right.
      apply returns_ok. discriminate. }
  destruct (calc_arb_equal_payout_eval o1 o2 bk1 bk2 H1 H2) as [Hs ->].
  destruct (Qle_bool 1 _) eqn:E; apply returns_ok; [discriminate|].
  intros r _. rewrite _arb_profit_pct_eval by assumption.
  eexists. split; [reflexivity|].
  apply Qle_bool_false in E. now apply profit_formula_pos.
Qed.

Lemma calc_nway_arb_returns (odds_list : list Q) (keys : option (list pystr)) :
  returns (fun res => forall stakes total, res = Some (stakes, total) ->
             length stakes = length odds_list
             /\ exists p, _nway_arb_profit_pct odds_list keys = Ok p /\ 0 < p)
    (calc_nway_arb odds_list keys).
Proof.
  destruct odds_list as [|o0 l0] eqn:El.
  { apply returns_ok. discriminate. }
  rewrite <- El.
  destruct (existsb (fun o => Qle_bool o 1) odds_list) eqn:Ex.
  { rewrite calc_nway_arb_guard by (right; now apply existsb_le_1_true).
    apply returns_ok. discriminate. }
  apply existsb_le_1_false in Ex.
  assert (Hne : odds_list <> []) by (rewrite El; discriminate).
  destruct (calc_nway_arb_eval odds_list keys Hne Ex) as [Hs ->].
  destruct (Qle_bool 1 _) eqn:E; apply returns_ok; [discriminate|].
  intros stakes total [= <- _]. split.
  - rewrite length_map. apply effective_odds_length.
  - rewrite _nway_arb_profit_pct_eval by assumption.
    eexists. split; [reflexivity|].
    apply Qle_bool_false in E. now apply profit_formula_pos.
Qed.

(** ** Records *)

Lemma dict_of_app_lookup (l1 l2 : list (string * val)) (k : string) :
  k ∉ l2.*1 -> dict_of (l1 ++ l2) !! k = dict_of l1 !! k.
Proof.
  unfold dict_of. rewrite fold_left_app.
  generalize (fold_left (fun (d : arb) (kv : string * val) => <[kv.1:=kv.2]> d) l1 ∅).
  induction l2 as [|[k' v] l2 IH]; intros d Hk; simpl; [reflexivity|].
  rewrite IH.
  - apply lookup_insert_ne. intros ->. apply Hk. simpl. left.
  - intros Hin. apply Hk. simpl. now right.
Qed.

(** ** Dictionaries in insertion order *)

Lemma dict_upd_Forall {K V} (P : K * V -> Prop) (eqb : K -> K -> bool) (k : K)
    (dflt : V) (f : V -> V) (d : list (K * V)) :
  Forall P d ->
  (forall k' v, (k', v) ∈ d -> P (k', v) -> P (k', f v)) ->
  P (k, f dflt) ->
  Forall P (dict_upd eqb k dflt f d).
Proof.
  induction d as [|[k' v] d IH]; intros Hd Hf Hnew; simpl.
  - constructor; [exact Hnew|constructor].
  - inversion Hd as [|? ? Hkv Hd']; subst.
    destruct (eqb k' k).
    + constructor; [|exact Hd']. apply Hf; [left|exact Hkv].
    + constructor; [exact Hkv|]. apply IH; [exact Hd'| |exact Hnew].
      intros k'' v' Hin. apply Hf. now right.
Qed.

Lemma dict_append_Forall {K V} (P : V -> Prop) (eqb : K -> K -> bool) (k : K) (v : V)
    (d : list (K * list V)) :
  Forall (fun kv => Forall P kv.2) d -> P v ->
  Forall (fun kv => Forall P kv.2) (dict_append eqb k v d).
Proof.
  intros Hd Hv. apply dict_upd_Forall; [exact Hd| |]; simpl.
  - intros k' vs _ Hvs. apply Forall_app. split; [exact Hvs|]. now constructor.
  - now constructor.
Qed.

Lemma add_side_Forall {K} (P : quote -> Prop) (eqb : K -> K -> bool) (k : K)
    (name : pystr) (q : quote) (d : list (K * (list quote * list quote))) :
  Forall (fun kv => Forall P kv.2.1 /\ Forall P kv.2.2) d -> P q ->
  Forall (fun kv => Forall P kv.2.1 /\ Forall P kv.2.2) (add_side eqb k name q d).
Proof.
  intros Hd Hq. apply dict_upd_Forall; [exact Hd| |]; simpl.
  - intros k' [ov un] _ [Hov Hun]; simpl in *.
    destruct (decide _); simpl; (split; [|]); try assumption;
      apply Forall_app; (split; [assumption|now constructor]).
  - destruct (decide _); simpl; split; constructor; try assumption; constructor.
Qed.

Lemma dict_get_elem {K V} (eqb : K -> K -> bool) (k : K) (d : list (K * V)) (v : V) :
  dict_get eqb k d = Some v -> exists k', (k', v) ∈ d /\ eqb k' k = true.
Proof.
  induction d as [|[k' v'] d IH]; simpl; [discriminate|].
  destruct (eqb k' k) eqn:E.
  - intros [= ->]. exists k'. split; [left|exact E].
  - intros Hget. destruct (IH Hget) as (k'' & Hin & Hk). exists k''. split; [now right|exact Hk].
Qed.

(** ** Emitting a two-leg record *)

Lemma emit2_returns (Good : arb -> Prop) (o1 o2 : Q) (bk1 bk2 : pystr)
    (record : Q * Q * Q -> Q -> arb) (arbs : list arb) :
  Forall Good arbs ->
  (forall r p,
     calc_arb_equal_payout o1 o2 bk1 bk2 = Ok (Some r) ->
     _arb_profit_pct o1 o2 bk1 bk2 = Ok p -> 0 < p ->
     Good (record r p)) ->
  returns (fun r => Forall Good r.1) (emit2 o1 o2 bk1 bk2 record arbs).
Proof.
  intros Harbs Hrec.
  destruct (calc_arb_equal_payout_returns o1 o2 bk1 bk2) as (res & E & Hres).
  unfold emit2. rewrite E. simpl. destruct res as [r|].
  - destruct (Hres r eq_refl) as (p & Ep & Hp). rewrite Ep. simpl.
    apply returns_ok. simpl. apply Forall_app. split; [exact Harbs|].
    constructor; [|constructor]. now apply Hrec.
  - apply returns_ok. exact Harbs.
Qed.

Lemma pair_quotes_returns (Good : arb -> Prop) (first_only : bool)
    (l1 l2 : list quote) (record : quote -> quote -> Q * Q * Q -> Q -> arb)
    (arbs : list arb) :
  Forall Good arbs ->
  (forall q1 q2 r p,
     q1 ∈ l1 -> q2 ∈ l2 -> q1.1.1.1 <> q2.1.1.1 ->
     calc_arb_equal_payout q1.1.2 q2.1.2 q1.1.1.1 q2.1.1.1 = Ok (Some r) ->
     _arb_profit_pct q1.1.2 q2.1.2 q1.1.1.1 q2.1.1.1 = Ok p -> 0 < p ->
     Good (record q1 q2 r p)) ->
  returns (Forall Good) (pair_quotes first_only l1 l2 record arbs).
Proof.
  intros Harbs Hrec. unfold pair_quotes.
  apply for_each_returns; [exact Harbs|].
  intros [[[bk1 b1] o1] lu1] arbs1 Hq1 Harbs1.
  apply for_break_returns; [exact Harbs1|].
  intros [[[bk2 b2] o2] lu2] arbs2 Hq2 Harbs2.
  destruct (decide (bk1 = bk2)) as [_|Hne]; [now apply returns_ok|].
  eapply returns_bind.
  - apply emit2_returns; [exact Harbs2|].
    intros r p Hc Hp Hpos. exact (Hrec _ _ r p Hq1 Hq2 Hne Hc Hp Hpos).
  - intros [arbs3 appended] H3. now apply returns_ok.
Qed.

Lemma pair_lines_returns (Good : arb -> Prop) (first_only : bool)
    (neg pos : list line_quote)
    (record : line_quote -> line_quote -> Q * Q * Q -> Q -> arb) (arbs : list arb) :
  Forall Good arbs ->
  (forall q1 q2 r p,
     q1 ∈ neg -> q2 ∈ pos -> q1.1.1.1.2 <> q2.1.1.1.2 ->
     calc_arb_equal_payout q1.1.2 q2.1.2 q1.1.1.1.2 q2.1.1.1.2 = Ok (Some r) ->
     _arb_profit_pct q1.1.2 q2.1.2 q1.1.1.1.2 q2.1.1.1.2 = Ok p -> 0 < p ->
     Good (record q1 q2 r p)) ->
  returns (Forall Good) (pair_lines first_only neg pos record arbs).
Proof.
  intros Harbs Hrec. unfold pair_lines.
  apply for_each_returns; [exact Harbs|].
  intros [[[[[n1 p1] bk1] b1] o1] lu1] arbs1 Hq1 Harbs1.
  apply for_break_returns; [exact Harbs1|].
  intros [[[[[n2 p2] bk2] b2] o2] lu2] arbs2 Hq2 Harbs2.
  destruct (decide (bk1 = bk2)) as [_|Hne]; [now apply returns_ok|].
  destruct (decide (n1 = n2)) as [_|_]; [now apply returns_ok|].
  eapply returns_bind.
  - apply emit2_returns; [exact Harbs2|].
    intros r p Hc Hp Hpos. exact (Hrec _ _ r p Hq1 Hq2 Hne Hc Hp Hpos).
  - intros [arbs3 appended] H3. now apply returns_ok.
Qed.

(** * The scanners *)

Section scanner_properties.
Context {builtins : PyBuiltins} (cfg : settings).


Lemma two_leg_arb2 (events : list event) (ev : event) (sport_key : string)
    (market line : val) (arb_type : string) (side_a side_b : val)
    (q1 q2 : quote) (r : Q * Q * Q) (p : Q) (extra : list (string * val)) :
  ev ∈ events ->
  quoted_by (_filter_bookmakers cfg (ev_bookmakers ev)) q1 ->
  quoted_by (_filter_bookmakers cfg (ev_bookmakers ev)) q2 ->
  q1.1.1.1 <> q2.1.1.1 ->
  calc_arb_equal_payout q1.1.2 q2.1.2 q1.1.1.1 q2.1.1.1 = Ok (Some r) ->
  _arb_profit_pct q1.1.2 q2.1.2 q1.1.1.1 q2.1.1.1 = Ok p -> 0 < p ->
  Forall (fun k => k = "gap" \/ k = "type") extra.*1 ->
  two_leg_record cfg events
    (arb2 sport_key ev market line arb_type side_a side_b
       q1.1.1.2 q2.1.1.2 q1.1.2 q2.1.2 r p q1.2 q2.2 extra).
Proof.
  intros Hev (bm1 & o1 & Hbm1 & Hoff1 & ->) (bm2 & o2 & Hbm2 & Hoff2 & ->)
    Hne Hc Hp Hpos Hextra.
  simpl in *.
  exists ev, bm1, bm2, o1, o2, r, p.
  repeat (split; [assumption|]).
  unfold arb2. rewrite app_assoc.
  assert (Hk : forall k, k <> "gap" -> k <> "type" -> k ∉ extra.*1).
  { intros k H1 H2 Hin. rewrite Forall_forall in Hextra.
    destruct (Hextra k Hin); contradiction. }
  repeat split; (rewrite dict_of_app_lookup by (apply Hk; discriminate)); reflexivity.
Qed.

Lemma scan_totals_records (events : list event) (sport_key market_key : string) :
  returns (Forall (two_leg_record cfg events))
    (scan_totals cfg events sport_key market_key).
Proof.
  unfold scan_totals. apply for_each_returns; [constructor|].
  intros ev arbs Hev Harbs. cbv zeta.
  set (bookmakers := _filter_bookmakers cfg (ev_bookmakers ev)).
  match goal with
  | |- context [for_each ?d _ arbs] =>
      assert (Hd : Forall (fun kv => Forall (quoted_by bookmakers) kv.2.1
                                     /\ Forall (quoted_by bookmakers) kv.2.2) d)
  end.
  { apply foreach_inv; [constructor|]. intros bm d Hbm Hd.
    apply foreach_inv; [exact Hd|]. intros mkt d1 Hmkt Hd1.
    destruct (decide _); [|exact Hd1].
    apply foreach_inv; [exact Hd1|]. intros o d2 Ho Hd2.
    destruct (o_point o), (o_price o) as [price|] eqn:Eprice; try exact Hd2.
    destruct (is_over_under _); [|exact Hd2].
    apply add_side_Forall; [exact Hd2|].
    exists bm, price. split; [exact Hbm|]. split; [|reflexivity].
    exists mkt, o. auto. }
  apply for_each_returns; [exact Harbs|].
  intros [line [overs unders]] arbs1 Hin Harbs1.
  destruct (py_empty overs || py_empty unders); [now apply returns_ok|].
  rewrite Forall_forall in Hd. destruct (Hd _ Hin) as [Hov Hun]. simpl in Hov, Hun.
  rewrite Forall_forall in Hov, Hun.
  apply pair_quotes_returns; [exact Harbs1|].
  intros [[[bk1 b1] o1] lu1] [[[bk2 b2] o2] lu2] r p Hq1 Hq2 Hne Hc Hp Hpos.
  apply (two_leg_arb2 events ev sport_key _ _ _ _ _ (bk1, b1, o1, lu1) (bk2, b2, o2, lu2));
    auto.
Qed.

Lemma scan_alternate_totals_enhanced_records (events : list event) (sport_key : string) :
  returns (Forall (two_leg_record cfg events))
    (scan_alternate_totals_enhanced cfg events sport_key).
Proof. apply scan_totals_records. Qed.

Lemma scan_team_totals_records (events : list event) (sport_key market_key : string) :
  returns (Forall (two_leg_record cfg events))
    (scan_team_totals cfg events sport_key market_key).
Proof.
  unfold scan_team_totals. apply for_each_returns; [constructor|].
  intros ev arbs Hev Harbs. cbv zeta.
  set (bookmakers := _filter_bookmakers cfg (ev_bookmakers ev)).
  match goal with
  | |- context [for_each ?d _ arbs] =>
      assert (Hd : Forall (fun kv => Forall (quoted_by bookmakers) kv.2.1
                                     /\ Forall (quoted_by bookmakers) kv.2.2) d)
  end.
  { apply foreach_inv; [constructor|]. intros bm d Hbm Hd.
    apply foreach_inv; [exact Hd|]. intros mkt d1 Hmkt Hd1.
    destruct (decide _); [|exact Hd1].
    apply foreach_inv; [exact Hd1|]. intros o d2 Ho Hd2.
    destruct (o_point o), (o_price o) as [price|] eqn:Eprice; try exact Hd2.
    destruct (is_over_under _); [|exact Hd2].
    apply add_side_Forall; [exact Hd2|].
    exists bm, price. split; [exact Hbm|]. split; [|reflexivity].
    exists mkt, o. auto. }
  apply for_each_returns; [exact Harbs|].
  intros [[team line] [overs unders]] arbs1 Hin Harbs1.
  destruct (py_empty overs || py_empty unders); [now apply returns_ok|].
  rewrite Forall_forall in Hd. destruct (Hd _ Hin) as [Hov Hun]. simpl in Hov, Hun.
  rewrite Forall_forall in Hov, Hun.
  apply pair_quotes_returns; [exact Harbs1|].
  intros [[[bk1 b1] o1] lu1] [[[bk2 b2] o2] lu2] r p Hq1 Hq2 Hne Hc Hp Hpos.
  apply (two_leg_arb2 events ev sport_key _ _ _ _ _ (bk1, b1, o1, lu1) (bk2, b2, o2, lu2));
    auto.
Qed.

Lemma scan_double_chance_records (events : list event) (sport_key : string) :
  returns (Forall (two_leg_record cfg events))
    (scan_double_chance cfg events sport_key).
Proof.
  unfold scan_double_chance. apply for_each_returns; [constructor|].
  intros ev arbs Hev Harbs. cbv zeta.
  set (bookmakers := _filter_bookmakers cfg (ev_bookmakers ev)).
  match goal with
  | |- context [dict_get _ _ ?d] =>
      assert (Hd : Forall (fun kv => Forall (quoted_by bookmakers) kv.2) d);
      [|generalize dependent d; intros by_outcome Hd]
  end.
  { apply foreach_inv; [constructor|]. intros bm d Hbm Hd.
    apply foreach_inv; [exact Hd|]. intros mkt d1 Hmkt Hd1.
    destruct (decide _); [|exact Hd1].
    apply foreach_inv; [exact Hd1|]. intros o d2 Ho Hd2.
    destruct (o_price o) as [price|] eqn:Eprice; [|exact Hd2].
    destruct (String.eqb _ ""); [exact Hd2|].
    apply dict_append_Forall; [exact Hd2|].
    exists bm, price. split; [exact Hbm|]. split; [|reflexivity].
    exists mkt, o. auto. }
  apply for_each_returns; [exact Harbs|].
  intros [n1 n2] arbs1 _ Harbs1.
  destruct (dict_get String.eqb n1 by_outcome) as [l1|] eqn:E1; [|now apply returns_ok].
  destruct (dict_get String.eqb n2 by_outcome) as [l2|] eqn:E2; [|now apply returns_ok].
  apply dict_get_elem in E1 as (k1 & Hin1 & _), E2 as (k2 & Hin2 & _).
  rewrite Forall_forall in Hd.
  pose proof (Hd _ Hin1) as H1. pose proof (Hd _ Hin2) as H2. simpl in H1, H2.
  rewrite Forall_forall in H1, H2.
  apply pair_quotes_returns; [exact Harbs1|].
  intros [[[bk1 b1] o1] lu1] [[[bk2 b2] o2] lu2] r p Hq1 Hq2 Hne Hc Hp Hpos.
  apply (two_leg_arb2 events ev sport_key _ _ _ _ _ (bk1, b1, o1, lu1) (bk2, b2, o2, lu2));
    auto.
Qed.

Lemma scan_btts_records (events : list event) (sport_key : string) :
  returns (Forall (two_leg_record cfg events)) (scan_btts cfg events sport_key).
Proof.
  unfold scan_btts. apply for_each_returns; [constructor|].
  intros ev arbs Hev Harbs. cbv zeta.
  set (bookmakers := _filter_bookmakers cfg (ev_bookmakers ev)).
  match goal with
  | |- context [pair_quotes _ (?d).1 _ _ _] =>
      assert (Hd : Forall (quoted_by bookmakers) d.1 /\ Forall (quoted_by bookmakers) d.2);
      [|generalize dependent d; intros odds Hd]
  end.
  { apply foreach_inv; [split; constructor|]. intros bm d Hbm Hd.
    apply foreach_inv; [exact Hd|]. intros mkt d1 Hmkt Hd1.
    destruct (decide _); [|exact Hd1].
    apply foreach_inv; [exact Hd1|]. intros o d2 Ho [Hy Hn].
    destruct (o_price o) as [price|] eqn:Eprice; [|now split].
    assert (Hq : quoted_by bookmakers (quote_of bm price)).
    { exists bm, price. split; [exact Hbm|]. split; [|reflexivity]. exists mkt, o. auto. }
    repeat (destruct (_ && _); simpl;
            [split; try assumption; apply Forall_app; (split; [assumption|now constructor])|]).
    now split. }
  destruct Hd as [H1 H2]. rewrite Forall_forall in H1, H2.
  apply pair_quotes_returns; [exact Harbs|].
  intros [[[bk1 b1] o1] lu1] [[[bk2 b2] o2] lu2] r p Hq1 Hq2 Hne Hc Hp Hpos.
  apply (two_leg_arb2 events ev sport_key _ _ _ _ _ (bk1, b1, o1, lu1) (bk2, b2, o2, lu2));
    auto.
Qed.

Lemma scan_draw_no_bet_records (events : list event) (sport_key : string) :
  returns (Forall (two_leg_record cfg events)) (scan_draw_no_bet cfg events sport_key).
Proof.
  unfold scan_draw_no_bet. apply for_each_returns; [constructor|].
  intros ev arbs Hev Harbs. cbv zeta.
  set (bookmakers := _filter_bookmakers cfg (ev_bookmakers ev)).
  match goal with
  | |- context [pair_quotes _ (?d).1 _ _ _] =>
      assert (Hd : Forall (quoted_by bookmakers) d.1 /\ Forall (quoted_by bookmakers) d.2);
      [|generalize dependent d; intros odds Hd]
  end.
  { apply foreach_inv; [split; constructor|]. intros bm d Hbm Hd.
    apply foreach_inv; [exact Hd|]. intros mkt d1 Hmkt Hd1.
    destruct (decide _); [|exact Hd1].
    apply foreach_inv; [exact Hd1|]. intros o d2 Ho [Hy Hn].
    destruct (o_price o) as [price|] eqn:Eprice; [|now split].
    assert (Hq : quoted_by bookmakers (quote_of bm price)).
    { exists bm, price. split; [exact Hbm|]. split; [|reflexivity]. exists mkt, o. auto. }
    cbv zeta.
    repeat (destruct (_ || _); simpl;
            [split; try assumption; apply Forall_app; (split; [assumption|now constructor])|]).
    now split. }
  destruct Hd as [H1 H2]. rewrite Forall_forall in H1, H2.
  apply pair_quotes_returns; [exact Harbs|].
  intros [[[bk1 b1] o1] lu1] [[[bk2 b2] o2] lu2] r p Hq1 Hq2 Hne Hc Hp Hpos.
  apply (two_leg_arb2 events ev sport_key _ _ _ _ _ (bk1, b1, o1, lu1) (bk2, b2, o2, lu2));
    auto.
Qed.

Lemma scan_h2h_records (events : list event) (sport_key : string)
    (market_keys : gset string) :
  returns (Forall (two_leg_record cfg events))
    (scan_h2h cfg events sport_key market_keys).
Proof.
  unfold scan_h2h. apply for_each_returns; [constructor|].
  intros ev arbs Hev Harbs. cbv zeta.
  set (bookmakers := _filter_bookmakers cfg (ev_bookmakers ev)).
  apply for_each_returns; [exact Harbs|].
  intros mkt_key arbs1 _ Harbs1.
  match goal with
  | |- context [match ?d with [] => _ | _ => _ end] =>
      assert (Hd : Forall (fun kv => Forall (quoted_by bookmakers) kv.2) d);
      [|generalize dependent d; intros by_side Hd]
  end.
  { apply foreach_inv; [constructor|]. intros bm d Hbm Hd.
    apply foreach_inv; [exact Hd|]. intros mkt d1 Hmkt Hd1.
    destruct (decide _); [|exact Hd1].
    destruct (if _TWO_WAY_ONLY cfg then _ else _); [|exact Hd1].
    apply foreach_inv; [exact Hd1|]. intros o d2 Ho Hd2.
    destruct (get_or (o_name o) (Some "")) as [name|]; [|exact Hd2].
    destruct (o_price o) as [price|] eqn:Eprice; [|exact Hd2].
    destruct (String.eqb name ""); [exact Hd2|].
    apply dict_append_Forall; [exact Hd2|].
    exists bm, price. split; [exact Hbm|]. split; [|reflexivity].
    exists mkt, o. auto. }
  destruct by_side as [|[a_side l1] [|[b_side l2] [|? ?]]]; try now apply returns_ok.
  inversion Hd as [|? ? H1 Hd']; subst. inversion Hd' as [|? ? H2 _]; subst.
  simpl in H1, H2. rewrite Forall_forall in H1, H2.
  apply pair_quotes_returns; [exact Harbs1|].
  intros [[[bk1 b1] o1] lu1] [[[bk2 b2] o2] lu2] r p Hq1 Hq2 Hne Hc Hp Hpos.
  apply (two_leg_arb2 events ev sport_key _ _ _ _ _ (bk1, b1, o1, lu1) (bk2, b2, o2, lu2));
    auto.
Qed.

Lemma elem_of_negative_lines (q : line_quote) (l : list line_quote) :
  q ∈ negative_lines l -> q ∈ l.
Proof.
  unfold negative_lines. rewrite !list_elem_of_In, filter_In. tauto.
Qed.

Lemma elem_of_positive_lines (q : line_quote) (l : list line_quote) :
  q ∈ positive_lines l -> q ∈ l.
Proof.
  unfold positive_lines. rewrite !list_elem_of_In, filter_In. tauto.
Qed.

Lemma two_leg_spread_record (events : list event) (ev : event) (sport_key : string)
    (market line : val) (arb_type : string) (digits : nat)
    (q1 q2 : line_quote) (r : Q * Q * Q) (p : Q) :
  ev ∈ events ->
  line_quoted_by (_filter_bookmakers cfg (ev_bookmakers ev)) q1 ->
  line_quoted_by (_filter_bookmakers cfg (ev_bookmakers ev)) q2 ->
  q1.1.1.1.2 <> q2.1.1.1.2 ->
  calc_arb_equal_payout q1.1.2 q2.1.2 q1.1.1.1.2 q2.1.1.1.2 = Ok (Some r) ->
  _arb_profit_pct q1.1.2 q2.1.2 q1.1.1.1.2 q2.1.1.1.2 = Ok p -> 0 < p ->
  two_leg_record cfg events
    (spread_record sport_key ev market line arb_type digits q1 q2 r p).
Proof.
  intros Hev (bm1 & n1 & p1 & o1 & Hbm1 & Hoff1 & ->)
    (bm2 & n2 & p2 & o2 & Hbm2 & Hoff2 & ->) Hne Hc Hp Hpos.
  unfold line_quote_of in *. simpl in *.
  apply (two_leg_arb2 events ev sport_key _ _ _ _ _
           (quote_of bm1 o1) (quote_of bm2 o2)); auto.
  - exists bm1, o1. auto.
  - exists bm2, o2. auto.
Qed.

Lemma spread_lines_returns (events : list event) (ev : event) (sport_key : string)
    (market line : val) (arb_type : string) (digits : nat) (first_only : bool)
    (outcomes : list line_quote) (arbs : list arb) :
  ev ∈ events ->
  Forall (line_quoted_by (_filter_bookmakers cfg (ev_bookmakers ev))) outcomes ->
  Forall (two_leg_record cfg events) arbs ->
  returns (Forall (two_leg_record cfg events))
    (pair_lines first_only (negative_lines outcomes) (positive_lines outcomes)
       (spread_record sport_key ev market line arb_type digits) arbs).
Proof.
  intros Hev Hout Harbs. rewrite Forall_forall in Hout.
  apply pair_lines_returns; [exact Harbs|].
  intros q1 q2 r p Hq1 Hq2 Hne Hc Hp Hp0.
  apply elem_of_negative_lines in Hq1. apply elem_of_positive_lines in Hq2.
  apply two_leg_spread_record; auto.
Qed.

Lemma scan_spreads_records (events : list event) (sport_key : string)
    (market_keys : gset string) :
  returns (Forall (two_leg_record cfg events))
    (scan_spreads cfg events sport_key market_keys).
Proof.
  unfold scan_spreads. apply for_each_returns; [constructor|].
  intros ev arbs Hev Harbs. cbv zeta.
  set (bookmakers := _filter_bookmakers cfg (ev_bookmakers ev)).
  match goal with
  | |- context [for_each ?d _ arbs] =>
      assert (Hd : Forall (fun kv => Forall (line_quoted_by bookmakers) kv.2) d)
  end.
  { apply foreach_inv; [constructor|]. intros bm d Hbm Hd.
    apply foreach_inv; [exact Hd|]. intros mkt d1 Hmkt Hd1.
    destruct (m_key mkt) as [mk|]; [|exact Hd1].
    destruct (bool_decide _); [|exact Hd1].
    apply foreach_inv; [exact Hd1|]. intros o d2 Ho Hd2.
    destruct (get_or (o_name o) (Some "")) as [name|]; [|exact Hd2].
    destruct (o_point o) as [pt|]; [|exact Hd2].
    destruct (o_price o) as [price|] eqn:Eprice; [|exact Hd2].
    apply dict_append_Forall; [exact Hd2|].
    exists bm, (Some name), pt, price. split; [exact Hbm|]. split; [|reflexivity].
    exists mkt, o. auto. }
  apply for_each_returns; [exact Harbs|].
  intros [[mk line] outcomes] arbs1 Hin Harbs1.
  destruct (py_empty _ || py_empty _); [now apply returns_ok|].
  rewrite Forall_forall in Hd. pose proof (Hd _ Hin) as Hout. simpl in Hout.
  apply spread_lines_returns; auto.
Qed.

Lemma scan_alternate_spreads_enhanced_records (events : list event) (sport_key : string) :
  returns (Forall (two_leg_record cfg events))
    (scan_alternate_spreads_enhanced cfg events sport_key).
Proof.
  unfold scan_alternate_spreads_enhanced. apply for_each_returns; [constructor|].
  intros ev arbs Hev Harbs. cbv zeta.
  set (bookmakers := _filter_bookmakers cfg (ev_bookmakers ev)).
  match goal with
  | |- context [for_each ?d _ arbs] =>
      assert (Hd : Forall (fun kv => Forall (line_quoted_by bookmakers) kv.2) d)
  end.
  { apply foreach_inv; [constructor|]. intros bm d Hbm Hd.
    apply foreach_inv; [exact Hd|]. intros mkt d1 Hmkt Hd1.
    destruct (decide _); [|exact Hd1].
    apply foreach_inv; [exact Hd1|]. intros o d2 Ho Hd2.
    destruct (get_or (o_name o) (Some "")) as [name|]; [|exact Hd2].
    destruct (o_point o) as [pt|]; [|exact Hd2].
    destruct (o_price o) as [price|] eqn:Eprice; [|exact Hd2].
    apply dict_append_Forall; [exact Hd2|].
    exists bm, (Some name), pt, price. split; [exact Hbm|]. split; [|reflexivity].
    exists mkt, o. auto. }
  apply for_each_returns; [exact Harbs|].
  intros [line outcomes] arbs1 Hin Harbs1.
  destruct (py_empty _ || py_empty _); [now apply returns_ok|].
  rewrite Forall_forall in Hd. pose proof (Hd _ Hin) as Hout. simpl in Hout.
  apply spread_lines_returns; auto.
Qed.

Lemma scan_asian_handicap_records (events : list event) (sport_key : string) :
  returns (Forall (two_leg_record cfg events))
    (scan_asian_handicap cfg events sport_key).
Proof.
  unfold scan_asian_handicap. apply for_each_returns; [constructor|].
  intros ev arbs Hev Harbs. cbv zeta.
  set (bookmakers := _filter_bookmakers cfg (ev_bookmakers ev)).
  match goal with
  | |- context [for_each ?d _ arbs] =>
      assert (Hd : Forall (fun kv => Forall (line_quoted_by bookmakers) kv.2) d)
  end.
  { apply foreach_inv; [constructor|]. intros bm d Hbm Hd.
    apply foreach_inv; [exact Hd|]. intros mkt d1 Hmkt Hd1.
    destruct (_ || _); [|exact Hd1].
    apply foreach_inv; [exact Hd1|]. intros o d2 Ho Hd2.
    destruct (o_point o) as [pt|]; [|exact Hd2].
    destruct (o_price o) as [price|] eqn:Eprice; [|exact Hd2].
    destruct (quarter_line pt); [|exact Hd2].
    apply dict_append_Forall; [exact Hd2|].
    exists bm, (get_or (o_name o) (Some "")), pt, price.
    split; [exact Hbm|]. split; [|reflexivity].
    exists mkt, o. auto. }
  apply for_each_returns; [exact Harbs|].
  intros [line outcomes] arbs1 Hin Harbs1.
  destruct (py_empty _ || py_empty _); [now apply returns_ok|].
  rewrite Forall_forall in Hd. pose proof (Hd _ Hin) as Hout. simpl in Hout.
  apply spread_lines_returns; auto.
Qed.

(** ** The cross-line scanner *)

Lemma get_or_name_present (f : field string) (s : string) :
  get_or f (Some "") = Some s -> s <> "" -> f = Present s.
Proof.
  destruct f; simpl; intros [= <-] Hs; [contradiction|reflexivity].
Qed.

Lemma Qlt_bool_iff (x y : Q) : Qlt_bool x y = true <-> x < y.
Proof.
  unfold Qlt_bool. rewrite negb_true_iff. apply Qle_bool_false.
Qed.

Lemma Qlt_bool_false (x y : Q) : Qlt_bool x y = false <-> y <= x.
Proof.
  unfold Qlt_bool. rewrite negb_false_iff. apply Qle_bool_iff.
Qed.

Lemma cross_line_two_leg (events : list event) (a : arb) :
  cross_line_record cfg events a -> two_leg_record cfg events a.
Proof.
  intros (ev & bm1 & bm2 & m1 & m2 & oc1 & oc2 & l1 & l2 & o1 & o2 & r & p & H).
  exists ev, bm1, bm2, o1, o2, r, p.
  assert (offers bm1 o1) by (exists m1, oc1; tauto).
  assert (offers bm2 o2) by (exists m2, oc2; tauto).
  tauto.
Qed.

Lemma scan_cross_line_opportunities_records (events : list event) (sport_key : string) :
  returns (Forall (cross_line_record cfg events))
    (scan_cross_line_opportunities cfg events sport_key).
Proof.
  unfold scan_cross_line_opportunities. apply for_each_returns; [constructor|].
  intros ev arbs Hev Harbs. cbv zeta.
  set (bookmakers := _filter_bookmakers cfg (ev_bookmakers ev)).
  match goal with
  | |- context [for_each (?d).1 _ arbs] =>
      assert (Hd : Forall (cross_quoted_by bookmakers "Over") d.1
                   /\ Forall (cross_quoted_by bookmakers "Under") d.2);
      [|generalize dependent d; intros all Hd]
  end.
  { apply foreach_inv; [split; constructor|]. intros bm d Hbm Hd.
    apply foreach_inv; [exact Hd|]. intros mkt d1 Hmkt Hd1.
    destruct (_ || _) eqn:Efam; [|exact Hd1].
    assert (Hfam : totals_family mkt).
    { apply orb_true_iff in Efam as [E|E]; apply bool_decide_eq_true in E;
        [left|right]; exact E. }
    apply foreach_inv; [exact Hd1|]. intros o d2 Ho [Hov Hun].
    destruct (o_point o) as [line|] eqn:Epoint; [|now split].
    destruct (o_price o) as [odds|] eqn:Eprice; [|now split].
    cbv zeta.
    destruct (decide (get_or (o_name o) (Some "") = Some "Over")) as [Eo|_].
    { apply get_or_name_present in Eo; [|discriminate]. simpl.
      split; [|exact Hun]. apply Forall_app. split; [exact Hov|].
      constructor; [|constructor].
      exists bm, mkt, o, line, odds. tauto. }
    destruct (decide (get_or (o_name o) (Some "") = Some "Under")) as [Eu|_].
    { apply get_or_name_present in Eu; [|discriminate]. simpl.
      split; [exact Hov|]. apply Forall_app. split; [exact Hun|].
      constructor; [|constructor].
      exists bm, mkt, o, line, odds. tauto. }
    now split. }
  destruct Hd as [Hov Hun]. rewrite Forall_forall in Hov, Hun.
  apply for_each_returns; [exact Harbs|].
  intros [[[[line_over odds_over] bk_over] title_over] lu_over] arbs1 Hq1 Harbs1.
  apply for_each_returns; [exact Harbs1|].
  intros [[[[line_under odds_under] bk_under] title_under] lu_under] arbs2 Hq2 Harbs2.
  destruct (decide (bk_over = bk_under)) as [_|Hne]; [now apply returns_ok|].
  destruct (Qle_bool line_under line_over) eqn:Elines; [now apply returns_ok|].
  apply Qle_bool_false in Elines.
  eapply returns_bind;
    [apply emit2_returns; [exact Harbs2|]
    |intros [arbs3 ?] H3; apply returns_ok; exact H3].
  intros r p Hc Hp Hpos.
  destruct (Hov _ Hq1) as (bm1 & m1 & oc1 & l1 & o1 & Hbm1 & Hm1 & Hf1 & Hoc1 & Hn1 & Hl1 & Ho1 & E1).
  destruct (Hun _ Hq2) as (bm2 & m2 & oc2 & l2 & o2 & Hbm2 & Hm2 & Hf2 & Hoc2 & Hn2 & Hl2 & Ho2 & E2).
  injection E1 as -> -> -> -> ->. injection E2 as -> -> -> -> ->.
  exists ev, bm1, bm2, m1, m2, oc1, oc2, l1, l2, o1, o2, r, p.
  repeat (split; [assumption|]).
  repeat (split; [reflexivity|]).
  destruct (Qlt_bool 1 (l2 - l1)) eqn:Egap.
  - left. split; [|now apply Qlt_bool_iff].
    reflexivity.
  - right. split; [|now apply Qlt_bool_false].
    reflexivity.
Qed.

(** ** Three, four and many outcomes *)

Lemma three_leg_record_profit (events : list event) (a : arb) :
  three_leg_record cfg events a -> profit_positive a.
Proof.
  intros (ev & bm1 & bm2 & bm3 & o1 & o2 & o3 & st & tot & p & H).
  exists p. tauto.
Qed.

Lemma four_leg_record_profit (events : list event) (a : arb) :
  four_leg_record cfg events a -> profit_positive a.
Proof.
  intros (ev & b1 & b2 & b3 & b4 & o1 & o2 & o3 & o4 & res & p & H).
  exists p. tauto.
Qed.

Lemma scan_h2h_3way_records (events : list event) (sport_key market_key : string) :
  returns (Forall (three_leg_record cfg events))
    (scan_h2h_3way cfg events sport_key market_key).
Proof.
  unfold scan_h2h_3way. apply for_each_returns; [constructor|].
  intros ev arbs Hev Harbs. cbv zeta.
  set (bookmakers := _filter_bookmakers cfg (ev_bookmakers ev)).
  match goal with
  | |- context [match ?d with [] => _ | _ => _ end] =>
      assert (Hd : Forall (fun kv => Forall (quoted_by bookmakers) kv.2) d);
      [|generalize dependent d; intros outcomes_data Hd]
  end.
  { apply foreach_inv; [constructor|]. intros bm d Hbm Hd.
    apply foreach_inv; [exact Hd|]. intros mkt d1 Hmkt Hd1.
    destruct (decide _); [|exact Hd1].
    destruct (negb (length _ =? 3)%nat); [exact Hd1|].
    destruct (negb (existsb _ _)); [exact Hd1|].
    apply foreach_inv; [exact Hd1|]. intros o d2 Ho Hd2.
    destruct (o_price o) as [price|] eqn:Eprice; [|exact Hd2].
    destruct (String.eqb _ ""); [exact Hd2|].
    apply dict_append_Forall; [exact Hd2|].
    exists bm, price. split; [exact Hbm|]. split; [|reflexivity].
    exists mkt, o. auto. }
  destruct outcomes_data as [|[name1 l1] [|[name2 l2] [|[name3 l3] [|? ?]]]];
    try now apply returns_ok.
  inversion Hd as [|? ? H1 Hd1]; subst. inversion Hd1 as [|? ? H2 Hd2]; subst.
  inversion Hd2 as [|? ? H3 _]; subst. simpl in H1, H2, H3.
  rewrite Forall_forall in H1, H2, H3.
  apply for_each_returns; [exact Harbs|].
  intros [[[bk1 b1] o1] lu1] arbs1 Hq1 Harbs1.
  apply for_each_returns; [exact Harbs1|].
  intros [[[bk2 b2] o2] lu2] arbs2 Hq2 Harbs2.
  apply for_each_returns; [exact Harbs2|].
  intros [[[bk3 b3] o3] lu3] arbs3 Hq3 Harbs3.
  destruct (_ || _) eqn:Esame; [now apply returns_ok|].
  apply orb_false_iff in Esame as [Esame E23].
  apply orb_false_iff in Esame as [E12 E13].
  apply bool_decide_eq_false in E12, E13, E23.
  destruct (calc_nway_arb_returns [o1; o2; o3] (Some [bk1; bk2; bk3]))
    as (res & Ec & Hres).
  rewrite Ec. simpl. destruct res as [[stakes total]|]; [|now apply returns_ok].
  destruct (Hres stakes total eq_refl) as (Hlen & p & Ep & Hp).
  destruct stakes as [|s1 [|s2 [|s3 [|? ?]]]]; try discriminate Hlen.
  rewrite Ep. simpl. apply returns_ok.
  apply Forall_app. split; [exact Harbs3|]. constructor; [|constructor].
  destruct (H1 _ Hq1) as (bm1 & p1 & Hbm1 & Hoff1 & [= -> -> -> ->]).
  destruct (H2 _ Hq2) as (bm2 & p2 & Hbm2 & Hoff2 & [= -> -> -> ->]).
  destruct (H3 _ Hq3) as (bm3 & p3 & Hbm3 & Hoff3 & [= -> -> -> ->]).
  exists ev, bm1, bm2, bm3, p1, p2, p3, [s1; s2; s3], total, p.
  repeat (split; [assumption|]).
  repeat split; reflexivity.
Qed.

Lemma length_remove_dups_le {A} `{EqDecision A} (l : list A) :
  (length (remove_dups l) <= length l)%nat.
Proof.
  induction l as [|x l IH]; simpl; [lia|].
  destruct (decide_rel _ _ _); simpl; lia.
Qed.

Lemma remove_dups_full_NoDup {A} `{EqDecision A} (l : list A) :
  (length l <= length (remove_dups l))%nat -> NoDup l.
Proof.
  induction l as [|x l IH]; simpl; [constructor|].
  pose proof (length_remove_dups_le l).
  destruct (decide_rel _ _ _) as [Hin|Hnin]; simpl; intros Hlen; [lia|].
  constructor; [exact Hnin|]. apply IH. lia.
Qed.

Lemma scan_4way_combined_markets_records (events : list event) (sport_key : string) :
  returns (Forall (four_leg_record cfg events))
    (scan_4way_combined_markets cfg events sport_key).
Proof.
  unfold scan_4way_combined_markets. apply for_each_returns; [constructor|].
  intros ev arbs Hev Harbs. cbv zeta.
  set (bookmakers := _filter_bookmakers cfg (ev_bookmakers ev)).
  match goal with
  | |- context [match (?d).1 with [] => _ | _ => _ end] =>
      assert (Hd : Forall (fun kv => Forall (quoted4_by bookmakers) kv.2) d.1
                   /\ Forall (fun kv => Forall (quoted4_by bookmakers) kv.2) d.2);
      [|generalize dependent d; intros [h2h_odds totals_odds] [Hh Ht]; simpl in Hh, Ht]
  end.
  { apply foreach_inv; [split; constructor|]. intros bm d Hbm Hd.
    apply foreach_inv; [exact Hd|]. intros mkt d1 Hmkt Hd1.
    assert (Hq : forall o price, o ∈ m_outcomes mkt -> o_price o = Some price ->
                   quoted4_by bookmakers (quote4_of bm price)).
    { intros o price Ho Eprice. exists bm, price. split; [exact Hbm|].
      split; [|reflexivity]. exists mkt, o. auto. }
    destruct (decide _).
    - destruct (_ && _); [|exact Hd1].
      apply foreach_inv; [exact Hd1|]. intros o d2 Ho [H1 H2].
      destruct (get_or (o_name o) (Some "")) as [name|]; [|now split].
      destruct (o_price o) as [price|] eqn:Eprice; [|now split].
      destruct (_ || _); [now split|]. simpl. split; [|exact H2].
      apply dict_append_Forall; [exact H1|]. now apply (Hq o).
    - destruct (_ || _); [|exact Hd1].
      apply foreach_inv; [exact Hd1|]. intros o d2 Ho [H1 H2].
      destruct (get_or (o_name o) (Some "")) as [name|]; [|now split].
      destruct (o_point o) as [point|]; [|now split].
      destruct (o_price o) as [price|] eqn:Eprice; [|now split].
      destruct (_ || _); [|now split]. simpl. split; [exact H1|].
      apply dict_append_Forall; [exact H2|]. now apply (Hq o). }
  cbn [fst snd].
  destruct h2h_odds as [|[team1 quotes1] [|[team2 quotes2] [|? ?]]];
    try now apply returns_ok.
  inversion Hh as [|? ? H1 Hh1]; subst. inversion Hh1 as [|? ? H2 _]; subst.
  simpl in H1, H2. rewrite Forall_forall in H1, H2.
  eapply returns_bind with (P := fun st => Forall (four_leg_record cfg events) st.2).
  2:{ intros [seen arbs'] Hst. apply returns_ok. exact Hst. }
  apply for_each_returns; [exact Harbs|].
  intros [[line side] qs] [lines_seen arbs1] _ Harbs1. simpl in Harbs1.
  destruct (existsb _ lines_seen); [now apply returns_ok|].
  destruct (dict_get totals_key_eqb (line, "Over") totals_odds) as [overs|] eqn:Eo;
    [|now apply returns_ok].
  destruct (dict_get totals_key_eqb (line, "Under") totals_odds) as [unders|] eqn:Eu;
    [|now apply returns_ok].
  apply dict_get_elem in Eo as (ko & Hio & _), Eu as (ku & Hiu & _).
  rewrite Forall_forall in Ht.
  pose proof (Ht _ Hio) as Hov. pose proof (Ht _ Hiu) as Hun. simpl in Hov, Hun.
  rewrite Forall_forall in Hov, Hun.
  eapply returns_bind with (P := Forall (four_leg_record cfg events)).
  2:{ intros arbs' Hst. apply returns_ok. exact Hst. }
  apply for_each_returns; [exact Harbs1|].
  intros [[[bk_t1 bt1] ot1] lut1] arbs2 Hq1 Harbs2.
  apply for_each_returns; [exact Harbs2|].
  intros [[[bk_t2 bt2] ot2] lut2] arbs3 Hq2 Harbs3.
  apply for_each_returns; [exact Harbs3|].
  intros [[[bk_o bo] oo] luo] arbs4 Hq3 Harbs4.
  apply for_each_returns; [exact Harbs4|].
  intros [[[bk_u bu] ou] luu] arbs5 Hq4 Harbs5.
  cbv beta iota zeta.
  match goal with
  | |- context [(length (remove_dups ?l) <? 4)%nat] =>
      destruct (length (remove_dups l) <? 4)%nat eqn:Edup; [now apply returns_ok|]
  end.
  apply Nat.ltb_ge in Edup.
  apply (remove_dups_full_NoDup [bk_t1; bk_t2; bk_o; bk_u]) in Edup.
  cbv zeta.
  match goal with
  | |- context [calc_nway_arb ?odds ?keys] =>
      destruct (calc_nway_arb_returns odds keys) as (res & Ec & Hres); rewrite Ec
  end.
  simpl. destruct res as [[stakes total]|]; [|now apply returns_ok].
  destruct (Hres stakes total eq_refl) as (Hlen & p & Ep & Hp).
  destruct stakes as [|s1 [|s2 [|s3 [|s4 [|? ?]]]]]; try discriminate Hlen.
  rewrite Ep. simpl. apply returns_ok.
  apply Forall_app. split; [exact Harbs5|]. constructor; [|constructor].
  destruct (H1 _ Hq1) as (bm1 & p1 & Hbm1 & Hoff1 & [= -> -> -> ->]).
  destruct (H2 _ Hq2) as (bm2 & p2 & Hbm2 & Hoff2 & [= -> -> -> ->]).
  destruct (Hov _ Hq3) as (bm3 & p3 & Hbm3 & Hoff3 & [= -> -> -> ->]).
  destruct (Hun _ Hq4) as (bm4 & p4 & Hbm4 & Hoff4 & [= -> -> -> ->]).
  exists ev, bm1, bm2, bm3, bm4, p1, p2, p3, p4, ([s1; s2; s3; s4], total), p.
  repeat (split; [assumption|]).
  split; [split; assumption|].
  repeat (split; [assumption|]).
  repeat split; reflexivity.
Qed.


Lemma calc_arb_equal_payout_some (o1 o2 : Q) (bk1 bk2 : pystr) (r : Q * Q * Q) :
  calc_arb_equal_payout o1 o2 bk1 bk2 = Ok (Some r) ->
  1 < o1 /\ 1 < o2
  /\ 1 / adjust_odds_for_commission o1 bk1 + 1 / adjust_odds_for_commission o2 bk2 < 1.
Proof.
  intros Hc.
  destruct (Qlt_le_dec 1 o1) as [H1|H1].
  2:{ rewrite calc_arb_equal_payout_guard in Hc by now left. discriminate. }
  destruct (Qlt_le_dec 1 o2) as [H2|H2].
  2:{ rewrite calc_arb_equal_payout_guard in Hc by now right. discriminate. }
  destruct (calc_arb_equal_payout_eval o1 o2 bk1 bk2 H1 H2) as [_ E].
  rewrite E in Hc. destruct (Qle_bool 1 _) eqn:Es; [discriminate|].
  apply Qle_bool_false in Es. auto.
Qed.

Lemma calc_nway_arb_some (odds : list Q) (keys : option (list pystr))
    (res : list Q * Q) :
  calc_nway_arb odds keys = Ok (Some res) ->
  odds <> [] /\ Forall (fun o => 1 < o) odds
  /\ py_sum (map (Qdiv 1) (effective_odds_of odds keys)) < 1.
Proof.
  intros Hc.
  destruct odds as [|o0 l0] eqn:El; [discriminate|]. rewrite <- El in *.
  assert (Hne : odds <> []) by (rewrite El; discriminate).
  destruct (existsb (fun o => Qle_bool o 1) odds) eqn:Ex.
  { rewrite calc_nway_arb_guard in Hc by (right; now apply existsb_le_1_true).
    discriminate. }
  apply existsb_le_1_false in Ex.
  destruct (calc_nway_arb_eval odds keys Hne Ex) as [_ E].
  rewrite E in Hc. destruct (Qle_bool 1 _) eqn:Es; [discriminate|].
  apply Qle_bool_false in Es. auto.
Qed.













(** ** All scanners together *)

Lemma returns_Forall_impl (P Q : arb -> Prop) (m : res (list arb)) :
  returns (Forall P) m -> (forall a, P a -> Q a) -> returns (Forall Q) m.
Proof.
  intros Hm HPQ. apply (returns_impl (Forall P)); [exact Hm|].
  intros l Hl. eapply Forall_impl; [exact Hl|exact HPQ].
Qed.

Lemma extend_returns (P : arb -> Prop) (all_arbs : list arb) (scan : res (list arb)) :
  Forall P all_arbs -> returns (Forall P) scan ->
  returns (Forall P) (extend all_arbs scan).
Proof.
  intros Hall (arbs & -> & Harbs). apply returns_ok.
  apply Forall_app. now split.
Qed.



(** C9.  The cross-line scanner returns, and every record it emits pairs
    an Over outcome at line L1 with an Under outcome at line L2 > L1, both
    from totals or alternate_totals markets of two bookmaker blocks with
    different keys, for which the pairwise calculator returned stakes;
    its type is "middle" when L2 - L1 exceeds 1 and "scalp" otherwise. *)
Theorem cross_line_middles_spec (events : list event) (sport_key : string) :
  returns (Forall (cross_line_record cfg events))
    (scan_cross_line_opportunities cfg events sport_key).
Proof. apply scan_cross_line_opportunities_records. Qed.

(** Outside the dynamic scanner, the legs of every record come from
    bookmaker blocks with pairwise different keys. *)
Corollary distinct_bookmakers_outside_dynamic (events : list event)
    (sport_key market_key : string) (market_keys : gset string) :
  returns (Forall (two_leg_record cfg events))
    (scan_h2h cfg events sport_key market_keys)
  /\ returns (Forall (three_leg_record cfg events))
       (scan_h2h_3way cfg events sport_key market_key)
  /\ returns (Forall (two_leg_record cfg events))
       (scan_totals cfg events sport_key market_key)
  /\ returns (Forall (two_leg_record cfg events))
       (scan_alternate_totals_enhanced cfg events sport_key)
  /\ returns (Forall (two_leg_record cfg events))
       (scan_team_totals cfg events sport_key market_key)
  /\ returns (Forall (cross_line_record cfg events))
       (scan_cross_line_opportunities cfg events sport_key)
  /\ returns (Forall (two_leg_record cfg events))
       (scan_spreads cfg events sport_key market_keys)
  /\ returns (Forall (two_leg_record cfg events))
       (scan_alternate_spreads_enhanced cfg events sport_key)
  /\ returns (Forall (two_leg_record cfg events))
       (scan_asian_handicap cfg events sport_key)
  /\ returns (Forall (two_leg_record cfg events))
       (scan_double_chance cfg events sport_key)
  /\ returns (Forall (two_leg_record cfg events)) (scan_btts cfg events sport_key)
  /\ returns (Forall (two_leg_record cfg events))
       (scan_draw_no_bet cfg events sport_key)
  /\ returns (Forall (four_leg_record cfg events))
       (scan_4way_combined_markets cfg events sport_key).
Proof.
  repeat split.
  - apply scan_h2h_records.
  - apply scan_h2h_3way_records.
  - apply scan_totals_records.
  - apply scan_alternate_totals_enhanced_records.
  - apply scan_team_totals_records.
  - apply scan_cross_line_opportunities_records.
  - apply scan_spreads_records.
  - apply scan_alternate_spreads_enhanced_records.
  - apply scan_asian_handicap_records.
  - apply scan_double_chance_records.
  - apply scan_btts_records.
  - apply scan_draw_no_bet_records.
  - apply scan_4way_combined_markets_records.
Qed.

(** * The aggregator *)

(** ** Keys *)

Lemma val_eqb_refl (v : val) : val_eqb v v = true.
Proof.
  destruct v; simpl; [reflexivity|apply String.eqb_refl|].
  apply Qeq_bool_iff. reflexivity.
Qed.

Lemma val_eqb_sym (v w : val) : val_eqb v w = val_eqb w v.
Proof.
  destruct v, w; simpl; try reflexivity; [apply String.eqb_sym|].
  destruct (Qeq_bool q q0) eqn:E1, (Qeq_bool q0 q) eqn:E2; try reflexivity.
  - apply Qeq_bool_iff in E1. symmetry in E1. apply Qeq_bool_iff in E1. congruence.
  - apply Qeq_bool_iff in E2. symmetry in E2. apply Qeq_bool_iff in E2. congruence.
Qed.

Lemma val_eqb_trans (u v w : val) :
  val_eqb u v = true -> val_eqb v w = true -> val_eqb u w = true.
Proof.
  destruct u, v, w; simpl; try discriminate; try reflexivity.
  - intros E1 E2. apply String.eqb_eq in E1, E2. subst. apply String.eqb_refl.
  - intros E1 E2. apply Qeq_bool_iff in E1, E2. apply Qeq_bool_iff.
    now rewrite E1.
Qed.

Lemma key_eqb_refl (k : arb_key) : key_eqb k k = true.
Proof. unfold key_eqb. now rewrite !val_eqb_refl. Qed.

Lemma key_eqb_sym (k1 k2 : arb_key) : key_eqb k1 k2 = key_eqb k2 k1.
Proof.
  unfold key_eqb.
  now rewrite (val_eqb_sym k1.1.1.1), (val_eqb_sym k1.1.1.2),
    (val_eqb_sym k1.1.2), (val_eqb_sym k1.2).
Qed.

Lemma key_eqb_trans (k1 k2 k3 : arb_key) :
  key_eqb k1 k2 = true -> key_eqb k2 k3 = true -> key_eqb k1 k3 = true.
Proof.
  unfold key_eqb. rewrite !andb_true_iff.
  intros [[[A1 A2] A3] A4] [[[B1 B2] B3] B4].
  repeat split; eapply val_eqb_trans; eassumption.
Qed.

Lemma key_of_Ok (a : arb) (k : arb_key) : key_of a = Ok k -> k = key_val a.
Proof.
  unfold key_of, key_val, py_item, py_get.
  destruct (a !! "event_id") as [e|]; [|discriminate].
  destruct (a !! "market") as [m|]; [|discriminate].
  simpl. now intros [= <-].
Qed.

Lemma profit_item_Ok (a : arb) (p : Q) : profit_item a = Ok p -> profit_of a = p.
Proof.
  unfold profit_item, profit_of, py_item, py_get.
  destruct (a !! "profit_pct") as [[| |q]|]; simpl; try discriminate.
  now intros [= <-].
Qed.

(** ** Dictionaries by position *)

Lemma dict_get_None {K V} (eqb : K -> K -> bool) (k : K) (dflt : V) (f : V -> V)
    (d : list (K * V)) :
  dict_get eqb k d = None ->
  Forall (fun kv => eqb kv.1 k = false) d
  /\ dict_upd eqb k dflt f d = d ++ [(k, f dflt)].
Proof.
  induction d as [|[k' v] d IH]; simpl; [intros _; split; [constructor|reflexivity]|].
  destruct (eqb k' k) eqn:E; [discriminate|].
  intros Hget. destruct (IH Hget) as [Hall Hupd]. split.
  - constructor; [exact E|exact Hall].
  - now rewrite Hupd.
Qed.

Lemma dict_get_Some {K V} (eqb : K -> K -> bool) (k : K) (dflt : V) (f : V -> V)
    (d : list (K * V)) (v : V) :
  dict_get eqb k d = Some v ->
  exists i k', d !! i = Some (k', v) /\ eqb k' k = true
               /\ dict_upd eqb k dflt f d = <[i := (k', f v)]> d.
Proof.
  induction d as [|[k' v'] d IH]; simpl; [discriminate|].
  destruct (eqb k' k) eqn:E.
  - intros [= ->]. exists 0%nat, k'. auto.
  - intros Hget. destruct (IH Hget) as (i & k'' & Hi & Hk & Hupd).
    exists (S i), k''. simpl. rewrite Hupd. auto.
Qed.

(** ** Deduplication *)

Lemma dedupe_inv_nil : dedupe_inv [] [].
Proof.
  split; [constructor|]. split.
  - intros b Hb. inversion Hb.
  - intros i j kv1 kv2 Hi. rewrite lookup_nil in Hi. discriminate.
Qed.

Lemma dedupe_step_inv (seen : list arb) (by_key by_key' : list (arb_key * arb))
    (a : arb) :
  dedupe_inv seen by_key -> dedupe_step a by_key = Ok by_key' ->
  dedupe_inv (seen ++ [a]) by_key'.
Proof.
  intros (I1 & I2 & I3) Hstep. unfold dedupe_step in Hstep.
  destruct (key_of a) as [key|] eqn:Ek; simpl in Hstep; [|discriminate].
  apply key_of_Ok in Ek. subst key.
  assert (I1' : Forall (fun kv : arb_key * arb =>
                          kv.2 ∈ seen ++ [a] /\ key_eqb kv.1 (key_val kv.2) = true) by_key).
  { eapply Forall_impl; [exact I1|]. intros kv [Hin Hk]. split; [|exact Hk].
    apply elem_of_app. now left. }
  destruct (dict_get key_eqb (key_val a) by_key) as [b|] eqn:Eg.
  - destruct (profit_item a) as [pa|] eqn:Epa; simpl in Hstep; [|discriminate].
    destruct (profit_item b) as [pb|] eqn:Epb; simpl in Hstep; [|discriminate].
    apply profit_item_Ok in Epa, Epb. subst pa pb.
    destruct (dict_get_Some key_eqb (key_val a) a (fun _ => a) by_key b Eg)
      as (i & k' & Hi & Hk & Hupd).
    pose proof (lookup_lt_Some _ _ _ Hi) as Hlt.
    destruct (Qlt_bool (profit_of b) (profit_of a)) eqn:Elt; injection Hstep as <-.
    + apply Qlt_bool_iff in Elt. rewrite Hupd. split; [|split].
      * apply Forall_insert; [exact I1'|]. cbn [fst snd]. split; [|exact Hk].
        apply elem_of_app. right. constructor.
      * assert (Hnew : (k', a) ∈ <[i:=(k', a)]> by_key).
        { apply list_elem_of_lookup. exists i. now apply list_lookup_insert_eq. }
        intros c Hc. apply elem_of_app in Hc as [Hc|Hc].
        -- destruct (I2 c Hc) as (kv & Hkv & Hkey & Hle).
           apply list_elem_of_lookup in Hkv as [j Hj].
           destruct (decide (j = i)) as [->|Hne].
           ++ rewrite Hi in Hj. injection Hj as <-. cbn [fst snd] in Hkey, Hle.
              exists (k', a). split; [exact Hnew|]. cbn [fst snd]. split; [exact Hkey|]. lra.
           ++ exists kv. split; [|auto]. apply list_elem_of_lookup. exists j.
              rewrite list_lookup_insert_ne by auto. exact Hj.
        -- apply list_elem_of_singleton in Hc as ->.
           exists (k', a). split; [exact Hnew|]. cbn [fst snd]. split; [exact Hk|lra].
      * assert (Hkeys : forall j kv, <[i:=(k', a)]> by_key !! j = Some kv ->
                          exists kv', by_key !! j = Some kv' /\ kv'.1 = kv.1).
        { intros j kv Hj. destruct (decide (j = i)) as [->|Hne].
          - rewrite list_lookup_insert_eq in Hj by exact Hlt. injection Hj as <-.
            exists (k', b). auto.
          - rewrite list_lookup_insert_ne in Hj by auto. exists kv. auto. }
        intros j1 j2 kv1 kv2 H1 H2 Heq.
        destruct (Hkeys _ _ H1) as (kv1' & H1' & E1).
        destruct (Hkeys _ _ H2) as (kv2' & H2' & E2).
        apply (I3 j1 j2 kv1' kv2' H1' H2'). now rewrite E1, E2.
    + apply Qlt_bool_false in Elt. split; [exact I1'|]. split; [|exact I3].
      intros c Hc. apply elem_of_app in Hc as [Hc|Hc]; [now apply I2|].
      apply list_elem_of_singleton in Hc as ->.
      exists (k', b). split; [apply list_elem_of_lookup; eauto|].
      cbn [fst snd]. split; [exact Hk|lra].
  - injection Hstep as <-.
    destruct (dict_get_None key_eqb (key_val a) a (fun _ => a) by_key Eg) as [Hall _].
    split; [|split].
    + apply Forall_app. split; [exact I1'|]. constructor; [|constructor]. cbn [fst snd].
      split; [apply elem_of_app; right; constructor|apply key_eqb_refl].
    + intros c Hc. apply elem_of_app in Hc as [Hc|Hc].
      * destruct (I2 c Hc) as (kv & Hkv & H'). exists kv. split; [|exact H'].
        apply elem_of_app. now left.
      * apply list_elem_of_singleton in Hc as ->. exists (key_val a, a).
        split; [apply elem_of_app; right; constructor|]. cbn [fst snd].
        split; [apply key_eqb_refl|lra].
    + rewrite Forall_forall in Hall.
      intros j1 j2 kv1 kv2 H1 H2 Heq.
      apply lookup_app_Some in H1 as [H1|[L1 H1]], H2 as [H2|[L2 H2]].
      * exact (I3 _ _ _ _ H1 H2 Heq).
      * destruct (j2 - length by_key)%nat; [|discriminate].
        injection H2 as <-. cbn [fst snd] in Heq.
        assert (kv1 ∈ by_key) as Hin by (apply list_elem_of_lookup; eauto).
        apply Hall in Hin. congruence.
      * destruct (j1 - length by_key)%nat; [|discriminate].
        injection H1 as <-. cbn [fst snd] in Heq. rewrite key_eqb_sym in Heq.
        assert (kv2 ∈ by_key) as Hin by (apply list_elem_of_lookup; eauto).
        apply Hall in Hin. congruence.
      * destruct (j1 - length by_key)%nat eqn:E1; [|discriminate].
        destruct (j2 - length by_key)%nat eqn:E2; [|discriminate]. lia.
Qed.

Lemma dedupe_loop_inv (l seen : list arb) (by_key by_key' : list (arb_key * arb)) :
  dedupe_inv seen by_key -> for_each l dedupe_step by_key = Ok by_key' ->
  dedupe_inv (seen ++ l) by_key'.
Proof.
  revert seen by_key. induction l as [|a l IH]; intros seen by_key Hinv Hloop; simpl in Hloop.
  - injection Hloop as <-. now rewrite app_nil_r.
  - destruct (dedupe_step a by_key) as [d1|] eqn:Estep; simpl in Hloop; [|discriminate].
    replace (seen ++ a :: l) with ((seen ++ [a]) ++ l)
      by (rewrite <- app_assoc; reflexivity).
    eapply IH; [|exact Hloop]. eapply dedupe_step_inv; eassumption.
Qed.

Lemma dedupe_spec (l out : list arb) :
  dedupe l = Ok out ->
  (forall a, a ∈ out ->
     a ∈ l /\ forall b, b ∈ l -> same_group b a -> profit_of b <= profit_of a)
  /\ (forall b, b ∈ l -> exists a, a ∈ out /\ same_group a b)
  /\ (forall i j a b, out !! i = Some a -> out !! j = Some b -> same_group a b -> i = j).
Proof.
  unfold dedupe. destruct (for_each l dedupe_step []) as [by_key|] eqn:E; [|discriminate].
  simpl. intros [= <-].
  destruct (dedupe_loop_inv l [] [] by_key dedupe_inv_nil E) as (I1 & I2 & I3).
  cbn [app] in I1, I2. rewrite Forall_forall in I1.
  split; [|split].
  - intros a Ha. apply list_elem_of_fmap in Ha as ([k a'] & -> & Hin). cbn [fst snd].
    destruct (I1 _ Hin) as [Hl Hk]. cbn [fst snd] in Hl, Hk. split; [exact Hl|].
    intros b Hb Hsame. destruct (I2 b Hb) as ([k2 x] & Hin2 & Hk2 & Hle).
    cbn [fst snd] in Hk2, Hle.
    apply list_elem_of_lookup in Hin as [i Hi], Hin2 as [j Hj].
    assert (i = j) as <-.
    { apply (I3 i j _ _ Hi Hj). cbn [fst snd]. unfold same_group in Hsame.
      eapply key_eqb_trans; [exact Hk|]. rewrite key_eqb_sym.
      eapply key_eqb_trans; [exact Hk2|exact Hsame]. }
    rewrite Hi in Hj. injection Hj as _ <-. exact Hle.
  - intros b Hb. destruct (I2 b Hb) as ([k x] & Hin & Hk & _). cbn [fst snd] in Hk.
    exists x. split; [apply list_elem_of_fmap; exists (k, x); auto|].
    destruct (I1 _ Hin) as [_ Hkx]. cbn [fst snd] in Hkx. unfold same_group.
    rewrite key_eqb_sym in Hkx. eapply key_eqb_trans; eassumption.
  - intros i j a b Hi Hj Hsame.
    rewrite list_lookup_fmap in Hi, Hj.
    destruct (by_key !! i) as [[k1 a1]|] eqn:E1; [|discriminate].
    destruct (by_key !! j) as [[k2 a2]|] eqn:E2; [|discriminate].
    simpl in Hi, Hj. injection Hi as ->. injection Hj as ->.
    apply (I3 i j _ _ E1 E2). cbn [fst snd].
    assert ((k1, a) ∈ by_key) as H1 by (apply list_elem_of_lookup; eauto).
    assert ((k2, b) ∈ by_key) as H2 by (apply list_elem_of_lookup; eauto).
    destruct (I1 _ H1) as [_ K1], (I1 _ H2) as [_ K2]. cbn [fst snd] in K1, K2.
    eapply key_eqb_trans; [exact K1|]. eapply key_eqb_trans; [exact Hsame|].
    now rewrite key_eqb_sym.
Qed.

(** ** Band filter, scaling, sorting *)

Lemma in_band_Ok (min_profit max_profit : Q) (a : arb) (b : bool) :
  in_band min_profit max_profit a = Ok b ->
  (b = true <-> within_band min_profit max_profit a).
Proof.
  unfold in_band, within_band, profit_of.
  destruct (py_get a "profit_pct" (VNum 0)) as [| |p]; simpl; try discriminate.
  intros [= <-]. rewrite andb_true_iff, !Qle_bool_iff. reflexivity.
Qed.

Lemma filter_res_spec (min_profit max_profit : Q) (l l' : list arb) :
  filter_res (in_band min_profit max_profit) l = Ok l' ->
  forall a, a ∈ l' <-> a ∈ l /\ within_band min_profit max_profit a.
Proof.
  revert l'. induction l as [|x l IH]; intros l' Hf; simpl in Hf.
  - injection Hf as <-. intros a. split; [intros Ha; inversion Ha|intros [Ha _]; inversion Ha].
  - destruct (in_band min_profit max_profit x) as [b|] eqn:Eb; simpl in Hf; [|discriminate].
    destruct (filter_res _ l) as [l2|] eqn:El; simpl in Hf; [|discriminate].
    injection Hf as <-. specialize (IH l2 eq_refl).
    apply in_band_Ok in Eb. intros a. destruct b.
    + rewrite !elem_of_cons, IH. split.
      * intros [->|[? ?]]; [split; [now left|now apply Eb]|split; [now right|assumption]].
      * intros [[->|?] ?]; [now left|right; now split].
    + rewrite elem_of_cons, IH. split.
      * intros [? ?]. split; [now right|assumption].
      * intros [[->|?] Hw]; [|now split].
        apply Eb in Hw. discriminate.
Qed.

Lemma traverse_Forall2 {A B} (f : A -> res B) (R : A -> B -> Prop) (l : list A)
    (l' : list B) :
  (forall x y, f x = Ok y -> R x y) -> traverse f l = Ok l' -> Forall2 R l l'.
Proof.
  intros Hf. revert l'. induction l as [|x l IH]; intros l' Ht; simpl in Ht.
  - injection Ht as <-. constructor.
  - destruct (f x) as [y|] eqn:Ey; simpl in Ht; [|discriminate].
    destruct (traverse f l) as [ys|] eqn:Eys; simpl in Ht; [|discriminate].
    injection Ht as <-. constructor; [now apply Hf|now apply IH].
Qed.

(** Scaling writes only ["stake_<i>"] and ["total_stake"]. *)
Lemma scale_arb_other (scale : Q) (a a' : arb) (k : string) :
  (forall s, k <> "stake_" +:+ s) -> k <> "total_stake" ->
  scale_arb scale a = Ok a' -> a' !! k = a !! k.
Proof.
  intros Hstake Htotal. unfold scale_arb.
  destruct (py_get a "arb_type" (VStr "2-way")) as [|arb_type|]; try discriminate.
  destruct (str_endswith "-way" arb_type); [|now intros [= <-]].
  destruct (py_int (before_dash arb_type)) as [n|]; simpl; [|discriminate].
  generalize (seq 1 (Z.to_nat n)). intros l.
  assert (Hloop : forall a0 a1,
            for_each l (fun i a =>
              v ← py_mul (py_get a ("stake_" +:+ pretty i) (VNum 0)) scale;
              Ok (<["stake_" +:+ pretty i := v]> a)) a0 = Ok a1 ->
            a1 !! k = a0 !! k).
  { induction l as [|i l IH]; intros a0 a1 Hl; simpl in Hl.
    - now injection Hl as <-.
    - destruct (py_mul _ scale) as [v|]; simpl in Hl; [|discriminate].
      rewrite (IH _ _ Hl). apply lookup_insert_ne. intros E. symmetry in E.
      exact (Hstake _ E). }
  destruct (for_each l _ a) as [a1|] eqn:E1; simpl; [|discriminate].
  destruct (py_mul _ scale) as [v|]; simpl; [|discriminate].
  intros [= <-]. rewrite lookup_insert_ne by congruence. now apply Hloop.
Qed.

Lemma scale_arb_keeps (scale : Q) (a a' : arb) :
  scale_arb scale a = Ok a' -> key_val a' = key_val a /\ profit_of a' = profit_of a.
Proof.
  intros Hs.
  assert (H : forall k, k ∈ ["event_id"; "market"; "line"; "arb_type"; "profit_pct"] ->
                a' !! k = a !! k).
  { intros k Hk. apply (scale_arb_other scale a a' k); [| |exact Hs];
      repeat (apply elem_of_cons in Hk as [->|Hk]; [try discriminate; intros s E; discriminate E|]);
      inversion Hk. }
  unfold key_val, profit_of, py_get.
  rewrite !H by (repeat constructor). auto.
Qed.

Lemma insert_desc_perm (x : Q * arb) (l : list (Q * arb)) :
  insert_desc x l ≡ₚ x :: l.
Proof.
  induction l as [|y l IH]; simpl; [reflexivity|].
  destruct (Qlt_bool x.1 y.1); [|reflexivity].
  rewrite IH. apply Permutation_swap.
Qed.

Lemma sort_desc_perm (l : list (Q * arb)) : foldr insert_desc [] l ≡ₚ l.
Proof.
  induction l as [|x l IH]; simpl; [reflexivity|].
  rewrite insert_desc_perm. now rewrite IH.
Qed.

Lemma insert_desc_sorted (x : Q * arb) (l : list (Q * arb)) :
  StronglySorted (fun y z : Q * arb => z.1 <= y.1) l ->
  StronglySorted (fun y z : Q * arb => z.1 <= y.1) (insert_desc x l).
Proof.
  induction 1 as [|y l Hl IH Hy]; simpl.
  - repeat constructor.
  - destruct (Qlt_bool x.1 y.1) eqn:E.
    + apply Qlt_bool_iff in E. constructor; [exact IH|].
      rewrite insert_desc_perm. constructor; [lra|exact Hy].
    + apply Qlt_bool_false in E. constructor; [now constructor|].
      constructor; [exact E|]. eapply Forall_impl; [exact Hy|].
      intros z Hz. simpl in Hz. lra.
Qed.

Lemma sort_desc_sorted (l : list (Q * arb)) :
  StronglySorted (fun y z : Q * arb => z.1 <= y.1) (foldr insert_desc [] l).
Proof.
  induction l as [|x l IH]; simpl; [constructor|]. now apply insert_desc_sorted.
Qed.

Lemma sorted_by_profit_spec (l out : list arb) :
  sorted_by_profit l = Ok out ->
  out ≡ₚ l /\ StronglySorted (fun a b => profit_of b <= profit_of a) out.
Proof.
  unfold sorted_by_profit.
  destruct (traverse _ l) as [keyed|] eqn:Et; simpl; [|discriminate].
  intros [= <-].
  assert (Hk : keyed = map (fun a => (profit_of a, a)) l).
  { clear - Et. revert keyed Et. induction l as [|a l IH]; intros keyed Et; simpl in Et.
    - now injection Et as <-.
    - unfold profit_of at 1. simpl.
      destruct (py_get a "profit_pct" (VNum 0)) as [| |p]; simpl in Et; try discriminate.
      destruct (traverse _ l) as [ks|] eqn:Eks; simpl in Et; [|discriminate].
      injection Et as <-. now rewrite (IH ks eq_refl). }
  split.
  - rewrite sort_desc_perm, Hk, map_map. simpl. now rewrite map_id.
  - assert (Hall : Forall (fun p : Q * arb => p.1 = profit_of p.2)
                     (foldr insert_desc [] keyed)).
    { rewrite sort_desc_perm, Hk. apply Forall_forall. intros p Hp.
      apply list_elem_of_fmap in Hp as (a & -> & _). reflexivity. }
    pose proof (sort_desc_sorted keyed) as Hs.
    induction Hs as [|y s Hs IH Hy]; simpl; [constructor|].
    inversion Hall as [|? ? Ey Hall']; subst.
    constructor; [now apply IH|].
    rewrite Forall_forall in Hy, Hall'. apply Forall_forall. intros b Hb.
    apply list_elem_of_fmap in Hb as (z & -> & Hz).
    specialize (Hy z Hz). specialize (Hall' z Hz). simpl in Hy.
    rewrite <- Ey, <- Hall'. exact Hy.
Qed.

(** C6, as the code has it.  With deduplication enabled the aggregator
    first drops the records outside the inclusive band (and those the
    start-time filter rejects), then keeps in each group of equal
    (event_id, market, line, arb_type) the record with the highest profit
    among those that remain, and orders the result by profit, highest
    first: the result is sorted; each of its records is a kept record (up
    to the scaled stakes) whose profit is the highest of its group among
    the kept ones; every kept record has its group in the result; and no
    two different records of the result share a group. *)
Theorem main_post_band_then_dedupe (commence_ok : arb -> bool)
    (min_profit max_profit max_stake : Q) (all_arbs out : list arb) :
  main_post commence_ok min_profit max_profit false max_stake all_arbs = Ok out ->
  let kept a :=
    a ∈ all_arbs /\ commence_ok a = true /\ within_band min_profit max_profit a in
  StronglySorted (fun a b => profit_of b <= profit_of a) out
  /\ (forall a, a ∈ out ->
        exists a0, kept a0 /\ key_val a = key_val a0 /\ profit_of a = profit_of a0
          /\ forall b, kept b -> same_group b a0 -> profit_of b <= profit_of a0)
  /\ (forall b, kept b -> exists a, a ∈ out /\ same_group a b)
  /\ (forall a b, a ∈ out -> b ∈ out -> same_group a b -> a = b).
Proof.
  unfold main_post. cbv zeta.
  destruct (filter_res _ _) as [l2|] eqn:E2; simpl; [|discriminate].
  destruct (dedupe l2) as [l3|] eqn:E3; simpl; [|discriminate].
  destruct (traverse _ l3) as [l4|] eqn:E4; simpl; [|discriminate].
  intros E5.
  pose proof (filter_res_spec _ _ _ _ E2) as H2.
  assert (Hkept : forall a, a ∈ l2 <->
            a ∈ all_arbs /\ commence_ok a = true /\ within_band min_profit max_profit a).
  { intros a. rewrite H2, list_elem_of_In, filter_In, <- list_elem_of_In. tauto. }
  destruct (dedupe_spec _ _ E3) as (D1 & D2 & D3).
  pose proof (traverse_Forall2 _ (fun a a' => key_val a' = key_val a
                                              /\ profit_of a' = profit_of a)
                _ _ (scale_arb_keeps (scale_of max_stake)) E4) as H4.
  destruct (sorted_by_profit_spec _ _ E5) as [Hperm Hsorted].
  assert (Hback : forall a, a ∈ out ->
            exists i a3, l4 !! i = Some a /\ l3 !! i = Some a3
                         /\ key_val a = key_val a3 /\ profit_of a = profit_of a3).
  { intros a Ha. rewrite Hperm in Ha. apply list_elem_of_lookup in Ha as [i Hi].
    destruct (Forall2_lookup_r _ _ _ _ _ H4 Hi) as (a3 & Hi3 & Hk & Hp).
    exists i, a3. auto. }
  split; [exact Hsorted|]. split; [|split].
  - intros a Ha. destruct (Hback a Ha) as (i & a3 & _ & Hi3 & Hk & Hp).
    assert (Hin3 : a3 ∈ l3) by (apply list_elem_of_lookup; eauto).
    destruct (D1 a3 Hin3) as [Hin2 Hmax]. exists a3.
    split; [now apply Hkept|]. split; [exact Hk|]. split; [exact Hp|].
    intros b Hb Hsame. apply Hmax; [now apply Hkept|exact Hsame].
  - intros b Hb. apply Hkept in Hb. destruct (D2 b Hb) as (a3 & Hin3 & Hsame).
    apply list_elem_of_lookup in Hin3 as [i Hi3].
    destruct (Forall2_lookup_l _ _ _ _ _ H4 Hi3) as (a & Hi4 & Hk & Hp).
    exists a. split.
    + rewrite Hperm. apply list_elem_of_lookup. eauto.
    + unfold same_group in *. now rewrite Hk.
  - intros a b Ha Hb Hsame.
    destruct (Hback a Ha) as (i & a3 & Hi4 & Hi3 & Hk & _).
    destruct (Hback b Hb) as (j & b3 & Hj4 & Hj3 & Hk' & _).
    assert (i = j) as ->.
    { apply (D3 i j a3 b3 Hi3 Hj3). unfold same_group in *. now rewrite <- Hk, <- Hk'. }
    congruence.
Qed.

End scanner_properties.

(** * The dynamic scanner and bookmaker keys *)

(** C3, at an input where it fails.  On [outright_event] the dynamic
    scanner, called as [run_scanners] calls it, emits one 5-way record
    whose first two legs (and the third) carry the same bookmaker key. *)
Theorem scan_nway_dynamic_repeats_bookmaker :
  let same_bookmaker_twice (r : res (list arb)) :=
    match r with
    | Ok [a] =>
        a !! "arb_type" = Some (VStr "5-way")
        /\ a !! "book_1_key" = Some (VStr "bet365")
        /\ a !! "book_2_key" = Some (VStr "bet365")
        /\ a !! "book_3_key" = Some (VStr "bet365")
        /\ a !! "book_4_key" = Some (VStr "pinnacle")
        /\ a !! "book_5_key" = Some (VStr "pinnacle")
        /\ exists p, a !! "profit_pct" = Some (VNum p) /\ p == 20
    | _ => False
    end in
  same_bookmaker_twice
    (scan_nway_dynamic (builtins := ascii_builtins) nway_settings [outright_event]
       "horse_racing" "outrights" 5 20)
  /\ same_bookmaker_twice
       (run_scanners (builtins := ascii_builtins) nway_settings [outright_event]
          {[ "outrights" ]} "horse_racing" false).
Proof.
  split; vm_compute; (repeat (split; [reflexivity|])); eexists; split; reflexivity.
Qed.

(** * The aggregator on closed inputs *)

(** On [band_event] the totals scanner discovers four records of one
    group, the first with a profit of 150; with the default band [0, 100]
    the aggregator returns one record of that group, with a lower profit. *)
Lemma band_event_result :
  match run_scanners (builtins := ascii_builtins) default_settings [band_event]
          {[ "totals" ]} "soccer_epl" false with
  | Ok (b :: rest) =>
      match main_post (builtins := ascii_builtins) (fun _ => true) 0 100 false 100
              (b :: rest) with
      | Ok [a] => same_group b a /\ profit_of a < profit_of b /\ profit_of b == 150
      | _ => False
      end
  | _ => False
  end.
Proof. vm_compute. repeat split; reflexivity. Qed.

(** C6 as stated fails: were the band applied after the deduplication,
    the record kept for a group would be the one with the highest profit
    among all discovered records of the group.  On [band_event] it is not. *)
Lemma main_post_drops_group_maximum :
  ~ (forall all_arbs out,
       run_scanners (builtins := ascii_builtins) default_settings [band_event]
         {[ "totals" ]} "soccer_epl" false = Ok all_arbs ->
       main_post (builtins := ascii_builtins) (fun _ => true) 0 100 false 100 all_arbs
         = Ok out ->
       keeps_group_maximum all_arbs out).
Proof.
  intros H. pose proof band_event_result as M.
  destruct (run_scanners _ _ _ _ _) as [[|b rest]|]; try contradiction.
  destruct (main_post _ _ _ _ _ _) as [[|a [|? ?]]|] eqn:E; try contradiction.
  destruct M as (Hsame & Hlt & _).
  specialize (H _ _ eq_refl E a).
  assert (Hle : profit_of b <= profit_of a).
  { apply H; [left|left|exact Hsame]. }
  lra.
Qed.

Lemma main_post_band_then_dedupe_witness :
  StronglySorted (fun a b => profit_of b <= profit_of a)
    [ example_arb "evt-1" "totals" (VNum 2.5) 7;
      example_arb "evt-2" "h2h" VNone 4 ].
Proof.
  refine (proj1 (main_post_band_then_dedupe (builtins := ascii_builtins)
                   (fun _ => true) 0 100 100
                   [ example_arb "evt-1" "totals" (VNum 2.5) 150;
                     example_arb "evt-2" "h2h" VNone 4;
                     example_arb "evt-1" "totals" (VNum 2.5) 3;
                     example_arb "evt-1" "totals" (VNum 2.5) 7 ]
                   _ _)).
  vm_compute. reflexivity.
Defined.

(** * The scanners on closed inputs *)

Example scan_cross_line_opportunities_emits :
  match scan_cross_line_opportunities (builtins := ascii_builtins) default_settings
          [totals_event] "soccer_epl" with
  | Ok [a] =>
      a !! "line" = Some (VStr "2.5/4.5")
      /\ a !! "side_a" = Some (VStr "Over 2.5")
      /\ a !! "book_a" = Some (VStr "Bet365")
      /\ a !! "book_b" = Some (VStr "Pinnacle")
      /\ a !! "type" = Some (VStr "middle")
  | _ => False
  end.
Proof. vm_compute. repeat split; reflexivity. Qed.

Example scan_totals_emits :
  match scan_totals (builtins := ascii_builtins) default_settings
          [totals_event] "soccer_epl" "totals" with
  | Ok [a] =>
      a !! "book_a" = Some (VStr "Bet365")
      /\ a !! "book_b" = Some (VStr "Pinnacle")
      /\ exists p, a !! "profit_pct" = Some (VNum p) /\ 0 < p
  | _ => False
  end.
Proof.
  vm_compute. repeat (split; [reflexivity|]). eexists. split; reflexivity.
Qed.
(** * More on the commission model and the calculators *)


Lemma py_sum_le (l l' : list Q) :
  Forall2 Qle l l' -> py_sum l <= py_sum l'.
Proof.
  induction 1 as [|x y l l' Hxy _ IH].
  - apply Qle_refl.
  - rewrite !py_sum_cons. lra.
Qed.

Lemma Qinv_antitone (x y : Q) : 0 < x -> x <= y -> 1 / y <= 1 / x.
Proof.
  intros Hx Hxy.
  apply Qle_shift_div_l; [lra|].
  assert (E : 1 / y * x == x / y) by (field; lra).
  rewrite E. apply Qle_shift_div_r; lra.
Qed.

Lemma adjust_le (odds odds' : Q) (k : pystr) :
  odds <= odds' ->
  adjust_odds_for_commission odds k <= adjust_odds_for_commission odds' k.
Proof.
  intros H. rewrite !adjust_formula.
  destruct (commission_of_range k) as [H0 H1]. nra.
Qed.

Lemma adjust_below (odds : Q) (k : pystr) :
  1 <= odds -> adjust_odds_for_commission odds k <= odds.
Proof.
  intros H. rewrite adjust_formula.
  destruct (commission_of_range k) as [H0 H1]. nra.
Qed.

(** The adjusted odds stay below the raw ones, leg by leg. *)
Lemma effective_odds_below (odds_list : list Q) (keys : option (list pystr)) :
  Forall (fun o => 1 < o) odds_list ->
  Forall2 Qle (effective_odds_of odds_list keys) odds_list.
Proof.
  intros H.
  assert (Hrefl : Forall2 Qle odds_list odds_list).
  { clear H. induction odds_list; constructor; [apply Qle_refl|assumption]. }
  unfold effective_odds_of.
  destruct keys as [[|k ks]|]; try exact Hrefl.
  destruct (decide _) as [E|_]; [|exact Hrefl].
  clear Hrefl. revert E. generalize (k :: ks). clear k ks.
  induction H as [|o l Ho _ IH]; intros [|k ks] E; simpl in *; try discriminate.
  - constructor.
  - constructor; [apply adjust_below; lra|]. apply IH. congruence.
Qed.

(** Raising the raw odds leg by leg raises the adjusted ones. *)
Lemma effective_odds_mono (odds odds' : list Q) (keys : option (list pystr)) :
  Forall2 Qle odds odds' ->
  Forall2 Qle (effective_odds_of odds keys) (effective_odds_of odds' keys).
Proof.
  intros H. pose proof (Forall2_length _ _ _ H) as Hlen.
  unfold effective_odds_of.
  destruct keys as [[|k ks]|]; try exact H.
  rewrite <- Hlen.
  destruct (decide _) as [_|_]; [|exact H].
  clear Hlen. generalize (k :: ks). clear k ks.
  induction H as [|o o' l l' Ho _ IH]; intros [|k ks]; simpl; constructor.
  - now apply adjust_le.
  - apply IH.
Qed.

Lemma inv_sum_antitone (l l' : list Q) :
  Forall (fun o => 0 < o) l -> Forall2 Qle l l' ->
  py_sum (map (Qdiv 1) l') <= py_sum (map (Qdiv 1) l).
Proof.
  intros Hpos H. apply py_sum_le.
  induction H as [|x y l l' Hxy _ IH]; simpl; constructor.
  - inversion Hpos; subst. now apply Qinv_antitone.
  - inversion Hpos; subst. now apply IH.
Qed.

Lemma Forall_gt_1_pos (l : list Q) :
  Forall (fun o => 1 < o) l -> Forall (fun o => 0 < o) l.
Proof. intros H. eapply Forall_impl; [exact H|]. intros o Ho. simpl in Ho. lra. Qed.

Lemma profit_formula_mono (s s' : Q) :
  0 < s' -> s' <= s -> 100 * (1 / s - 1) <= 100 * (1 / s' - 1).
Proof.
  intros H0 H. pose proof (Qinv_antitone s' s H0 H). lra.
Qed.



(** X3.  Commission never creates an opportunity: when the N-way
    calculator finds an arbitrage on the commission-adjusted odds, it also
    finds one on the raw odds of the same legs, and the profit percentage
    with commission is at most the one without. *)
Theorem commission_never_creates_arbitrage (odds_list : list Q)
    (bookmaker_keys : list pystr) (r : list Q * Q) :
  calc_nway_arb odds_list (Some bookmaker_keys) = Ok (Some r) ->
  exists r' profit profit',
    calc_nway_arb odds_list None = Ok (Some r')
    /\ _nway_arb_profit_pct odds_list (Some bookmaker_keys) = Ok profit
    /\ _nway_arb_profit_pct odds_list None = Ok profit'
    /\ profit <= profit'.
Proof.
  intros Hc.
  destruct (calc_nway_arb_some _ _ _ Hc) as (Hne & Hall & Hs1).
  destruct (calc_nway_arb_eval odds_list (Some bookmaker_keys) Hne Hall) as [Hs0 _].
  destruct (calc_nway_arb_eval odds_list None Hne Hall) as [Hr0 Er].
  pose proof (effective_odds_gt_1 _ (Some bookmaker_keys) Hall) as Heff.
  pose proof (inv_sum_antitone _ _ (Forall_gt_1_pos _ Heff)
                (effective_odds_below _ (Some bookmaker_keys) Hall)) as Hle.
  change (effective_odds_of odds_list None) with odds_list in Hr0, Er.
  cbv zeta in Hr0, Er, Hs0.
  assert (Hr1 : py_sum (map (Qdiv 1) odds_list) < 1) by lra.
  rewrite Er.
  assert (Qle_bool 1 (py_sum (map (Qdiv 1) odds_list)) = false) as ->
    by now apply Qle_bool_false.
  rewrite !_nway_arb_profit_pct_eval by assumption.
  eexists _, _, _. repeat (split; [reflexivity|]).
  now apply profit_formula_mono.
Qed.

Lemma commission_never_creates_arbitrage_witness :
  exists r' profit profit',
    calc_nway_arb [2.5; 4.0; 5.0] None = Ok (Some r')
    /\ _nway_arb_profit_pct [2.5; 4.0; 5.0]
         (Some [Some "betfair_ex_uk"; Some "bet365"; None]) = Ok profit
    /\ _nway_arb_profit_pct [2.5; 4.0; 5.0] None = Ok profit'
    /\ profit <= profit'.
Proof.
  destruct (calc_nway_arb [2.5; 4.0; 5.0] (Some [Some "betfair_ex_uk"; Some "bet365"; None]))
    as [[r|]|] eqn:E; [|vm_compute in E; discriminate E..].
  exact (commission_never_creates_arbitrage _ _ _ E).
Defined.

Lemma traverse_pydiv_zero (l : list Q) :
  Exists (fun o => o == 0) l -> traverse (pydiv 1) l = Raise ZeroDivisionError.
Proof.
  induction l as [|o l IH]; intros H; [inversion H|]. cbn [traverse].
  destruct (Qeq_dec o 0) as [E|E].
  - now rewrite pydiv_zero.
  - rewrite pydiv_ok by exact E. cbn [mbind res_bind]. rewrite IH; [reflexivity|].
    apply Exists_cons in H as [H|H]; [contradiction|exact H].
Qed.

(** X4.  [_nway_arb_profit_pct] divides without a guard: it raises
    [ZeroDivisionError] when an effective odds value is 0 or when the
    reciprocals sum to 0, the empty odds list among them, and returns
    [100 * (1/s - 1)] in every other case.  On the empty list the
    calculator, which the scanners call first, returns no result. *)
Theorem _nway_arb_profit_pct_errors (odds_list : list Q)
    (bookmaker_keys : option (list pystr)) :
  let eff := effective_odds_of odds_list bookmaker_keys in
  let s := py_sum (map (Qdiv 1) eff) in
  (Exists (fun o => o == 0) eff \/ s == 0 ->
     _nway_arb_profit_pct odds_list bookmaker_keys = Raise ZeroDivisionError)
  /\ (Forall (fun o => ~ o == 0) eff -> ~ s == 0 ->
        _nway_arb_profit_pct odds_list bookmaker_keys = Ok (100 * (1 / s - 1)))
  /\ calc_nway_arb [] bookmaker_keys = Ok None
  /\ _nway_arb_profit_pct [] bookmaker_keys = Raise ZeroDivisionError.
Proof.
  intros eff s.
  assert (Hok : Forall (fun o => ~ o == 0) eff ->
                traverse (pydiv 1) eff = Ok (map (Qdiv 1) eff)).
  { intros H. apply traverse_total. eapply Forall_impl; [exact H|].
    intros o Ho. now apply pydiv_ok. }
  assert (Hdec : Exists (fun o => o == 0) eff \/ Forall (fun o => ~ o == 0) eff).
  { clearbody eff. clear. induction eff as [|o l [IH|IH]].
    - right. constructor.
    - left. now right.
    - destruct (Qeq_dec o 0) as [E|E]; [left; now left|right; now constructor]. }
  split; [|split; [|split]].
  - unfold _nway_arb_profit_pct. cbv zeta. fold eff.
    destruct Hdec as [Hz|Hnz].
    + intros _. now rewrite traverse_pydiv_zero.
    + intros [Hz|Hs].
      * exfalso. apply Exists_exists in Hz as (o & Hin & Ho).
        rewrite Forall_forall in Hnz. exact (Hnz o Hin Ho).
      * rewrite (Hok Hnz). cbn [mbind res_bind]. fold s. now rewrite pydiv_zero.
  - intros Hnz Hs. unfold _nway_arb_profit_pct. cbv zeta. fold eff.
    rewrite (Hok Hnz). cbn [mbind res_bind]. fold s. now rewrite pydiv_ok.
  - reflexivity.
  - unfold _nway_arb_profit_pct, effective_odds_of.
    destruct bookmaker_keys as [[|k ks]|]; reflexivity.
Qed.

(** X5.  A key list whose length differs from that of the odds list is
    ignored, not rejected: the N-way calculator and the N-way profit
    function then work on the raw odds, as if no keys had been passed. *)
Theorem mismatched_keys_ignored (odds_list : list Q) (bookmaker_keys : list pystr) :
  length bookmaker_keys <> length odds_list ->
  calc_nway_arb odds_list (Some bookmaker_keys) = calc_nway_arb odds_list None
  /\ _nway_arb_profit_pct odds_list (Some bookmaker_keys)
     = _nway_arb_profit_pct odds_list None.
Proof.
  intros Hlen.
  assert (E : effective_odds_of odds_list (Some bookmaker_keys) = odds_list).
  { unfold effective_odds_of. destruct bookmaker_keys as [|k ks]; [reflexivity|].
    destruct (decide _) as [E|_]; [contradiction|reflexivity]. }
  unfold calc_nway_arb, _nway_arb_profit_pct. rewrite E. split; reflexivity.
Qed.

Lemma mismatched_keys_ignored_witness :
  calc_nway_arb [2.0; 2.02] (Some [Some "betfair_ex_uk"]) = calc_nway_arb [2.0; 2.02] None
  /\ _nway_arb_profit_pct [2.0; 2.02] (Some [Some "betfair_ex_uk"])
     = _nway_arb_profit_pct [2.0; 2.02] None.
Proof. apply mismatched_keys_ignored. simpl. lia. Defined.

(** X6.  Better prices never lose an opportunity: if the N-way calculator
    finds an arbitrage for some odds, it finds one for any odds that are
    leg by leg at least as high (same bookmaker keys), and the profit
    percentage does not decrease. *)
Theorem better_odds_keep_arbitrage (odds odds' : list Q)
    (bookmaker_keys : option (list pystr)) (r : list Q * Q) :
  Forall2 Qle odds odds' ->
  calc_nway_arb odds bookmaker_keys = Ok (Some r) ->
  exists r' profit profit',
    calc_nway_arb odds' bookmaker_keys = Ok (Some r')
    /\ _nway_arb_profit_pct odds bookmaker_keys = Ok profit
    /\ _nway_arb_profit_pct odds' bookmaker_keys = Ok profit'
    /\ profit <= profit'.
Proof.
  intros Hle Hc.
  destruct (calc_nway_arb_some _ _ _ Hc) as (Hne & Hall & Hs1).
  assert (Hne' : odds' <> []).
  { intros ->. apply Forall2_length in Hle. destruct odds; [congruence|discriminate]. }
  assert (Hall' : Forall (fun o => 1 < o) odds').
  { clear - Hle Hall. induction Hle as [|o o' l l' Ho _ IH]; [constructor|].
    inversion Hall; subst. constructor; [lra|auto]. }
  destruct (calc_nway_arb_eval odds' bookmaker_keys Hne' Hall') as [Hs0' E'].
  pose proof (effective_odds_gt_1 _ bookmaker_keys Hall) as Heff.
  pose proof (inv_sum_antitone _ _ (Forall_gt_1_pos _ Heff)
                (effective_odds_mono _ _ bookmaker_keys Hle)) as Hsum.
  cbv zeta in Hs0', E'.
  assert (Hs1' : py_sum (map (Qdiv 1) (effective_odds_of odds' bookmaker_keys)) < 1)
    by lra.
  rewrite E'.
  assert (Qle_bool 1 (py_sum (map (Qdiv 1) (effective_odds_of odds' bookmaker_keys)))
          = false) as -> by now apply Qle_bool_false.
  rewrite !_nway_arb_profit_pct_eval by assumption.
  eexists _, _, _. repeat (split; [reflexivity|]).
  now apply profit_formula_mono.
Qed.

Lemma better_odds_keep_arbitrage_witness :
  exists r' profit profit',
    calc_nway_arb [2.6; 4.0; 5.5] None = Ok (Some r')
    /\ _nway_arb_profit_pct [2.5; 4.0; 5.0] None = Ok profit
    /\ _nway_arb_profit_pct [2.6; 4.0; 5.5] None = Ok profit'
    /\ profit <= profit'.
Proof.
  destruct (calc_nway_arb [2.5; 4.0; 5.0] None) as [[r|]|] eqn:E;
    [|vm_compute in E; discriminate E..].
  refine (better_odds_keep_arbitrage [2.5; 4.0; 5.0] [2.6; 4.0; 5.5] None r _ E).
  repeat constructor; vm_compute; discriminate.
Defined.

(** X7.  The commission adjustment keeps the order of odds, leaves even
    money (odds 1) unchanged, lowers odds above 1 and never below 1, and
    raises odds below 1. *)
Theorem adjust_odds_for_commission_order (odds odds' : Q) (bookmaker_key : pystr) :
  (odds < odds' ->
     adjust_odds_for_commission odds bookmaker_key
       < adjust_odds_for_commission odds' bookmaker_key)
  /\ adjust_odds_for_commission 1 bookmaker_key == 1
  /\ (1 <= odds ->
        1 <= adjust_odds_for_commission odds bookmaker_key
        /\ adjust_odds_for_commission odds bookmaker_key <= odds)
  /\ (odds <= 1 ->
        odds <= adjust_odds_for_commission odds bookmaker_key
        /\ adjust_odds_for_commission odds bookmaker_key <= 1).
Proof.
  rewrite !adjust_formula.
  destruct (commission_of_range bookmaker_key) as [H0 H1].
  repeat split; try intros H; try nra. 
Qed.

(** * More on the bookmaker filter *)

Section filter_properties.
Context {builtins : PyBuiltins} (cfg : settings).

(** The filter loop keeps the blocks that pass a test, in order. *)
Lemma foreach_keep {A} (keep : A -> bool) (body : A -> list A -> list A) (l out : list A) :
  (forall x out, body x out = if keep x then out ++ [x] else out) ->
  foreach l body out = out ++ List.filter keep l.
Proof.
  intros Hbody. unfold foreach. revert out.
  induction l as [|x l IH]; intros out; simpl; [now rewrite app_nil_r|].
  rewrite IH, Hbody. destruct (keep x); [|reflexivity].
  now rewrite <- app_assoc.
Qed.

Lemma _filter_bookmakers_keep :
  exists keep : bookmaker -> bool,
    (forall bookmakers, _filter_bookmakers cfg bookmakers = List.filter keep bookmakers)
    /\ (forall bm, keep bm = true ->
          let key := get_or (bm_key bm) (Some "") in
          in_set key BLACKLIST_BOOKMAKERS = false
          /\ in_set key NON_BETFAIR_EXCHANGES = false
          /\ (_INCLUDE_EXCHANGES cfg = false -> in_set key BETFAIR_EXCHANGES = false)
          /\ (_USE_ALL_BOOKS cfg = false -> in_set key TRUSTED_BOOKMAKERS = true)).
Proof.
  pose (keep := fun bm : bookmaker =>
    let key := get_or (bm_key bm) (Some "") in
    negb (truthy key && in_set (str_lower <$> key) (_EXCLUDE_BOOKS cfg))
    && negb (in_set key BLACKLIST_BOOKMAKERS)
    && negb (in_set key NON_BETFAIR_EXCHANGES)
    && negb (negb (_INCLUDE_EXCHANGES cfg) && in_set key BETFAIR_EXCHANGES)
    && negb (_FINLAND_ONLY cfg && in_set key FINLAND_RESTRICTED)
    && negb (negb (_USE_ALL_BOOKS cfg) && negb (in_set key TRUSTED_BOOKMAKERS))
    && negb (negb (_INCLUDE_UNRELIABLE cfg) && in_set key UNRELIABLE_BOOKMAKERS)).
  exists keep. split.
  - intros bookmakers. unfold _filter_bookmakers.
    rewrite (foreach_keep keep _ bookmakers []); [reflexivity|].
    intros bm out. unfold keep. cbv zeta.
    repeat (match goal with |- context [if ?b then out else _] => destruct b end;
            [reflexivity|]).
    reflexivity.
  - intros bm. unfold keep. cbv zeta. rewrite !andb_true_iff, !negb_true_iff.
    intros [[[[[[_ H1] H2] H3] _] H4] _].
    repeat split; [exact H1|exact H2| |].
    + intros E. rewrite E in H3. exact H3.
    + intros E. rewrite E in H4. simpl in H4. now apply negb_false_iff in H4.
Qed.

(** X8.  The bookmaker filter only removes blocks: its result is a
    sublist of its input in the input's order, filtering twice changes
    nothing, and filtering a concatenation is filtering its parts. *)
Theorem _filter_bookmakers_sublist (bookmakers more : list bookmaker) :
  sublist (_filter_bookmakers cfg bookmakers) bookmakers
  /\ _filter_bookmakers cfg (_filter_bookmakers cfg bookmakers)
     = _filter_bookmakers cfg bookmakers
  /\ _filter_bookmakers cfg (bookmakers ++ more)
     = _filter_bookmakers cfg bookmakers ++ _filter_bookmakers cfg more.
Proof.
  destruct _filter_bookmakers_keep as (keep & Hk & _). rewrite !Hk.
  split; [|split].
  - induction bookmakers as [|bm l IH]; simpl; [constructor|].
    destruct (keep bm); [now constructor|now apply sublist_cons].
  - induction bookmakers as [|bm l IH]; simpl; [reflexivity|].
    destruct (keep bm) eqn:E; simpl; [|exact IH]. rewrite E. now f_equal.
  - apply List.filter_app.
Qed.

Lemma commission_keys (k : string) (c : Q) :
  EXCHANGE_COMMISSION !! k = Some c ->
  c = 0.05 /\ (k = "betdaq" \/ in_set (Some k) BETFAIR_EXCHANGES = true)
  \/ in_set (Some k) NON_BETFAIR_EXCHANGES = true.
Proof.
  unfold EXCHANGE_COMMISSION. intros H.
  repeat (apply lookup_insert_Some in H as [ [<- <-] | [_ H] ];
          [vm_compute; tauto|]).
  rewrite lookup_empty in H. discriminate.
Qed.

(** X9.  A bookmaker block that passes the filter pays commission at rate
    0 or 0.05: the rates recorded for smarkets and matchbook are never
    applied, those exchanges being removed under every setting.  Without
    [_USE_ALL_BOOKS] and without [_INCLUDE_EXCHANGES] every block that
    passes has rate 0. *)
Theorem accepted_bookmaker_commission (bookmakers : list bookmaker) (bm : bookmaker) :
  bm ∈ _filter_bookmakers cfg bookmakers ->
  (commission_of (bk_of bm) = 0 \/ commission_of (bk_of bm) = 0.05)
  /\ (_USE_ALL_BOOKS cfg = false -> _INCLUDE_EXCHANGES cfg = false ->
        commission_of (bk_of bm) = 0).
Proof.
  destruct _filter_bookmakers_keep as (keep & Hk & Hkeep). rewrite Hk.
  intros Hin. apply list_elem_of_In, filter_In in Hin as [_ Hbm].
  destruct (Hkeep bm Hbm) as (_ & Hnon & Hex & Htr). clear Hk Hkeep Hbm.
  unfold bk_of. destruct (bm_key bm) as [| |k]; cbn [get_or] in *;
    try (split; auto; fail).
  unfold commission_of.
  destruct (EXCHANGE_COMMISSION !! k) as [c|] eqn:E; cbn [default]; [|split; auto].
  apply commission_keys in E as [[-> Hkey]|Hkey]; [|congruence].
  split; [now right|]. intros Hall Hexch. exfalso.
  specialize (Hex Hexch). specialize (Htr Hall).
  destruct Hkey as [->|Hkey]; [|congruence].
  vm_compute in Htr. discriminate.
Qed.

End filter_properties.

Lemma accepted_bookmaker_commission_witness :
  commission_of (bk_of (example_bookmaker "betfair_ex_uk" "Betfair" [])) = 0
  \/ commission_of (bk_of (example_bookmaker "betfair_ex_uk" "Betfair" [])) = 0.05.
Proof.
  refine (proj1 (accepted_bookmaker_commission (builtins := ascii_builtins) nway_settings
                   [example_bookmaker "paddypower" "Paddy Power" [];
                    example_bookmaker "betfair_ex_uk" "Betfair" []] _ _)).
  vm_compute. left.
Defined.

(** * More on the records of the scanners *)

Section record_properties.
Context {builtins : PyBuiltins} (cfg : settings).

(** What holds of the records of each scanner that runs holds of the
    records of [run_scanners]. *)
Lemma run_scanners_Forall (P : arb -> Prop) (events : list event)
    (markets : gset string) (sport_key : string) (safe_only : bool) :
  (forall a, two_leg_record cfg events a -> P a) ->
  (_ENABLE_3WAY cfg = true -> forall a, three_leg_record cfg events a -> P a) ->
  (_ENABLE_4WAY cfg = true -> forall a, four_leg_record cfg events a -> P a) ->
  ((5 <=? _MAX_NWAY cfg)%nat = true -> forall mk,
     returns (Forall P)
       (scan_nway_dynamic cfg events sport_key mk 5 (Nat.min (_MAX_NWAY cfg) 20))) ->
  returns (Forall P) (run_scanners cfg events markets sport_key safe_only).
Proof.
  intros H2 H3 H4 Hn.
  assert (two : forall m, returns (Forall (two_leg_record cfg events)) m ->
                          returns (Forall P) m).
  { intros m Hm. eapply returns_Forall_impl; [exact Hm|exact H2]. }
  unfold run_scanners. cbv zeta.
  apply (returns_bind (Forall P)).
  { destruct (_ENABLE_3WAY cfg) eqn:E3; cbn [andb]; [|apply returns_ok; constructor].
    destruct (bool_decide _); [|apply returns_ok; constructor].
    apply extend_returns; [constructor|].
    eapply returns_Forall_impl; [apply scan_h2h_3way_records|exact (H3 eq_refl)]. }
  intros all1 A1. apply (returns_bind (Forall P)).
  { destruct (bool_decide _); [|now apply returns_ok].
    apply extend_returns; [exact A1|]. apply two, scan_h2h_records. }
  intros all2 A2. apply (returns_bind (Forall P)).
  { destruct (_ && _); [now apply returns_ok|].
    apply for_each_returns; [exact A2|]. intros mk all Hin Hall.
    destruct (bool_decide _); [|now apply returns_ok].
    destruct (String.eqb mk "alternate_totals").
    - apply (returns_bind (Forall P)).
      + apply extend_returns; [exact Hall|].
        apply two, scan_alternate_totals_enhanced_records.
      + intros all' Hall'. apply extend_returns; [exact Hall'|].
        apply two. eapply returns_Forall_impl;
          [apply scan_cross_line_opportunities_records|apply cross_line_two_leg].
    - apply extend_returns; [exact Hall|]. apply two, scan_totals_records. }
  intros all3 A3. apply (returns_bind (Forall P)).
  { destruct (_ && _); [now apply returns_ok|].
    apply for_each_returns; [exact A3|]. intros mk all Hin Hall.
    destruct (bool_decide _); [|now apply returns_ok].
    apply extend_returns; [exact Hall|]. apply two, scan_team_totals_records. }
  intros all4 A4. apply (returns_bind (Forall P)).
  { destruct (bool_decide _); [|now apply returns_ok].
    apply (returns_bind (Forall P)).
    - destruct (bool_decide _); [|apply returns_ok; exact A4].
      apply extend_returns; [exact A4|]. apply two, scan_spreads_records.
    - intros all Hall. destruct (bool_decide _); [|now apply returns_ok].
      apply (returns_bind (Forall P)).
      + apply extend_returns; [exact Hall|].
        apply two, scan_alternate_spreads_enhanced_records.
      + intros all' Hall'. apply extend_returns; [exact Hall'|].
        apply two, scan_asian_handicap_records. }
  intros all5 A5. apply (returns_bind (Forall P)).
  { destruct (bool_decide _); [|apply returns_ok; exact A5].
    apply extend_returns; [exact A5|]. apply two, scan_btts_records. }
  intros all6 A6. apply (returns_bind (Forall P)).
  { destruct (bool_decide _); [|apply returns_ok; exact A6].
    apply extend_returns; [exact A6|]. apply two, scan_draw_no_bet_records. }
  intros all7 A7. apply (returns_bind (Forall P)).
  { destruct (bool_decide _); [|apply returns_ok; exact A7].
    apply extend_returns; [exact A7|]. apply two, scan_double_chance_records. }
  intros all8 A8. apply (returns_bind (Forall P)).
  { destruct (_ENABLE_4WAY cfg) eqn:E4; [|apply returns_ok; exact A8].
    apply extend_returns; [exact A8|].
    eapply returns_Forall_impl;
      [apply scan_4way_combined_markets_records|exact (H4 eq_refl)]. }
  intros all9 A9.
  destruct (5 <=? _MAX_NWAY cfg)%nat eqn:E5; [|now apply returns_ok].
  apply for_each_returns; [exact A9|]. intros mk all Hin Hall.
  apply extend_returns; [exact Hall|]. exact (Hn eq_refl mk).
Qed.

(** With the module's defaults for the multi-way scanners, only the
    two-leg scanners run. *)
Lemma run_scanners_two_leg (P : arb -> Prop) (events : list event)
    (markets : gset string) (sport_key : string) (safe_only : bool) :
  _ENABLE_3WAY cfg = false -> _ENABLE_4WAY cfg = false -> (_MAX_NWAY cfg < 5)%nat ->
  (forall a, two_leg_record cfg events a -> P a) ->
  returns (Forall P) (run_scanners cfg events markets sport_key safe_only).
Proof.
  intros E3 E4 E5 H2. apply run_scanners_Forall; [exact H2| | |].
  - rewrite E3. discriminate.
  - rewrite E4. discriminate.
  - intros E. apply Nat.leb_le in E. lia.
Qed.



Lemma adjust_rate_0 (odds : Q) (k : pystr) :
  commission_of k = 0 -> adjust_odds_for_commission odds k = odds.
Proof. intros E. unfold adjust_odds_for_commission. now rewrite E. Qed.

Lemma two_leg_raw_profit (events : list event) (a : arb) :
  _USE_ALL_BOOKS cfg = false -> _INCLUDE_EXCHANGES cfg = false ->
  two_leg_record cfg events a -> raw_profit a.
Proof.
  intros Hall Hex (ev & bm1 & bm2 & o1 & o2 & r & p & _ & Hb1 & Hb2 & _ & _ & _ & Hc & Hp
                   & _ & _ & _ & Ho1 & Ho2 & _ & _ & _ & Hpp).
  destruct (calc_arb_equal_payout_some _ _ _ _ _ Hc) as (H1 & H2 & _).
  rewrite _arb_profit_pct_eval in Hp by assumption. injection Hp as <-.
  destruct (accepted_bookmaker_commission cfg _ _ Hb1) as [_ C1].
  destruct (accepted_bookmaker_commission cfg _ _ Hb2) as [_ C2].
  rewrite !adjust_rate_0 in Hpp by auto.
  exists o1, o2. eexists. repeat (split; [eassumption|]). reflexivity.
Qed.

(** X10.  With the module's default settings (no 3-way, 4-way or dynamic
    scanner, trusted bookmakers only, exchanges excluded) no commission
    enters any record of [run_scanners]: its profit is
    [100 * (1/(1/odds_a + 1/odds_b) - 1)] on the odds it displays. *)
Theorem run_scanners_raw_profit (events : list event) (markets : gset string)
    (sport_key : string) (safe_only : bool) :
  _ENABLE_3WAY cfg = false -> _ENABLE_4WAY cfg = false -> (_MAX_NWAY cfg < 5)%nat ->
  _USE_ALL_BOOKS cfg = false -> _INCLUDE_EXCHANGES cfg = false ->
  returns (Forall raw_profit) (run_scanners cfg events markets sport_key safe_only).
Proof.
  intros E3 E4 E5 Hall Hex. apply run_scanners_two_leg; try assumption.
  intros a Ha. exact (two_leg_raw_profit events a Hall Hex Ha).
Qed.

(** ** The 4-way scanner and commission *)

Lemma has_char_app (c : ascii) (s1 s2 : string) :
  has_char c (s1 +:+ String c s2) = true.
Proof.
  induction s1 as [|c1 s1 IH]; simpl.
  - now rewrite Ascii.eqb_refl.
  - rewrite IH. apply orb_true_r.
Qed.

(** A key with a plus sign has no commission entry. *)
Lemma commission_of_combo (k1 k2 : string) :
  commission_of (Some (k1 +:+ "+" +:+ k2)) = 0.
Proof.
  unfold commission_of.
  destruct (EXCHANGE_COMMISSION !! (k1 +:+ "+" +:+ k2)) as [c|] eqn:E; [|reflexivity].
  exfalso. pose proof (has_char_app "+" k1 k2) as Hplus.
  change (String "+" k2) with ("+" +:+ k2) in Hplus.
  unfold EXCHANGE_COMMISSION in E.
  repeat (apply lookup_insert_Some in E as [ [E _] | [_ E] ];
          [rewrite <- E in Hplus; discriminate Hplus|]).
  rewrite lookup_empty in E. discriminate.
Qed.

Lemma four_leg_raw_profit (events : list event) (a : arb) :
  four_leg_record cfg events a -> raw_profit4 a.
Proof.
  intros (ev & b1 & b2 & b3 & b4 & ot1 & ot2 & oo & ou & res & p & H).
  destruct H as (_ & _ & _ & _ & _ & _ & _ & _ & _ & _ & (Hc & Hp) & _
                 & Ho1 & Ho2 & Ho3 & Ho4 & Hpp).
  destruct (calc_nway_arb_some _ _ _ Hc) as (Hne & Hall & _).
  rewrite _nway_arb_profit_pct_eval in Hp by assumption. injection Hp as <-.
  exists (ot1 * oo), (ot1 * ou), (ot2 * oo), (ot2 * ou). eexists.
  repeat (split; [eassumption|]).
  rewrite !adjust_rate_0 by apply commission_of_combo.
  unfold py_sum. cbn [map fold_left].
  setoid_replace (0 + 1 / (ot1 * oo) + 1 / (ot1 * ou) + 1 / (ot2 * oo) + 1 / (ot2 * ou))
    with (1 / (ot1 * oo) + 1 / (ot1 * ou) + 1 / (ot2 * oo) + 1 / (ot2 * ou))
    using relation Qeq by ring.
  reflexivity.
Qed.

(** X11.  The 4-way scanner never applies commission: it passes the
    calculator keys of the form [key1+key2], which have no entry in the
    commission table, so the profit of each of its records is
    [100 * (1/(1/odds_1 + ... + 1/odds_4) - 1)] on the displayed odds, also
    when a leg is quoted by an exchange. *)
Theorem scan_4way_combined_markets_raw_profit (events : list event) (sport_key : string) :
  returns (Forall raw_profit4) (scan_4way_combined_markets cfg events sport_key).
Proof.
  eapply returns_Forall_impl; [apply scan_4way_combined_markets_records|].
  apply four_leg_raw_profit.
Qed.

End record_properties.


Lemma run_scanners_raw_profit_witness :
  returns (Forall raw_profit)
    (run_scanners (builtins := ascii_builtins) default_settings [totals_event]
       {[ "totals" ]} "soccer_epl" false).
Proof.
  apply (run_scanners_raw_profit (builtins := ascii_builtins) default_settings);
    [reflexivity|reflexivity|simpl; lia|reflexivity|reflexivity].
Defined.

(** * Events with a single accepted bookmaker *)

Section single_bookmaker.
Context {builtins : PyBuiltins} (cfg : settings).

Lemma short_list_same {A} (l : list A) (x y : A) :
  (length l <= 1)%nat -> x ∈ l -> y ∈ l -> x = y.
Proof.
  destruct l as [|z [|z' l]]; simpl; intros Hlen Hx Hy; [inversion Hx| |lia].
  apply list_elem_of_singleton in Hx, Hy. congruence.
Qed.

Lemma no_record {P : arb -> Prop} (m : res (list arb)) :
  returns (Forall P) m -> (forall a, P a -> False) -> m = Ok [].
Proof.
  intros (arbs & -> & H) Hno. destruct arbs as [|a arbs]; [reflexivity|].
  inversion H; subst. exfalso. eauto.
Qed.

(** X13.  Outside the dynamic scanner, events for which at most one
    bookmaker block passes the filter yield no record: every scanner needs
    blocks with different keys for its legs. *)
Theorem single_bookmaker_no_record (events : list event) (markets : gset string)
    (sport_key : string) (safe_only : bool) :
  (_MAX_NWAY cfg < 5)%nat ->
  Forall (fun ev => (length (_filter_bookmakers cfg (ev_bookmakers ev)) <= 1)%nat)
    events ->
  run_scanners cfg events markets sport_key safe_only = Ok [].
Proof.
  intros E5 Hone. rewrite Forall_forall in Hone.
  apply (no_record (P := fun _ => False)); [|auto].
  apply run_scanners_Forall.
  - intros a (ev & bm1 & bm2 & o1 & o2 & r & p & Hev & H1 & H2 & _ & _ & Hne & _).
    apply Hne. f_equal. exact (short_list_same _ _ _ (Hone ev Hev) H1 H2).
  - intros _ a (ev & bm1 & bm2 & bm3 & o1 & o2 & o3 & st & tot & p & Hev & H1 & H2 & _
                & _ & _ & _ & Hne & _).
    apply Hne. f_equal. exact (short_list_same _ _ _ (Hone ev Hev) H1 H2).
  - intros _ a (ev & b1 & b2 & b3 & b4 & ot1 & ot2 & oo & ou & res & p & Hev & H1 & H2
                & _ & _ & _ & _ & _ & _ & Hnd & _).
    apply NoDup_cons in Hnd as [Hnd _]. apply Hnd.
    rewrite (short_list_same _ _ _ (Hone ev Hev) H1 H2). left.
  - intros E. apply Nat.leb_le in E. lia.
Qed.

End single_bookmaker.

Lemma single_bookmaker_no_record_witness :
  run_scanners (builtins := ascii_builtins) default_settings [single_event]
    {[ "totals" ]} "soccer_epl" false = Ok [].
Proof.
  apply (single_bookmaker_no_record (builtins := ascii_builtins) default_settings);
    [simpl; lia|repeat constructor].
Defined.

(** * More on the aggregator *)

Section aggregator_properties.
Context {builtins : PyBuiltins} (cfg : settings).

Lemma py_get_Some (a : arb) (k : string) (d v : val) :
  a !! k = Some v -> py_get a k d = v.
Proof. intros E. unfold py_get. now rewrite E. Qed.

Lemma py_get_None (a : arb) (k : string) (d : val) :
  a !! k = None -> py_get a k d = d.
Proof. intros E. unfold py_get. now rewrite E. Qed.

(** X12.  The scaling step of [main] reads the number of legs off the
    record type and scales ["stake_1"], ["stake_2"], ... and
    ["total_stake"].  A "2-way" record keeps its stakes under ["stake_a"]
    and ["stake_b"]: these stay as the calculator returned them, the
    total is multiplied by the scale, and ["stake_1"] and ["stake_2"] are
    added with value [0 * scale].  Records of type "2-way-middle" and
    "2-way-asian" are not scaled at all. *)
Theorem scale_arb_two_way (scale : Q) (a : arb) (arb_type : string) (total : Q) :
  py_int "2" = Ok 2%Z ->
  a !! "arb_type" = Some (VStr arb_type) ->
  a !! "stake_1" = None -> a !! "stake_2" = None ->
  a !! "total_stake" = Some (VNum total) ->
  (arb_type = "2-way" ->
     exists a', scale_arb scale a = Ok a'
       /\ a' !! "stake_a" = a !! "stake_a"
       /\ a' !! "stake_b" = a !! "stake_b"
       /\ a' !! "total_stake" = Some (VNum (total * scale))
       /\ a' !! "stake_1" = Some (VNum (0 * scale))
       /\ a' !! "stake_2" = Some (VNum (0 * scale)))
  /\ (arb_type = "2-way-middle" \/ arb_type = "2-way-asian" -> scale_arb scale a = Ok a).
Proof.
  intros Hint Hty H1 H2 Ht. split.
  - intros ->. unfold scale_arb. rewrite (py_get_Some _ _ _ _ Hty).
    change (str_endswith "-way" "2-way") with true. cbv iota.
    change (before_dash "2-way") with "2". rewrite Hint. cbn [mbind res_bind].
    change (seq 1 (Z.to_nat 2)) with [1; 2]%nat. cbn [for_each].
    change ("stake_" +:+ pretty 1%nat) with "stake_1".
    change ("stake_" +:+ pretty 2%nat) with "stake_2".
    rewrite (py_get_None _ _ _ H1). cbn [py_mul mbind res_bind].
    rewrite (py_get_None _ "stake_2") by (now rewrite lookup_insert_ne by discriminate).
    cbn [py_mul mbind res_bind].
    rewrite (py_get_Some _ "total_stake" _ (VNum total))
      by (now rewrite !lookup_insert_ne by discriminate).
    cbn [py_mul mbind res_bind].
    eexists. split; [reflexivity|].
    repeat split.
    + now rewrite !lookup_insert_ne by discriminate.
    + now rewrite !lookup_insert_ne by discriminate.
    + now rewrite lookup_insert_eq.
    + rewrite !lookup_insert_ne by discriminate. now rewrite lookup_insert_eq.
    + rewrite lookup_insert_ne by discriminate. now rewrite lookup_insert_eq.
  - intros [-> | ->]; unfold scale_arb; rewrite (py_get_Some _ _ _ _ Hty); reflexivity.
Qed.

End aggregator_properties.

(** On [totals_event] the totals scanner finds one record; scaled to a
    maximal stake of 200 it shows a total stake of 200 over two stakes
    that still add up to 100. *)
Lemma scale_arb_two_way_witness :
  match scan_totals (builtins := ascii_builtins) default_settings [totals_event]
          "soccer_epl" "totals" with
  | Ok [a] =>
      exists a' s1 s2 t,
        scale_arb (builtins := ascii_builtins) (scale_of 200) a = Ok a'
        /\ a' !! "stake_a" = Some (VNum s1) /\ a' !! "stake_b" = Some (VNum s2)
        /\ a' !! "total_stake" = Some (VNum t)
        /\ s1 + s2 == 100 /\ t == 200
  | _ => False
  end.
Proof.
  destruct (scan_totals (builtins := ascii_builtins) default_settings [totals_event]
              "soccer_epl" "totals") as [[|a [|? ?]]|] eqn:E;
    try (vm_compute in E; discriminate E).
  assert (Ha : a !! "arb_type" = Some (VStr "2-way") /\ a !! "stake_1" = None
               /\ a !! "stake_2" = None
               /\ exists s1 s2 t, a !! "stake_a" = Some (VNum s1)
                    /\ a !! "stake_b" = Some (VNum s2)
                    /\ a !! "total_stake" = Some (VNum t)
                    /\ s1 + s2 == 100 /\ t == 100).
  { vm_compute in E. injection E as <-. vm_compute.
    repeat (split; [reflexivity|]). eexists _, _, _.
    repeat (split; [reflexivity|]). split; reflexivity. }
  destruct Ha as (Hty & H1 & H2 & s1 & s2 & t & Hs1 & Hs2 & Ht & Hsum & Htot).
  destruct (scale_arb_two_way (builtins := ascii_builtins) (scale_of 200) a "2-way" t
              eq_refl Hty H1 H2 Ht) as [H _].
  destruct (H eq_refl) as (a' & Ea & Ka & Kb & Kt & _).
  exists a', s1, s2, (t * scale_of 200).
  split; [exact Ea|]. split; [now rewrite Ka|]. split; [now rewrite Kb|].
  split; [exact Kt|]. split; [exact Hsum|]. rewrite Htot. reflexivity.
Defined.

(** ** Deduplication: errors and repetition *)

Section dedupe_properties.
Context {builtins : PyBuiltins} (cfg : settings).

Lemma key_of_present (a : arb) :
  is_Some (a !! "event_id") -> is_Some (a !! "market") -> key_of a = Ok (key_val a).
Proof.
  intros [e He] [m Hm]. unfold key_of, key_val, py_item, py_get.
  rewrite He, Hm. reflexivity.
Qed.

Lemma key_of_missing (a : arb) :
  a !! "event_id" = None \/ a !! "market" = None -> key_of a = Raise KeyError.
Proof.
  intros [H|H]; unfold key_of, py_item; [now rewrite H|].
  destruct (a !! "event_id"); [|reflexivity]. now rewrite H.
Qed.

Lemma profit_item_number (a : arb) (p : Q) :
  a !! "profit_pct" = Some (VNum p) -> profit_item a = Ok p.
Proof. intros H. unfold profit_item, py_item. now rewrite H. Qed.

Lemma dict_get_Forall {K V} (P : V -> Prop) (eqb : K -> K -> bool) (k : K)
    (d : list (K * V)) (v : V) :
  Forall (fun kv => P kv.2) d -> dict_get eqb k d = Some v -> P v.
Proof.
  intros Hd Hg. apply dict_get_elem in Hg as (k' & Hin & _).
  rewrite Forall_forall in Hd. exact (Hd _ Hin).
Qed.

(** One round on a record with its key fields and a numeric profit. *)
Lemma dedupe_step_returns (a : arb) (by_key : list (arb_key * arb)) :
  let numeric (b : arb) := exists p, b !! "profit_pct" = Some (VNum p) in
  numeric a -> is_Some (a !! "event_id") -> is_Some (a !! "market") ->
  Forall (fun kv => numeric kv.2) by_key ->
  returns (Forall (fun kv => numeric kv.2)) (dedupe_step a by_key).
Proof.
  intros numeric [pa Hpa] He Hm Hd. unfold dedupe_step.
  rewrite key_of_present by assumption. cbn [mbind res_bind].
  destruct (dict_get key_eqb (key_val a) by_key) as [b|] eqn:Eg.
  - destruct (dict_get_Forall numeric _ _ _ _ Hd Eg) as [pb Hpb].
    rewrite (profit_item_number _ _ Hpa), (profit_item_number _ _ Hpb).
    cbn [mbind res_bind].
    destruct (Qlt_bool pb pa); apply returns_ok; [|exact Hd].
    apply dict_upd_Forall; [exact Hd| |]; intros; exists pa; exact Hpa.
  - apply returns_ok. apply Forall_app. split; [exact Hd|].
    constructor; [exists pa; exact Hpa|constructor].
Qed.

(** X14.  On records whose profit is a number, the deduplication of
    [main] returns when every record has an ["event_id"] and a
    ["market"], and raises [KeyError] as soon as one of the records lacks
    either; a missing ["line"] or ["arb_type"] is no error. *)
Theorem dedupe_errors (all_arbs : list arb) :
  Forall (fun a => exists p, a !! "profit_pct" = Some (VNum p)) all_arbs ->
  (Forall (fun a => is_Some (a !! "event_id") /\ is_Some (a !! "market")) all_arbs ->
     exists out, dedupe all_arbs = Ok out)
  /\ (Exists (fun a => a !! "event_id" = None \/ a !! "market" = None) all_arbs ->
        dedupe all_arbs = Raise KeyError).
Proof.
  intros Hnum. unfold dedupe.
  set (numeric := fun b : arb => exists p, b !! "profit_pct" = Some (VNum p)) in *.
  assert (Hinit : Forall (fun kv : arb_key * arb => numeric kv.2) []) by constructor.
  revert Hinit. generalize (@nil (arb_key * arb)).
  induction Hnum as [|a l Ha Hl IH]; intros by_key Hd.
  - split; [intros _; eexists; reflexivity|intros H; inversion H].
  - cbn [for_each]. split.
    + intros Hkeys. inversion Hkeys as [|? ? [He Hm] Hkeys']; subst.
      destruct (dedupe_step_returns a by_key Ha He Hm Hd) as (d1 & -> & Hd1).
      cbn [mbind res_bind]. exact (proj1 (IH d1 Hd1) Hkeys').
    + intros Hex.
      destruct (a !! "event_id") as [e|] eqn:He.
      2:{ unfold dedupe_step. rewrite key_of_missing by now left. reflexivity. }
      destruct (a !! "market") as [m|] eqn:Hm.
      2:{ unfold dedupe_step. rewrite key_of_missing by now right. reflexivity. }
      apply Exists_cons in Hex as [[H|H]|Hex]; [congruence|congruence|].
      destruct (dedupe_step_returns a by_key Ha) as (d1 & -> & Hd1);
        [rewrite He; eauto|rewrite Hm; eauto|exact Hd|].
      cbn [mbind res_bind]. exact (proj2 (IH d1 Hd1) Hex).
Qed.

Lemma for_each_dedupe_keys (l : list arb) (by_key by_key' : list (arb_key * arb)) :
  for_each l dedupe_step by_key = Ok by_key' ->
  Forall (fun a => key_of a = Ok (key_val a)) l.
Proof.
  revert by_key. induction l as [|a l IH]; intros by_key H; [constructor|].
  cbn [for_each] in H.
  destruct (dedupe_step a by_key) as [d1|] eqn:E; cbn [mbind res_bind] in H;
    [|discriminate].
  constructor; [|exact (IH _ H)].
  unfold dedupe_step in E. destruct (key_of a) as [k|] eqn:Ek; [|discriminate].
  now rewrite (key_of_Ok _ _ Ek).
Qed.

Lemma dict_get_fresh (a : arb) (done : list arb) :
  Forall (fun b => key_eqb (key_val b) (key_val a) = false) done ->
  dict_get key_eqb (key_val a) (map (fun b => (key_val b, b)) done) = None.
Proof.
  induction 1 as [|b done Hb _ IH]; [reflexivity|].
  cbn [map dict_get]. now rewrite Hb.
Qed.

Lemma dedupe_step_fresh (a : arb) (by_key : list (arb_key * arb)) :
  key_of a = Ok (key_val a) -> dict_get key_eqb (key_val a) by_key = None ->
  dedupe_step a by_key = Ok (by_key ++ [(key_val a, a)]).
Proof. intros Hk Hg. unfold dedupe_step. rewrite Hk. cbn [mbind res_bind]. now rewrite Hg. Qed.

(** Records of pairwise different groups pass the loop unchanged. *)
Lemma for_each_dedupe_distinct (l done : list arb) :
  Forall (fun a => key_of a = Ok (key_val a)) l ->
  (forall i j a b, (done ++ l) !! i = Some a -> (done ++ l) !! j = Some b ->
     same_group a b -> i = j) ->
  for_each l dedupe_step (map (fun b => (key_val b, b)) done)
  = Ok (map (fun b => (key_val b, b)) (done ++ l)).
Proof.
  revert done. induction l as [|a l IH]; intros done Hk Hd.
  - now rewrite app_nil_r.
  - inversion Hk as [|? ? Ha Hk']; subst. cbn [for_each].
    rewrite dedupe_step_fresh; [|exact Ha|apply dict_get_fresh].
    + cbn [mbind res_bind].
      replace (map (fun b => (key_val b, b)) done ++ [(key_val a, a)])
        with (map (fun b => (key_val b, b)) (done ++ [a]))
        by (now rewrite map_app).
      rewrite IH; [now rewrite <- app_assoc| exact Hk'|].
      rewrite <- app_assoc. exact Hd.
    + apply Forall_forall. intros b Hb.
      apply list_elem_of_lookup in Hb as [i Hi].
      destruct (key_eqb (key_val b) (key_val a)) eqn:E; [|reflexivity].
      pose proof (lookup_lt_Some _ _ _ Hi) as Hlt.
      assert (i = length done).
      { apply (Hd i (length done) b a).
        - now apply lookup_app_l_Some.
        - rewrite lookup_app_r by lia. now rewrite Nat.sub_diag.
        - exact E. }
      lia.
Qed.

(** X15.  Deduplicating twice changes nothing: the records the
    deduplication returns belong to pairwise different groups, so a second
    pass returns the same list in the same order; each of them is one of
    the input records. *)
Theorem dedupe_idempotent (all_arbs out : list arb) :
  dedupe all_arbs = Ok out ->
  dedupe out = Ok out /\ (forall a, a ∈ out -> a ∈ all_arbs).
Proof.
  intros Hd. destruct (dedupe_spec _ _ Hd) as (D1 & _ & D3).
  split; [|intros a Ha; exact (proj1 (D1 a Ha))].
  assert (Hk : Forall (fun a => key_of a = Ok (key_val a)) out).
  { unfold dedupe in Hd.
    destruct (for_each all_arbs dedupe_step []) as [by_key|] eqn:E; [|discriminate].
    apply for_each_dedupe_keys in E. rewrite Forall_forall in E.
    apply Forall_forall. intros a Ha. apply E. exact (proj1 (D1 a Ha)). }
  unfold dedupe.
  pose proof (for_each_dedupe_distinct out [] Hk D3) as E. cbn [map app] in E.
  rewrite E. cbn [mbind res_bind].
  f_equal. rewrite map_map. cbn [snd]. apply map_id.
Qed.

Lemma filter_insert_desc (keep : Q * arb -> bool) (x : Q * arb) (l : list (Q * arb)) :
  (forall y, keep x = true -> keep y = true -> Qlt_bool x.1 y.1 = false) ->
  List.filter keep (insert_desc x l) = List.filter keep (x :: l).
Proof.
  intros Hkeep. induction l as [|y l IH]; [reflexivity|].
  cbn [insert_desc]. destruct (Qlt_bool x.1 y.1) eqn:E; [|reflexivity].
  cbn [List.filter] in *. rewrite IH.
  destruct (keep x) eqn:Ex, (keep y) eqn:Ey; try reflexivity.
  rewrite (Hkeep y eq_refl Ey) in E. discriminate.
Qed.

(** X16.  The final ordering is stable: records with equal profit keep
    the order in which they were discovered. *)
Theorem sorted_by_profit_stable (all_arbs out : list arb) (p : Q) :
  sorted_by_profit all_arbs = Ok out ->
  List.filter (fun a => Qeq_bool (profit_of a) p) out
  = List.filter (fun a => Qeq_bool (profit_of a) p) all_arbs.
Proof.
  unfold sorted_by_profit.
  destruct (traverse _ all_arbs) as [keyed|] eqn:Et; cbn [mbind res_bind]; [|discriminate].
  intros [= <-].
  assert (Hk : keyed = map (fun a => (profit_of a, a)) all_arbs).
  { clear - Et. revert keyed Et.
    induction all_arbs as [|a l IH]; intros keyed Et; cbn [traverse] in Et.
    - now injection Et as <-.
    - cbn [map]. unfold profit_of at 1.
      destruct (py_get a "profit_pct" (VNum 0)) as [| |q]; cbn in Et; try discriminate.
      destruct (traverse _ l) as [ks|] eqn:Eks; cbn in Et; [|discriminate].
      injection Et as <-. now rewrite (IH ks eq_refl). }
  subst keyed. clear Et.
  induction all_arbs as [|a l IH]; [reflexivity|].
  cbn [map foldr].
  set (sorted := foldr insert_desc [] (map (fun a => (profit_of a, a)) l)) in *.
  assert (Hkeys : Forall (fun y : Q * arb => y.1 = profit_of y.2) sorted).
  { unfold sorted. rewrite sort_desc_perm. apply Forall_forall. intros y Hy.
    apply list_elem_of_fmap in Hy as (b & -> & _). reflexivity. }
  assert (E : forall l' : list (Q * arb),
            Forall (fun y : Q * arb => y.1 = profit_of y.2) l' ->
            List.filter (fun a => Qeq_bool (profit_of a) p) (map snd l')
            = map snd (List.filter (fun y : Q * arb => Qeq_bool y.1 p) l')).
  { induction 1 as [|y l' Hy _ IH']; [reflexivity|].
    cbn [map List.filter]. rewrite <- Hy, IH'. now destruct (Qeq_bool y.1 p). }
  rewrite E.
  2:{ rewrite insert_desc_perm. constructor; [reflexivity|exact Hkeys]. }
  rewrite filter_insert_desc.
  - cbn [List.filter fst]. rewrite E in IH by exact Hkeys.
    destruct (Qeq_bool (profit_of a) p); cbn [map snd]; now rewrite IH.
  - intros y Hx Hy. cbn [fst] in *. apply Qeq_bool_iff in Hx, Hy.
    apply Qlt_bool_false. rewrite Hx, Hy. apply Qle_refl.
Qed.

End dedupe_properties.

Lemma dedupe_errors_witness :
  dedupe [ example_arb "evt-1" "totals" (VNum 2.5) 3;
           dict_of [ ("market", VStr "h2h"); ("profit_pct", VNum 4) ] ]
  = Raise KeyError.
Proof.
  refine (proj2 (dedupe_errors
                   [ example_arb "evt-1" "totals" (VNum 2.5) 3;
                     dict_of [ ("market", VStr "h2h"); ("profit_pct", VNum 4) ] ] _) _).
  - repeat constructor; eexists; reflexivity.
  - apply Exists_cons. right. apply Exists_cons. left. left. reflexivity.
Defined.

Lemma dedupe_idempotent_witness :
  exists out,
    dedupe [ example_arb "evt-1" "totals" (VNum 2.5) 3;
             example_arb "evt-2" "h2h" VNone 4;
             example_arb "evt-1" "totals" (VNum 2.5) 7 ] = Ok out
    /\ dedupe out = Ok out.
Proof.
  destruct (dedupe [ example_arb "evt-1" "totals" (VNum 2.5) 3;
                     example_arb "evt-2" "h2h" VNone 4;
                     example_arb "evt-1" "totals" (VNum 2.5) 7 ]) as [out|] eqn:E;
    [|vm_compute in E; discriminate E].
  exists out. split; [reflexivity|]. exact (proj1 (dedupe_idempotent _ _ E)).
Defined.

Lemma sorted_by_profit_stable_witness :
  exists out,
    sorted_by_profit [ example_arb "evt-1" "totals" (VNum 2.5) 3;
                       example_arb "evt-2" "h2h" VNone 4;
                       example_arb "evt-3" "btts" VNone 3 ] = Ok out
    /\ List.filter (fun a => Qeq_bool (profit_of a) 3) out
       = [ example_arb "evt-1" "totals" (VNum 2.5) 3;
           example_arb "evt-3" "btts" VNone 3 ].
Proof.
  destruct (sorted_by_profit [ example_arb "evt-1" "totals" (VNum 2.5) 3;
                               example_arb "evt-2" "h2h" VNone 4;
                               example_arb "evt-3" "btts" VNone 3 ]) as [out|] eqn:E;
    [|vm_compute in E; discriminate E].
  exists out. split; [reflexivity|].
  rewrite (sorted_by_profit_stable _ _ 3 E). reflexivity.
Defined.

(** * Merging extra markets *)

Lemma foreach_snoc {A S} (l : list A) (x : A) (body : A -> S -> S) (s : S) :
  foreach (l ++ [x]) body s = body x (foreach l body s).
Proof. unfold foreach. now rewrite fold_left_app. Qed.

Lemma market_key_set_app (l1 l2 : list market) :
  market_key_set (l1 ++ l2) = market_key_set l1 ∪ market_key_set l2.
Proof.
  unfold market_key_set. rewrite omap_app. apply list_to_set_app_L.
Qed.

Lemma elem_of_market_key_set (mk : string) (markets : list market) :
  mk ∈ market_key_set markets <->
  mk <> "" /\ Some mk ∈ m_key <$> markets.
Proof.
  unfold market_key_set. rewrite elem_of_list_to_set, list_elem_of_omap. split.
  - intros (m & Hin & Hm). destruct (truthy (m_key m)) eqn:Et; [|discriminate].
    rewrite Hm in Et. cbn in Et. apply negb_true_iff, String.eqb_neq in Et.
    split; [exact Et|]. apply list_elem_of_fmap. exists m. auto.
  - intros [Hne Hin]. apply list_elem_of_fmap in Hin as (m & Hm & Hin).
    exists m. split; [exact Hin|]. rewrite <- Hm. cbn.
    apply String.eqb_neq in Hne. now rewrite Hne.
Qed.

Lemma bm_by_key_snoc (l : list bookmaker) (x : bookmaker) :
  bm_by_key (l ++ [x]) = <[key_or_empty x := length l]> (bm_by_key l).
Proof.
  unfold bm_by_key. rewrite length_app. cbn [length].
  rewrite Nat.add_1_r, seq_S. cbn [Nat.add].
  rewrite zip_with_app by now rewrite length_seq.
  cbn [zip_with]. now rewrite foreach_snoc.
Qed.

Lemma existing_mk_snoc (l : list bookmaker) (x : bookmaker) :
  existing_mk (l ++ [x])
  = <[key_or_empty x := market_key_set (bm_markets x)]> (existing_mk l).
Proof. unfold existing_mk. now rewrite foreach_snoc. Qed.

(** The two dictionaries built from the blocks of [ev] agree: a key
    refers to the last block that has it, and to the market keys of that
    block. *)
Lemma bm_by_key_Some (l : list bookmaker) (k : pystr) (i : nat) :
  bm_by_key l !! k = Some i ->
  exists bm, l !! i = Some bm /\ key_or_empty bm = k
             /\ existing_mk l !! k = Some (market_key_set (bm_markets bm)).
Proof.
  revert i. induction l as [|x l IH] using rev_ind; intros i.
  - unfold bm_by_key. cbn. rewrite lookup_empty. discriminate.
  - rewrite bm_by_key_snoc, existing_mk_snoc.
    destruct (decide (key_or_empty x = k)) as [<-|Hne].
    + rewrite !lookup_insert_eq. intros [= <-]. exists x.
      split; [|auto]. rewrite lookup_app_r by lia. now rewrite Nat.sub_diag.
    + rewrite !lookup_insert_ne by exact Hne. intros Hi.
      destruct (IH i Hi) as (bm & Hbm & Hk & He). exists bm.
      split; [|auto]. now apply lookup_app_l_Some.
Qed.

Lemma bm_by_key_None (l : list bookmaker) (k : pystr) :
  bm_by_key l !! k = None <-> k ∉ key_or_empty <$> l.
Proof.
  induction l as [|x l IH] using rev_ind.
  - unfold bm_by_key. cbn. rewrite lookup_empty. split; [|reflexivity].
    intros _ H. inversion H.
  - rewrite bm_by_key_snoc, fmap_app, elem_of_app. cbn [fmap list_fmap].
    rewrite list_elem_of_singleton.
    destruct (decide (key_or_empty x = k)) as [<-|Hne].
    + rewrite lookup_insert_eq. split; [discriminate|]. intros H. exfalso. apply H. now right.
    + rewrite lookup_insert_ne by exact Hne. rewrite IH. split.
      * intros H [H'|H']; [contradiction|]. now apply Hne.
      * intros H H'. apply H. now left.
Qed.

(** The inner loop: what is appended to the target and added to
    [existing]. *)
Lemma merge_markets_spec (markets target_markets : list market) (existing : gset string) :
  exists added,
    merge_markets markets target_markets existing
    = (target_markets ++ added, existing ∪ market_key_set added)
    /\ Forall (fun m => truthy (m_key m) = true) added
    /\ NoDup (m_key <$> added)
    /\ Forall (fun m => forall mk, m_key m = Some mk -> mk ∉ existing) added
    /\ Forall (fun m => m ∈ markets) added
    /\ (forall m mk, m ∈ markets -> m_key m = Some mk -> mk <> "" ->
          mk ∈ existing ∪ market_key_set added).
Proof.
  induction markets as [|m markets IH] using rev_ind.
  - exists []. unfold merge_markets, market_key_set. cbn.
    rewrite app_nil_r, (right_id_L ∅ (∪)).
    repeat split; try constructor. intros m mk H. inversion H.
  - destruct IH as (added & E & Ht & Hnd & Hfresh & Hsub & Hcov).
    unfold merge_markets in *. rewrite foreach_snoc, E. clear E.
    assert (Hsub' : Forall (fun m0 => m0 ∈ markets ++ [m]) added).
    { eapply Forall_impl; [exact Hsub|]. intros m0 H0. apply elem_of_app. now left. }
    assert (Hold : forall m0 mk (S : gset string), m0 ∈ markets ++ [m] ->
              m_key m0 = Some mk -> mk <> "" ->
              (m_key m = Some mk -> mk ∈ existing ∪ market_key_set added ∪ S) ->
              mk ∈ existing ∪ market_key_set added ∪ S).
    { intros m0 mk S H0 Hk Hne Hm. apply elem_of_app in H0 as [H0|H0].
      - apply elem_of_union. left. eauto.
      - apply list_elem_of_singleton in H0 as ->. auto. }
    destruct (m_key m) as [mk|] eqn:Ek.
    2:{ exists added. repeat split; try assumption.
        intros m0 mk0 H0 Hk Hne.
        pose proof (Hold m0 mk0 ∅ H0 Hk Hne) as H. rewrite (right_id_L ∅ (∪)) in H.
        apply H. discriminate. }
    destruct (String.eqb mk "") eqn:Ee; cbn [negb andb].
    { exists added. repeat split; try assumption.
      intros m0 mk0 H0 Hk Hne.
      pose proof (Hold m0 mk0 ∅ H0 Hk Hne) as H. rewrite (right_id_L ∅ (∪)) in H.
      apply H. intros [= ->]. apply String.eqb_eq in Ee. contradiction. }
    apply String.eqb_neq in Ee.
    destruct (bool_decide (mk ∈ existing ∪ market_key_set added)) eqn:Ed; cbn [negb].
    { apply bool_decide_eq_true in Ed. exists added. repeat split; try assumption.
      intros m0 mk0 H0 Hk Hne.
      pose proof (Hold m0 mk0 ∅ H0 Hk Hne) as H. rewrite (right_id_L ∅ (∪)) in H.
      apply H. now intros [= ->]. }
    apply bool_decide_eq_false in Ed.
    assert (Hset : market_key_set [m] = {[ mk ]}).
    { unfold market_key_set. cbn. rewrite Ek. cbn.
      apply String.eqb_neq in Ee. rewrite Ee. cbn.
      now rewrite (right_id_L ∅ (∪)). }
    exists (added ++ [m]). split; [|split; [|split; [|split; [|split]]]].
    + rewrite market_key_set_app, Hset, app_assoc. f_equal.
      now rewrite (assoc_L (∪)).
    + apply Forall_app. split; [exact Ht|]. constructor; [|constructor].
      rewrite Ek. cbn. apply String.eqb_neq in Ee. now rewrite Ee.
    + rewrite fmap_app. apply NoDup_app. split; [exact Hnd|]. split.
      * intros k Hk Hk'. cbn in Hk'. apply list_elem_of_singleton in Hk'. subst k.
        rewrite Ek in Hk. apply Ed, elem_of_union. right.
        now apply elem_of_market_key_set.
      * cbn. apply NoDup_singleton.
    + apply Forall_app. split; [exact Hfresh|]. constructor; [|constructor].
      intros mk' E. rewrite Ek in E. injection E as <-. intros H. apply Ed.
      apply elem_of_union. now left.
    + apply Forall_app. split; [exact Hsub'|]. constructor; [|constructor].
      apply elem_of_app. right. constructor.
    + intros m0 mk0 H0 Hk Hne. rewrite market_key_set_app, Hset, (assoc_L (∪)).
      apply (Hold m0 mk0 {[ mk ]} H0 Hk Hne).
      intros [= ->]. apply elem_of_union. right. now apply elem_of_singleton.
Qed.

Lemma extended_by_refl (bm : bookmaker) : extended_by [] bm bm.
Proof.
  repeat split. exists []. rewrite app_nil_r.
  repeat split; constructor.
Qed.

Lemma extended_by_more (done : list bookmaker) (x bm bm' : bookmaker) :
  extended_by done bm bm' -> extended_by (done ++ [x]) bm bm'.
Proof.
  intros (Hk & Ht & Hu & added & E & H1 & H2 & H3 & H4).
  repeat (split; [assumption|]). exists added. repeat (split; [assumption|]).
  eapply Forall_impl; [exact H4|]. intros m (xb & Hin & Hx).
  exists xb. split; [|exact Hx]. apply elem_of_app. now left.
Qed.

Lemma extended_by_key (done : list bookmaker) (bm bm' : bookmaker) :
  extended_by done bm bm' -> key_or_empty bm' = key_or_empty bm.
Proof. intros (Hk & _). unfold key_or_empty. now rewrite Hk. Qed.

Lemma merge_inv_init (orig : list bookmaker) :
  merge_inv orig [] (orig, existing_mk orig).
Proof.
  unfold merge_inv. cbn [fst snd]. rewrite firstn_all, drop_all.
  split; [|split; [reflexivity|split]].
  - apply Forall_Forall2_diag, Forall_forall. intros bm _. apply extended_by_refl.
  - intros k i Hi. destruct (bm_by_key_Some _ _ _ Hi) as (bm & Hbm & _ & He). eauto.
  - intros x m mk H. inversion H.
Qed.

Lemma merge_bookmaker_inv (orig done : list bookmaker) (x : bookmaker)
    (state : list bookmaker * gmap pystr (gset string)) :
  merge_inv orig done state ->
  merge_inv orig (done ++ [x]) (merge_bookmaker (bm_by_key orig) x state).
Proof.
  destruct state as [bs emk]. intros (I1 & I2 & I3 & I4). cbn [fst snd] in *.
  set (n := length orig) in *.
  pose proof (Forall2_length _ _ _ I1) as Hlen. rewrite length_take in Hlen.
  assert (Hn : (n <= length bs)%nat) by (fold n in Hlen; lia).
  set (new := fun bm => truthy (key_or_empty bm)
                        && bool_decide (key_or_empty bm ∉ key_or_empty <$> orig)) in *.
  assert (I1' : Forall2 (extended_by (done ++ [x])) orig (take n bs)).
  { eapply Forall2_impl; [exact I1|]. intros bm bm'. apply extended_by_more. }
  assert (I4' : forall bs' : list bookmaker, (forall bm, bm ∈ bs -> exists bm', bm' ∈ bs'
                      /\ key_or_empty bm' = key_or_empty bm
                      /\ market_key_set (bm_markets bm) ⊆ market_key_set (bm_markets bm')) ->
            forall x0 m mk, x0 ∈ done -> truthy (key_or_empty x0) = true ->
              m ∈ bm_markets x0 -> m_key m = Some mk -> mk <> "" ->
              exists bm', bm' ∈ bs' /\ key_or_empty bm' = key_or_empty x0
                          /\ mk ∈ market_key_set (bm_markets bm')).
  { intros bs' Hbs x0 m mk H0 Ht Hm Hk Hne.
    destruct (I4 x0 m mk H0 Ht Hm Hk Hne) as (bm & Hbm & Hkey & Hmk).
    destruct (Hbs bm Hbm) as (bm' & Hbm' & Hkey' & Hsub).
    exists bm'. split; [exact Hbm'|]. split; [congruence|]. now apply Hsub. }
  unfold merge_bookmaker, merge_inv. cbn [fst snd]. fold n new.
  rewrite List.filter_app. cbn [List.filter].
  destruct (truthy (key_or_empty x)) eqn:Et; cbn [negb].
  2:{ assert (new x = false) as -> by (unfold new; now rewrite Et).
      rewrite app_nil_r. cbn [fst snd].
      split; [exact I1'|]. split; [exact I2|]. split; [exact I3|].
      intros x0 m mk H0. apply elem_of_app in H0 as [H0|H0].
      - apply (I4' bs); [|exact H0]. intros bm Hbm. exists bm. auto.
      - apply list_elem_of_singleton in H0 as ->. congruence. }
  destruct (bm_by_key orig !! key_or_empty x) as [i|] eqn:Eb.
  - destruct (I3 _ _ Eb) as (target & Htarget & Hstored).
    destruct (bm_by_key_Some _ _ _ Eb) as (bm0 & Hbm0 & Hkey0 & _).
    pose proof (lookup_lt_Some _ _ _ Hbm0) as Hi. fold n in Hi.
    assert (Ht0 : take n bs !! i = Some target) by (now rewrite lookup_take_lt by exact Hi).
    pose proof (Forall2_lookup_lr _ _ _ _ _ _ I1' Hbm0 Ht0) as Hext.
    assert (new x = false) as ->.
    { unfold new. rewrite Et. cbn [andb]. apply bool_decide_eq_false.
      intros Hnot. apply bm_by_key_None in Hnot. congruence. }
    rewrite app_nil_r, Htarget, Hstored. cbn [from_option id].
    destruct (merge_markets_spec (bm_markets x) (bm_markets target)
                (market_key_set (bm_markets target)))
      as (added2 & -> & A1 & A2 & A3 & A4 & A5).
    cbn [fst snd].
    set (target' := with_markets target (bm_markets target ++ added2)).
    assert (Hset' : market_key_set (bm_markets target')
                    = market_key_set (bm_markets target) ∪ market_key_set added2).
    { unfold target'. cbn. apply market_key_set_app. }
    assert (Hext' : extended_by (done ++ [x]) bm0 target').
    { destruct Hext as (Hk & Hti & Hu & added & E & B1 & B2 & B3 & B4).
      repeat (split; [assumption|]).
      exists (added ++ added2). split; [cbn; now rewrite E, <- app_assoc|].
      split; [now apply Forall_app|]. split; [|split].
      - rewrite fmap_app. apply NoDup_app. split; [exact B2|]. split; [|exact A2].
        intros k Hk1 Hk2.
        apply list_elem_of_fmap in Hk2 as (m2 & -> & Hm2).
        rewrite Forall_forall in A1, A3. specialize (A1 _ Hm2). specialize (A3 _ Hm2).
        destruct (m_key m2) as [mk2|] eqn:Ek2; [|discriminate].
        apply (A3 mk2 eq_refl). apply elem_of_market_key_set. split.
        + cbn in A1. apply negb_true_iff in A1. now apply String.eqb_neq.
        + rewrite E, fmap_app, elem_of_app. now right.
      - apply Forall_app. split; [exact B3|].
        apply Forall_forall. intros m2 Hm2 Hin.
        rewrite Forall_forall in A1, A3. specialize (A1 _ Hm2). specialize (A3 _ Hm2).
        destruct (m_key m2) as [mk2|] eqn:Ek2; [|discriminate].
        apply (A3 mk2 eq_refl). apply elem_of_market_key_set. split.
        + cbn in A1. apply negb_true_iff in A1. now apply String.eqb_neq.
        + rewrite E, fmap_app, elem_of_app. now left.
      - apply Forall_app. split; [exact B4|].
        eapply Forall_impl; [exact A4|]. intros m2 Hm2. exists x.
        split; [apply elem_of_app; right; constructor|]. split; [congruence|exact Hm2]. }
    assert (Hkey' : key_or_empty target' = key_or_empty x).
    { rewrite (extended_by_key _ _ _ Hext'). exact Hkey0. }
    assert (Hkt : key_or_empty target = key_or_empty x).
    { rewrite (extended_by_key _ _ _ Hext). exact Hkey0. }
    pose proof (lookup_lt_Some _ _ _ Htarget) as Hib.
    split; [|split; [|split]].
    + rewrite take_insert_lt by exact Hi.
      rewrite <- (list_insert_id orig i bm0 Hbm0). now apply Forall2_insert.
    + rewrite drop_insert_lt by exact Hi. exact I2.
    + intros k j Hj. destruct (decide (k = key_or_empty x)) as [->|Hne].
      * assert (j = i) as -> by congruence.
        rewrite list_lookup_insert_eq by exact Hib. rewrite lookup_insert_eq.
        exists target'. split; [reflexivity|]. now rewrite Hset'.
      * destruct (bm_by_key_Some _ _ _ Hj) as (bmj & Hbmj & Hkj & _).
        assert (j <> i) by (intros ->; congruence).
        rewrite list_lookup_insert_ne by auto. rewrite lookup_insert_ne by auto.
        exact (I3 _ _ Hj).
    + intros x0 m mk H0. apply elem_of_app in H0 as [H0|H0].
      * apply (I4' (<[i:=target']> bs)); [|exact H0]. intros bm Hbm.
        apply list_elem_of_lookup in Hbm as [j Hj].
        destruct (decide (j = i)) as [->|Hne].
        -- assert (bm = target) as -> by congruence.
           exists target'. split; [|split].
           ++ apply list_elem_of_lookup. exists i. now apply list_lookup_insert_eq.
           ++ congruence.
           ++ rewrite Hset'. apply union_subseteq_l.
        -- exists bm. split; [|auto]. apply list_elem_of_lookup. exists j.
           now rewrite list_lookup_insert_ne by auto.
      * apply list_elem_of_singleton in H0 as ->. intros _ Hm Hk Hne.
        exists target'. split; [|split; [exact Hkey'|]].
        -- apply list_elem_of_lookup. exists i. now apply list_lookup_insert_eq.
        -- rewrite Hset'. exact (A5 m mk Hm Hk Hne).
  - assert (new x = true) as ->.
    { unfold new. rewrite Et. cbn [andb]. apply bool_decide_eq_true.
      now apply bm_by_key_None. }
    cbn [fst snd].
    split; [|split; [|split]].
    + rewrite take_app_le by exact Hn. exact I1'.
    + rewrite drop_app_le by exact Hn. now rewrite I2.
    + intros k j Hj. destruct (I3 _ _ Hj) as (bm' & Hbm' & He).
      exists bm'. split; [now apply lookup_app_l_Some|exact He].
    + intros x0 m mk H0. apply elem_of_app in H0 as [H0|H0].
      * apply (I4' (bs ++ [x])); [|exact H0]. intros bm Hbm.
        exists bm. split; [apply elem_of_app; now left|auto].
      * apply list_elem_of_singleton in H0 as ->. intros _ Hm Hk Hne.
        exists x. split; [apply elem_of_app; right; constructor|].
        split; [reflexivity|]. apply elem_of_market_key_set.
        split; [exact Hne|]. apply list_elem_of_fmap. exists m. auto.
Qed.

Lemma merge_loop_inv (orig extra : list bookmaker) :
  merge_inv orig extra
    (foreach extra (merge_bookmaker (bm_by_key orig)) (orig, existing_mk orig)).
Proof.
  induction extra as [|x extra IH] using rev_ind.
  - apply merge_inv_init.
  - rewrite foreach_snoc. now apply merge_bookmaker_inv.
Qed.

(** X17.  Merging the extra markets of an event loses and reorders
    nothing: the event keeps its id, teams and start time; each of its
    bookmaker blocks stays at its place with its key, title, update time
    and markets, followed by markets of same-keyed blocks of the extra
    event whose keys are non-empty, differ from each other and are new for
    the block; after them come, in order, the blocks of the extra event
    that have a non-empty key the event did not have. *)
Theorem _merge_event_markets_extends (ev extra_ev : event) :
  let ev' := _merge_event_markets ev extra_ev in
  let n := length (ev_bookmakers ev) in
  ev_id ev' = ev_id ev
  /\ ev_home_team ev' = ev_home_team ev
  /\ ev_away_team ev' = ev_away_team ev
  /\ ev_commence_time ev' = ev_commence_time ev
  /\ Forall2 (extended_by (ev_bookmakers extra_ev)) (ev_bookmakers ev)
       (take n (ev_bookmakers ev'))
  /\ drop n (ev_bookmakers ev')
     = List.filter
         (fun bm => truthy (key_or_empty bm)
                    && bool_decide (key_or_empty bm ∉ key_or_empty <$> ev_bookmakers ev))
         (ev_bookmakers extra_ev).
Proof.
  cbv zeta. unfold _merge_event_markets. cbn [ev_id ev_home_team ev_away_team
    ev_commence_time ev_bookmakers].
  destruct (merge_loop_inv (ev_bookmakers ev) (ev_bookmakers extra_ev))
    as (I1 & I2 & _ & _).
  repeat (split; [reflexivity|]). split; [exact I1|exact I2].
Qed.

(** X18.  After the merge every keyed market of every keyed bookmaker
    block of the extra event is represented: the event has a block with
    that bookmaker key that holds a market with that market key. *)
Theorem _merge_event_markets_covers (ev extra_ev : event) (x : bookmaker) (m : market)
    (mk : string) :
  x ∈ ev_bookmakers extra_ev -> truthy (key_or_empty x) = true ->
  m ∈ bm_markets x -> m_key m = Some mk -> mk <> "" ->
  exists bm' m',
    bm' ∈ ev_bookmakers (_merge_event_markets ev extra_ev)
    /\ key_or_empty bm' = key_or_empty x
    /\ m' ∈ bm_markets bm' /\ m_key m' = Some mk.
Proof.
  intros Hx Ht Hm Hk Hne.
  destruct (merge_loop_inv (ev_bookmakers ev) (ev_bookmakers extra_ev))
    as (_ & _ & _ & I4).
  destruct (I4 x m mk Hx Ht Hm Hk Hne) as (bm' & Hbm' & Hkey & Hmk).
  apply elem_of_market_key_set in Hmk as [_ Hmk].
  apply list_elem_of_fmap in Hmk as (m' & Hm' & Hin).
  exists bm', m'. auto.
Qed.

Lemma _merge_event_markets_covers_witness :
  exists bm' m',
    bm' ∈ ev_bookmakers (_merge_event_markets totals_event extra_event)
    /\ key_or_empty bm' = Some "bet365"
    /\ m' ∈ bm_markets bm' /\ m_key m' = Some "btts".
Proof.
  refine (_merge_event_markets_covers totals_event extra_event
            (example_bookmaker "bet365" "Bet365"
               [ {| m_key := Some "totals";
                    m_outcomes := [ example_outcome "Over" (Some 3.5) 3.10 ] |};
                 {| m_key := Some "btts";
                    m_outcomes :=
                      [ example_outcome "Yes" None 1.90;
                        example_outcome "No" None 1.95 ] |} ])
            {| m_key := Some "btts";
               m_outcomes :=
                 [ example_outcome "Yes" None 1.90; example_outcome "No" None 1.95 ] |}
            "btts" _ _ _ _ _).
  - left.
  - reflexivity.
  - right. left.
  - reflexivity.
  - discriminate.
Defined.

(** On [totals_event] and [extra_event]: bet365 gains the btts market and
    keeps its own totals market, pinnacle is untouched, unibet is new. *)
Example _merge_event_markets_example :
  (fun bm => (key_or_empty bm, m_key <$> bm_markets bm))
    <$> ev_bookmakers (_merge_event_markets totals_event extra_event)
  = [ (Some "bet365", [Some "totals"; Some "btts"]);
      (Some "pinnacle", [Some "totals"; Some "alternate_totals"]);
      (Some "unibet", [Some "btts"]) ].
Proof. vm_compute. reflexivity. Qed.

(** * The markets that are scanned *)

Section scanned_markets.
Context {builtins : PyBuiltins} (cfg : settings).







End scanned_markets.


